(** * dash.py: survey-table pipeline (load, filter, map composition, statistics)

    A shallow embedding of the functions of [dash.py] and of the script body
    that chains them.  Tables are row-major: a frame has a list of column
    names and a list of rows, each row carrying its index label and its cells
    in column order.  Code that can raise returns a [Result]; code that
    reports to the user through [st.error] / [st.warning] threads a log. *)

From Stdlib Require Import String Ascii List ZArith QArith Bool Arith Lia.
From Stdlib Require Import DecimalString.
From Stdlib Require Import Qround Qpower Qabs Lqa.
Import ListNotations.
Open Scope string_scope.
Open Scope list_scope.
Open Scope nat_scope.

(** ** Cells, exceptions, results *)

(** A table cell.  [VFloat] carries the binary64 bit pattern of a non-NaN
    float; the float NaN (pandas' missing marker) is [VNaN], the missing
    timestamp is [VNaT], Python's [None] is [VNone].  [VTime] is a pandas
    Timestamp (nanoseconds since the epoch) and [VPoint] a shapely point.
    Equality on cells is structural: Python's cross-type numeric equalities
    (1 == 1.0, 0.0 == -0.0) are outside the model. *)
Inductive Value : Type :=
| VStr (s : string)
| VInt (n : Z)
| VFloat (bits : Z)
| VTime (ns : Z)
| VNaN
| VNaT
| VNone
| VPoint (x y : Value).

Inductive Exn : Type :=
| KeyError (key : Value)
| ValueError (what : string)
| AttributeError (what : string)
| IOError (what : string).

Inductive Result (A : Type) : Type :=
| Ok (a : A)
| Raise (e : Exn).
Arguments Ok {A} a.
Arguments Raise {A} e.

Definition rbind {A B} (m : Result A) (k : A -> Result B) : Result B :=
  match m with
  | Ok a => k a
  | Raise e => Raise e
  end.

Notation "x <- m ;; k" := (rbind m (fun x => k))
  (at level 61, m at next level, right associativity).

Definition Value_eq_dec : forall a b : Value, {a = b} + {a <> b}.
Proof.
  decide equality; first [apply string_dec | apply Z.eq_dec].
Defined.

Definition value_eqb (a b : Value) : bool :=
  if Value_eq_dec a b then true else false.

(** [pd.isnull] on a scalar. *)
Definition isnull (v : Value) : bool :=
  match v with
  | VNaN | VNaT | VNone => true
  | _ => false
  end.

Definition notnull (v : Value) : bool := negb (isnull v).

(** ** Frames *)

Record Row : Type := mkRow { label : nat; cells : list Value }.

Record DataFrame : Type := mkDF { columns : list string; rows : list Row }.

Fixpoint col_index (col : string) (cols : list string) : option nat :=
  match cols with
  | [] => None
  | c :: rest =>
      if String.eqb col c then Some 0
      else option_map S (col_index col rest)
  end.

Definition has_column (df : DataFrame) (col : string) : bool :=
  match col_index col (columns df) with Some _ => true | None => false end.

Definition cell (i : nat) (r : Row) : Value := nth i (cells r) VNaN.

(** [df[col]]: the column as a series of values, or [KeyError]. *)
Definition get_column (df : DataFrame) (col : string) : Result (list Value) :=
  match col_index col (columns df) with
  | Some i => Ok (map (cell i) (rows df))
  | None => Raise (KeyError (VStr col))
  end.

(** [row[col]] inside [iterrows]. *)
Definition row_get (df : DataFrame) (r : Row) (col : string) : Result Value :=
  match col_index col (columns df) with
  | Some i => Ok (cell i r)
  | None => Raise (KeyError (VStr col))
  end.

(** A frame is rectangular: every row has one cell per column. *)
Definition well_formed (df : DataFrame) : bool :=
  forallb (fun r => Nat.eqb (length (cells r)) (length (columns df))) (rows df).

(** The rows whose Data cell is not missing; none when there is no such
    column. *)
Definition dated_rows (df : DataFrame) : list Row :=
  match col_index "Data" (columns df) with
  | Some i => filter (fun r => notnull (cell i r)) (rows df)
  | None => []
  end.

(** [Series.isin(values)] on one element. *)
Definition isin (values : list Value) (v : Value) : bool :=
  existsb (value_eqb v) values.

(** [Series.unique()]: distinct values in order of first appearance. *)
Fixpoint unique_from (seen : list Value) (l : list Value) : list Value :=
  match l with
  | [] => []
  | x :: rest =>
      if isin seen x then unique_from seen rest
      else x :: unique_from (x :: seen) rest
  end.

Definition unique (l : list Value) : list Value := unique_from [] l.

(** [df[mask]]: boolean-mask indexing keeps the rows whose mask entry is
    true, with their labels and in their order. *)
Definition boolean_index (df : DataFrame) (mask : list bool) : DataFrame :=
  mkDF (columns df) (map fst (filter snd (combine (rows df) mask))).

(** ** Attribute filter engine *)

(** The [filters] dict, in insertion order: column name and allowed values. *)
Definition Filters : Type := list (string * list Value).

(** One iteration of the loop of [apply_attribute_filters].  The guard
    [values and len(values) != len(df[col].unique())] short-circuits: for an
    empty list [df[col]] is not evaluated. *)
Definition filter_step (df : DataFrame) (cv : string * list Value)
  : Result DataFrame :=
  let (col, values) := cv in
  match values with
  | [] => Ok df
  | _ :: _ =>
      series <- get_column df col ;;
      if Nat.eqb (length values) (length (unique series)) then Ok df
      else Ok (boolean_index df (map (isin values) series))
  end.

Fixpoint apply_attribute_filters (df : DataFrame) (filters : Filters)
  : Result DataFrame :=
  match filters with
  | [] => Ok df
  | cv :: rest =>
      df' <- filter_step df cv ;;
      apply_attribute_filters df' rest
  end.

(** ** Category colours: a Python dict from cell value to colour *)

Definition ColorMap : Type := list (Value * string).

Fixpoint dict_lookup (d : ColorMap) (k : Value) : option string :=
  match d with
  | [] => None
  | (k', c) :: rest => if value_eqb k k' then Some c else dict_lookup rest k
  end.

(** [d.get(k, default)] *)
Definition dict_get (d : ColorMap) (k : Value) (default : string) : string :=
  match dict_lookup d k with Some c => c | None => default end.

(** [d[k]] *)
Definition dict_item (d : ColorMap) (k : Value) : Result string :=
  match dict_lookup d k with Some c => Ok c | None => Raise (KeyError k) end.

(** Truth value of a list or dict: non-empty. *)
Definition truthy {A} (l : list A) : bool :=
  match l with [] => false | _ :: _ => true end.

(** ** Statistics aggregator *)

Definition tally (series : list Value) : list (Value * nat) :=
  map (fun v => (v, count_occ Value_eq_dec series v)) (unique series).

Fixpoint insert_desc (p : Value * nat) (l : list (Value * nat))
  : list (Value * nat) :=
  match l with
  | [] => [p]
  | q :: rest =>
      if Nat.leb (snd q) (snd p) then p :: q :: rest
      else q :: insert_desc p rest
  end.

(** [Series.value_counts()]: missing values are dropped ([dropna=True]), the
    rest is counted per distinct value and sorted by descending count; equal
    counts keep the order of first appearance. *)
Definition value_counts (series : list Value) : list (Value * nat) :=
  fold_right insert_desc [] (tally (filter notnull series)).

Definition sum_nat (l : list nat) : nat := fold_right Nat.add 0 l.



(** *** binary64 arithmetic on finite values

    A finite double is kept as the rational number it denotes.
    [round_binary64 x] is the double nearest to the real [x], ties to even:
    with [e] the binary exponent of [|x|], the significand [x / 2^(e-52)] is
    rounded to an integer; below the normal range the spacing stays at
    [2^-1074] (subnormals).  IEEE 754 defines conversion, division and
    multiplication as the rounding of the exact result.  Overflow and
    division by zero are not modelled: the aggregator divides counts by
    their positive sum and multiplies a quotient of at most 1 by 100. *)

Definition pow2 (k : Z) : Q := Qpower 2 k.

(** The integer nearest to [x], the even one of two nearest. *)
Definition round_half_even (x : Q) : Z :=
  let f := Qfloor x in
  match Qcompare (x - inject_Z f) (1 # 2) with
  | Lt => f
  | Gt => (f + 1)%Z
  | Eq => if Z.even f then f else (f + 1)%Z
  end.

(** For positive [x], the [e] with [2^e <= x < 2^(e+1)]. *)
Definition binary_exponent (x : Q) : Z :=
  let e := (Z.log2 (Qnum x) - Z.log2 (Zpos (Qden x)))%Z in
  if Qle_bool (pow2 e) x then e else (e - 1)%Z.

Definition round_binary64 (x : Q) : Q :=
  let k := Z.max (binary_exponent (Qabs x) - 52) (-1074) in
  Qred (inject_Z (round_half_even (x / pow2 k)) * pow2 k).

(** int64 to float64 *)
Definition float_of_int (n : Z) : Q := round_binary64 (inject_Z n).

Definition fdiv (a b : Q) : Q := round_binary64 (a / b).

Definition fmul (a b : Q) : Q := round_binary64 (a * b).


(** [(counts / total_count) * 100] on one count: both integers become
    doubles, the quotient is rounded, and so is its product with 100. *)
Definition percentage (total_count count : nat) : Q :=
  fmul (fdiv (float_of_int (Z.of_nat count))
             (float_of_int (Z.of_nat total_count)))
       100.

Record StatsRow : Type := mkStats
  { Categoria : Value; Contagem : nat; Percentual : Q }.

Record Charts : Type := mkCharts
  { stats_df : list StatsRow;
    colors : list string }.

Definition stats_table (series : list Value) : list StatsRow :=
  let counts := value_counts series in
  let total_count := sum_nat (map snd counts) in
  map (fun p => mkStats (fst p) (snd p) (percentage total_count (snd p))) counts.

(** [create_statistics_chart]: the table behind both figures and the colour
    assigned to each category.  The figures themselves are plotly objects
    built from these two; what plotly does with them is outside the model. *)
Definition create_statistics_chart (df : DataFrame) (column_name : string)
    (color_map : ColorMap) : Result Charts :=
  series <- get_column df column_name ;;
  let stats := stats_table series in
  Ok (mkCharts stats
        (map (fun s => dict_get color_map (Categoria s) "#1f77b4") stats)).

(** ** Reports to the user, and code that both reports and raises *)

Inductive Report : Type :=
| StError (text : string)
| StErrorExn (text : string) (e : Exn)
| StWarning (text : string).

Definition M (A : Type) : Type := (Result A * list Report)%type.

Definition ret {A} (a : A) : M A := (Ok a, []).

Definition mbind {A B} (m : M A) (k : A -> M B) : M B :=
  match m with
  | (Ok a, log) => let (r, log') := k a in (r, log ++ log')
  | (Raise e, log) => (Raise e, log)
  end.

Definition lift {A} (r : Result A) : M A := (r, []).

Definition report (r : Report) : M unit := (Ok tt, [r]).

(** [try: m except Exception as e: handler e] *)
Definition try_except {A} (m : M A) (handler : Exn -> M A) : M A :=
  match m with
  | (Ok a, log) => (Ok a, log)
  | (Raise e, log) => let (r, log') := handler e in (r, log ++ log')
  end.

Notation "x <~ m ;; k" := (mbind m (fun x => k))
  (at level 61, m at next level, right associativity).

(** ** Column assignment *)

Fixpoint replace_nth {A} (i : nat) (v : A) (l : list A) : list A :=
  match l, i with
  | [], _ => []
  | _ :: rest, O => v :: rest
  | x :: rest, S j => x :: replace_nth j v rest
  end.

(** [df[col] = series]: an existing column is overwritten in place, a new
    one is appended on the right. *)
Definition set_column (df : DataFrame) (col : string) (series : list Value)
  : DataFrame :=
  match col_index col (columns df) with
  | Some i =>
      mkDF (columns df)
        (map (fun rv => mkRow (label (fst rv)) (replace_nth i (snd rv) (cells (fst rv))))
             (combine (rows df) series))
  | None =>
      mkDF (columns df ++ [col])
        (map (fun rv => mkRow (label (fst rv)) (cells (fst rv) ++ [snd rv]))
             (combine (rows df) series))
  end.

(** ** Coordinate normalizer *)

(** [str.replace(pat, repl)] for one-character [pat] and [repl]: every
    occurrence is replaced. *)
Fixpoint str_replace (pat repl : ascii) (s : string) : string :=
  match s with
  | EmptyString => EmptyString
  | String c rest =>
      String (if Ascii.eqb c pat then repl else c) (str_replace pat repl rest)
  end.

Fixpoint count_char (c : ascii) (s : string) : nat :=
  match s with
  | EmptyString => 0
  | String c' rest => (if Ascii.eqb c' c then 1 else 0) + count_char c rest
  end.

(** What Python's [float()] reads in a string, before rounding to binary64. *)
Inductive FloatLiteral : Type :=
| LitNan
| LitInf (negative : bool)
| LitDec (negative : bool) (int_part frac_part : list ascii)
         (exponent : option (bool * list ascii)).

Definition is_digit (c : ascii) : bool :=
  let n := nat_of_ascii c in (48 <=? n) && (n <=? 57).

(** ASCII white space as [float()] strips it: TAB..CR, FS..US and space. *)
Definition is_space (c : ascii) : bool :=
  let n := nat_of_ascii c in
  ((9 <=? n) && (n <=? 13)) || ((28 <=? n) && (n <=? 32)).

Definition is_dot (c : ascii) : bool := Ascii.eqb c ".".
Definition is_exp_mark (c : ascii) : bool := Ascii.eqb c "e" || Ascii.eqb c "E".

Definition to_lower (c : ascii) : ascii :=
  let n := nat_of_ascii c in
  if (65 <=? n) && (n <=? 90) then ascii_of_nat (n + 32) else c.

Fixpoint drop_while (p : ascii -> bool) (l : list ascii) : list ascii :=
  match l with
  | [] => []
  | c :: rest => if p c then drop_while p rest else l
  end.

Definition strip (l : list ascii) : list ascii :=
  rev (drop_while is_space (rev (drop_while is_space l))).

(** Splits at the first character satisfying [p]; the second part starts
    with that character, or is empty when there is none. *)
Fixpoint break_at (p : ascii -> bool) (l : list ascii)
  : list ascii * list ascii :=
  match l with
  | [] => ([], [])
  | c :: rest =>
      if p c then ([], l)
      else let (a, b) := break_at p rest in (c :: a, b)
  end.

(** [digit (["_"] digit)*], after its first digit; [after_us] tells whether
    the previous character was an underscore. *)
Fixpoint digitpart_tail (after_us : bool) (l : list ascii) : bool :=
  match l with
  | [] => negb after_us
  | c :: rest =>
      if is_digit c then digitpart_tail false rest
      else if Ascii.eqb c "_" then negb after_us && digitpart_tail true rest
      else false
  end.

Definition digitpart (l : list ascii) : bool :=
  match l with
  | [] => false
  | c :: rest => is_digit c && digitpart_tail false rest
  end.

Definition take_sign (l : list ascii) : bool * list ascii :=
  match l with
  | c :: rest =>
      if Ascii.eqb c "-" then (true, rest)
      else if Ascii.eqb c "+" then (false, rest)
      else (false, l)
  | [] => (false, [])
  end.

Definition parse_exponent (l : list ascii) : option (option (bool * list ascii)) :=
  match l with
  | [] => Some None
  | _ :: rest =>
      let (neg, digits) := take_sign rest in
      if digitpart digits then Some (Some (neg, digits)) else None
  end.

(** [number ::= [digitpart] "." digitpart | digitpart ["."]] *)
Definition number_ok (ip : list ascii) (dot_and_frac : list ascii) : bool :=
  match dot_and_frac with
  | [] => digitpart ip
  | _ :: fp =>
      match ip, fp with
      | [], _ => digitpart fp
      | _, [] => digitpart ip
      | _, _ => digitpart ip && digitpart fp
      end
  end.

Definition special (neg : bool) (body : list ascii) : option FloatLiteral :=
  let low := string_of_list_ascii (map to_lower body) in
  if String.eqb low "nan" then Some LitNan
  else if String.eqb low "inf" || String.eqb low "infinity" then Some (LitInf neg)
  else None.

(** The grammar of Python's [float(str)] over ASCII text: optional
    surrounding white space, optional sign, then [nan], [inf], [infinity]
    (any case) or a decimal number with optional fraction and exponent. *)
Definition read_float (s : string) : option FloatLiteral :=
  let (neg, body) := take_sign (strip (list_ascii_of_string s)) in
  match special neg body with
  | Some lit => Some lit
  | None =>
      let (mant, exp) := break_at is_exp_mark body in
      let (ip, frac) := break_at is_dot mant in
      if number_ok ip frac then
        match parse_exponent exp with
        | Some e => Some (LitDec neg ip (tl frac) e)
        | None => None
        end
      else None
  end.

(** Python's [[f(x) for x in l]] when [f] can raise: the first exception ends
    the loop. *)
Fixpoint mapM {A B} (f : A -> Result B) (l : list A) : Result (list B) :=
  match l with
  | [] => Ok []
  | x :: rest =>
      y <- f x ;;
      ys <- mapM f rest ;;
      Ok (y :: ys)
  end.

(** ** External collaborators

    What the libraries and the user's machine contribute: spreadsheet
    reading, Python's [str()] of a non-text cell, rounding of a decimal
    literal to binary64 (as bits), date parsing, the pyproj transform, the
    logo file and the GeoJSON writer. *)
Class Runtime : Type := mkRuntime
  { read_excel : string -> Result DataFrame;
    py_str : Value -> string;
    round64 : FloatLiteral -> Z;
    parse_datetime : Value -> option Z;
    transform : Value -> Value -> Value * Value;
    read_logo : string -> Result string;
    to_file : DataFrame -> string -> Result unit }.

Section WithRuntime.
Context {R : Runtime}.

(** [Series.astype(str)] on one cell. *)
Definition astype_str (v : Value) : string :=
  match v with
  | VStr s => s
  | _ => py_str v
  end.

(** [Series.astype(float)] on one text cell: Python's [float()]. *)
Definition astype_float (s : string) : Result Value :=
  match read_float s with
  | Some LitNan => Ok VNaN
  | Some lit => Ok (VFloat (round64 lit))
  | None => Raise (ValueError s)
  end.

(** [.astype(str).str.replace(',', '.').astype(float)] on one cell. *)
Definition normalize_coordinate (v : Value) : Result Value :=
  astype_float (str_replace "," "." (astype_str v)).

Definition normalize_column (df : DataFrame) (col : string) : Result DataFrame :=
  series <- get_column df col ;;
  floats <- mapM normalize_coordinate series ;;
  Ok (set_column df col floats).

(** [pd.to_datetime(series, errors='coerce')] on one cell: what cannot be
    parsed becomes [NaT], without any report. *)
Definition to_datetime_coerce (v : Value) : Value :=
  match v with
  | VTime t => VTime t
  | VNaN | VNaT | VNone => VNaT
  | _ => match parse_datetime v with
         | Some t => VTime t
         | None => VNaT
         end
  end.

Definition missing_date_column : string :=
  "A coluna 'Data' não foi encontrada no arquivo Excel.".

Definition load_data_body (file_path : string) : M DataFrame :=
  df <~ lift (read_excel file_path) ;;
  df <~ (if has_column df "Data"
         then series <~ lift (get_column df "Data") ;;
              ret (set_column df "Data" (map to_datetime_coerce series))
         else _ <~ report (StError missing_date_column) ;; ret df) ;;
  df <~ lift (normalize_column df "POINT_X") ;;
  df <~ lift (normalize_column df "POINT_Y") ;;
  ret df.

(** [load_data]: [None] stands for Python's [None]; no exception escapes. *)
Definition load_data (file_path : string) : option DataFrame * list Report :=
  match load_data_body file_path with
  | (Ok df, log) => (Some df, log)
  | (Raise e, log) =>
      (None, log ++ [StErrorExn "Erro ao ler o arquivo Excel: " e])
  end.

End WithRuntime.

(** ** Scene *)

(** A time-stamped GeoJSON feature; [time] is the Timestamp whose
    [isoformat()] text the code stores. *)
Record TimeFeature : Type := mkFeature
  { coordinates : Value * Value;
    time : Z;
    popup : Value;
    style_color : string }.

Inductive Layer : Type :=
| Basemap (name : string)
| LogoOverlay (encoded : string)
| LocateControl
| HeatMap (heat_data : list (Value * Value))
| TimestampedGeoJson (features : list TimeFeature)
| CircleMarker (location : Value * Value) (color fill_color : string)
| LegendPanel (entries : ColorMap)
| GeoJsonLayer (layer_name : string) (features : list Row).

(** The map, as the list of what was added to it, in order. *)
Definition Scene : Type := list Layer.

Definition is_heat (l : Layer) : bool :=
  match l with HeatMap _ => true | _ => false end.

Definition is_marker (l : Layer) : bool :=
  match l with CircleMarker _ _ _ => true | _ => false end.

Definition time_features_of (m : Scene) : list TimeFeature :=
  flat_map (fun l => match l with TimestampedGeoJson fs => fs | _ => [] end) m.

Definition base_features_of (m : Scene) : list Row :=
  flat_map (fun l => match l with GeoJsonLayer _ fs => fs | _ => [] end) m.

Definition basemap_name (basemap_option : string) : string :=
  if String.eqb basemap_option "Google Maps" then "ROADMAP"
  else if String.eqb basemap_option "Google Satellite" then "SATELLITE"
  else if String.eqb basemap_option "Google Terrain" then "TERRAIN"
  else if String.eqb basemap_option "ESRI Satellite" then "Esri.WorldImagery"
  else if String.eqb basemap_option "ESRI Street" then "Esri.WorldStreetMap"
  else "openstreetmap".

(** Truth value of [legend_column]: [None] and the empty string are false. *)
Definition legend_set (legend_column : option string) : bool :=
  match legend_column with
  | Some s => negb (String.eqb s "")
  | None => false
  end.

(** [row[legend_column]] *)
Definition row_legend (gdf : DataFrame) (r : Row) (legend_column : option string)
  : Result Value :=
  match legend_column with
  | Some c => row_get gdf r c
  | None => Raise (KeyError VNone)
  end.

(** [row['Data'].isoformat()] *)
Definition isoformat (v : Value) : Result Z :=
  match v with
  | VTime t => Ok t
  | _ => Raise (AttributeError "isoformat")
  end.

(** One pass of the loop of lines 109-123: [None] when the row's timestamp
    is missing. *)
Definition time_feature (gdf : DataFrame) (legend_column : option string)
    (color_map : ColorMap) (r : Row) : Result (option TimeFeature) :=
  d <- row_get gdf r "Data" ;;
  if notnull d then
    lon <- row_get gdf r "Longitude" ;;
    lat <- row_get gdf r "Latitude" ;;
    t <- isoformat d ;;
    text <- (if legend_set legend_column then row_legend gdf r legend_column
              else Ok (VStr "")) ;;
    color <- (if truthy color_map
              then k <- row_legend gdf r legend_column ;;
                   Ok (dict_get color_map k "blue")
              else Ok "blue") ;;
    Ok (Some (mkFeature (lon, lat) t text color))
  else Ok None.

Fixpoint time_features (gdf : DataFrame) (legend_column : option string)
    (color_map : ColorMap) (rs : list Row) : Result (list TimeFeature) :=
  match rs with
  | [] => Ok []
  | r :: rest =>
      f <- time_feature gdf legend_column color_map r ;;
      fs <- time_features gdf legend_column color_map rest ;;
      Ok (match f with Some x => x :: fs | None => fs end)
  end.

Definition heat_point (gdf : DataFrame) (r : Row) : Result (Value * Value) :=
  lat <- row_get gdf r "Latitude" ;;
  lon <- row_get gdf r "Longitude" ;;
  Ok (lat, lon).

(** One pass of the loop of lines 146-152. *)
Definition circle_marker (gdf : DataFrame) (legend_column : option string)
    (color_map : ColorMap) (r : Row) : Result Layer :=
  lat <- row_get gdf r "Latitude" ;;
  lon <- row_get gdf r "Longitude" ;;
  k <- row_legend gdf r legend_column ;;
  color <- dict_item color_map k ;;
  k' <- row_legend gdf r legend_column ;;
  fill_color <- dict_item color_map k' ;;
  Ok (CircleMarker (lat, lon) color fill_color).

Definition no_time_data : string :=
  "Nenhum dado disponível para criar o mapa temporal.".

Definition empty_geodataframe : string :=
  "O GeoDataFrame está vazio. Verifique os dados filtrados.".

Definition no_lon_lat : string :=
  "O arquivo Excel não contém colunas 'Longitude' e 'Latitude'.".

Definition geojson_failed : string :=
  "Falha ao converter os dados para GeoJSON.".

Definition no_filter_column : string :=
  "Nenhuma coluna selecionada para filtrar. Selecione as colunas na barra lateral.".

Definition load_failed : string := "Falha ao carregar os dados.".

(** [DataFrame.empty]: some axis has length 0. *)
Definition df_empty (df : DataFrame) : bool :=
  negb (truthy (rows df)) || negb (truthy (columns df)).

Fixpoint remove_nth {A} (i : nat) (l : list A) : list A :=
  match l, i with
  | [], _ => []
  | _ :: rest, O => rest
  | x :: rest, S j => x :: remove_nth j rest
  end.

(** [df.drop(columns=[col])], a new frame. *)
Definition drop_column (df : DataFrame) (col : string) : Result DataFrame :=
  match col_index col (columns df) with
  | Some i =>
      Ok (mkDF (remove_nth i (columns df))
               (map (fun r => mkRow (label r) (remove_nth i (cells r))) (rows df)))
  | None => Raise (KeyError (VStr col))
  end.

Fixpoint drop_columns (df : DataFrame) (cols : list string) : Result DataFrame :=
  match cols with
  | [] => Ok df
  | c :: rest => df' <- drop_column df c ;; drop_columns df' rest
  end.

(** What the user chose in the sidebar widgets. *)
Record UI : Type := mkUI
  { filter_columns : list string;
    selected_vals : string -> list Value -> list Value;
    legend_choice : option string;
    color_picker : Value -> string;
    basemap_choice : string;
    heatmap_box : bool;
    time_series_box : bool }.

(** What the page shows at the end of the script. *)
Record Page : Type := mkPage
  { scene : option Scene;
    charts : option Charts;
    filtered_table : option DataFrame }.

Definition blank_page : Page := mkPage None None None.

Section Composer.
Context {R : Runtime}.

(** [convert_utm_to_latlon]: the frame gains (or has overwritten) the
    columns Longitude and Latitude. *)
Definition convert_utm_to_latlon (df : DataFrame) : Result DataFrame :=
  xs <- get_column df "POINT_X" ;;
  ys <- get_column df "POINT_Y" ;;
  let out := map (fun xy => transform (fst xy) (snd xy)) (combine xs ys) in
  Ok (set_column (set_column df "Longitude" (map fst out))
                 "Latitude" (map snd out)).

(** [convert_to_geojson]: [None] stands for the pair [(None, None)]. *)
Definition convert_to_geojson (df : DataFrame)
  : M (option (string * DataFrame)) :=
  try_except
    (if has_column df "Longitude" && has_column df "Latitude" then
       lons <~ lift (get_column df "Longitude") ;;
       lats <~ lift (get_column df "Latitude") ;;
       let gdf :=
         set_column df "geometry"
           (map (fun p => VPoint (fst p) (snd p)) (combine lons lats)) in
       if negb (df_empty gdf) then
         _ <~ lift (to_file gdf "output.geojson") ;;
         ret (Some ("output.geojson", gdf))
       else
         _ <~ report (StError empty_geodataframe) ;; ret None
     else
       _ <~ report (StError no_lon_lat) ;; ret None)
    (fun e =>
       _ <~ report (StErrorExn "Erro ao converter para GeoJSON: " e) ;;
       ret None).

(** [create_map].  Line 84 reads both coordinate columns for the map centre;
    the centre itself, a float mean, is not part of the scene.  An empty
    [color_map] stands for both [{}] and the default [None]. *)
Definition create_map (gdf : DataFrame) (basemap_option logo_path : string)
    (legend_column : option string) (color_map : ColorMap)
    (generate_heatmap generate_time_series : bool) : M Scene :=
  _ <~ lift (get_column gdf "Latitude") ;;
  _ <~ lift (get_column gdf "Longitude") ;;
  logo <~ lift (read_logo logo_path) ;;
  let m := [Basemap (basemap_name basemap_option); LogoOverlay logo;
            LocateControl] in
  m <~ (if generate_heatmap then
          heat_data <~ lift (mapM (heat_point gdf) (rows gdf)) ;;
          ret (m ++ [HeatMap heat_data])
        else ret m) ;;
  m <~ (if generate_time_series && has_column gdf "Data" then
          features <~ lift (time_features gdf legend_column color_map (rows gdf)) ;;
          if truthy features then ret (m ++ [TimestampedGeoJson features])
          else _ <~ report (StError no_time_data) ;; ret m
        else ret m) ;;
  m <~ (if legend_set legend_column && truthy color_map then
          markers <~ lift (mapM (circle_marker gdf legend_column color_map)
                                (rows gdf)) ;;
          ret (m ++ markers ++ [LegendPanel color_map])
        else ret m) ;;
  ret m.

(** The script body, lines 226-318.  Exceptions that the script does not
    catch end it: the result is then [Raise].  Saving the map to disk on
    request does not change what the page shows and is left out. *)
Definition app (excel_file logo_path : string) (ui : UI) : M Page :=
  _ <~ lift (read_logo logo_path) ;;
  match load_data excel_file with
  | (None, log) => (Ok blank_page, log ++ [StError load_failed])
  | (Some df, log) =>
      _ <~ (Ok tt, log) ;;
      df <~ lift (convert_utm_to_latlon df) ;;
      df_to_display <~ lift (drop_columns df
                               ["POINT_X"; "POINT_Y"; "Longitude"; "Latitude"]) ;;
      if truthy (filter_columns ui) then
        filters <~ lift (mapM (fun col =>
                                 series <- get_column df_to_display col ;;
                                 Ok (col, selected_vals ui col (unique series)))
                              (filter_columns ui)) ;;
        df_filtered <~ lift (apply_attribute_filters df_to_display filters) ;;
        let legend_column := legend_choice ui in
        color_map <~ (match legend_column with
                      | Some c =>
                          if legend_set legend_column then
                            series <~ lift (get_column df_filtered c) ;;
                            ret (map (fun v => (v, color_picker ui v))
                                     (unique series))
                          else ret []
                      | None => ret []
                      end) ;;
        converted <~ convert_to_geojson df ;;
        match converted with
        | Some (geojson_file, gdf) =>
            m <~ create_map gdf (basemap_choice ui) logo_path legend_column
                   color_map (heatmap_box ui) (time_series_box ui) ;;
            let m := m ++ [GeoJsonLayer "Dados GeoJSON" (rows gdf)] in
            figs <~ (if has_column df_filtered "Analise" then
                       c <~ lift (create_statistics_chart df_filtered "Analise"
                                    color_map) ;;
                       ret (Some c)
                     else ret None) ;;
            ret (mkPage (Some m) figs (Some df_filtered))
        | None =>
            _ <~ report (StError geojson_failed) ;; ret blank_page
        end
      else
        _ <~ report (StWarning no_filter_column) ;; ret blank_page
  end.

End Composer.

(** ** A worked example: one survey sheet and the machine it is read on *)

Module Sample.

Definition row0 : Row :=
  mkRow 0 [VStr "A"; VStr "ok"; VStr "2023-01-05";
           VStr "680000,5"; VStr "7460000,2"].

Definition row1 : Row :=
  mkRow 1 [VStr "B"; VStr "ok"; VStr "sem data";
           VStr "681000.0"; VStr "7461000.0"].

Definition row2 : Row :=
  mkRow 2 [VStr "B"; VNaN; VStr "2023-01-07";
           VStr "682000"; VStr "7462000"].

Definition sheet_columns : list string :=
  ["Tipo"; "Analise"; "Data"; "POINT_X"; "POINT_Y"].

Definition survey : DataFrame := mkDF sheet_columns [row0; row1; row2].

(** A sheet with the header row only. *)
Definition empty_survey : DataFrame := mkDF sheet_columns [].

(** A sheet whose easting uses a thousands separator and a decimal comma. *)
Definition thousands_survey : DataFrame :=
  mkDF sheet_columns
    [mkRow 0 [VStr "A"; VStr "ok"; VStr "2023-01-05";
              VStr "680,000,5"; VStr "7460000,2"]].

Definition digit_value (c : ascii) : Z := Z.of_nat (nat_of_ascii c - 48).

Definition digits_value (l : list ascii) : Z :=
  fold_left (fun acc c => if is_digit c then (10 * acc + digit_value c)%Z else acc)
            l 0%Z.

(** Stand-in for dateutil: accepts [YYYY-MM-DD] only and numbers the day as
    YYYYMMDD. *)
Definition iso_day (v : Value) : option Z :=
  match v with
  | VStr s =>
      match list_ascii_of_string s with
      | [y1; y2; y3; y4; d1; m1; m2; d2; a1; a2] =>
          if forallb is_digit [y1; y2; y3; y4; m1; m2; a1; a2]
             && Ascii.eqb d1 "-" && Ascii.eqb d2 "-"
          then Some (digits_value [y1; y2; y3; y4; m1; m2; a1; a2])
          else None
      | _ => None
      end
  | _ => None
  end.

(** Stand-in for the rounding to binary64: keeps the integer part of the
    literal.  The examples never look at a coordinate's value. *)
Definition integer_part (lit : FloatLiteral) : Z :=
  match lit with
  | LitDec neg ip _ _ => if neg then (- digits_value ip)%Z else digits_value ip
  | _ => 0%Z
  end.

Definition sample_str (v : Value) : string :=
  match v with
  | VStr s => s
  | VInt n => DecimalString.NilZero.string_of_int (Z.to_int n)
  | VNaN => "nan"
  | VNaT => "NaT"
  | VNone => "None"
  | _ => "<object>"
  end.

Definition disk (path : string) : Result DataFrame :=
  if String.eqb path "survey.xlsx" then Ok survey
  else if String.eqb path "empty.xlsx" then Ok empty_survey
  else if String.eqb path "thousands.xlsx" then Ok thousands_survey
  else Raise (IOError path).

(** The sample machine: three sheets on disk, a readable logo, a writable
    working directory, and the identity in place of the pyproj transform. *)
Definition runtime : Runtime :=
  mkRuntime disk sample_str integer_part iso_day
            (fun x y => (x, y))
            (fun _ => Ok "iVBORw0KGgo=")
            (fun _ _ => Ok tt).

(** The user filters on Tipo, keeps only "A", picks Tipo for the legend and
    ticks both optional layers. *)
Definition only_A : UI :=
  mkUI ["Tipo"] (fun _ _ => [VStr "A"]) (Some "Tipo") (fun _ => "#3388ff")
       "OpenStreetMap" true true.

(** The same without a legend column. *)
Definition only_A_plain : UI :=
  mkUI ["Tipo"] (fun _ _ => [VStr "A"]) None (fun _ => "#3388ff")
       "OpenStreetMap" true true.

(** The user filters on Tipo with every value left selected, no legend. *)
Definition keep_all : UI :=
  mkUI ["Tipo"] (fun _ options => options) None (fun _ => "#3388ff")
       "OpenStreetMap" true true.

(** What the page shows when the user of [only_A_plain] runs the script on
    the survey sheet. *)
Definition plain_page : Page :=
  Eval vm_compute in
    match fst (app (R := runtime) "survey.xlsx" "logo.png" only_A_plain) with
    | Ok page => page
    | Raise _ => blank_page
    end.

Definition plain_scene : Scene :=
  Eval vm_compute in
    match scene plain_page with Some m => m | None => [] end.

Definition plain_filtered : DataFrame :=
  Eval vm_compute in
    match filtered_table plain_page with Some d => d | None => mkDF [] [] end.

End Sample.

(** ** Vocabulary of the statements *)

(** The FilterSpec lists, for each of its columns, exactly the distinct
    values present in that column of [df]. *)
Definition full_selection (df : DataFrame) (filters : Filters) : Prop :=
  forall col values, In (col, values) filters ->
    exists series, get_column df col = Ok series /\
                   forall v, In v values <-> In v (unique series).

(** Number of decimal points in a character list. *)
Definition dots (l : list ascii) : nat := length (filter is_dot l).

Definition is_comma (c : ascii) : bool := Ascii.eqb c ",".

(** Number of commas in a character list. *)
Definition commas (l : list ascii) : nat := length (filter is_comma l).

(** A character test that the decimal point fails. *)
Definition dotless (p : ascii -> bool) : Prop :=
  forall c, p c = true -> is_dot c = false.

(** The date step of [load_data] on a frame that has a Data column. *)
Definition dates_coerced {R : Runtime} (df : DataFrame) : DataFrame :=
  match get_column df "Data" with
  | Ok series => set_column df "Data" (map to_datetime_coerce series)
  | Raise _ => df
  end.

(** A cell that holds a float: a number or NaN. *)
Definition is_float (v : Value) : bool :=
  match v with
  | VFloat _ | VNaN => true
  | _ => false
  end.

(** Text made of decimal digits only. *)
Definition all_digits (s : string) : bool :=
  forallb is_digit (list_ascii_of_string s).

(** Lines 268-274 of the script: one picked colour per distinct value of the
    legend column, in order of first appearance. *)
Definition picked_colors (ui : UI) (series : list Value) : ColorMap :=
  map (fun v => (v, color_picker ui v)) (unique series).

(** The five base maps the composer names; anything else is OpenStreetMap. *)
Definition named_basemaps : list string :=
  ["Google Maps"; "Google Satellite"; "Google Terrain"; "ESRI Satellite";
   "ESRI Street"].

Definition heat_layers (m : Scene) : list (list (Value * Value)) :=
  flat_map (fun l => match l with HeatMap pts => [pts] | _ => [] end) m.

Definition markers_of (m : Scene) : list Layer := filter is_marker m.

Definition legend_panels (m : Scene) : list ColorMap :=
  flat_map (fun l => match l with LegendPanel e => [e] | _ => [] end) m.

(** Counts in non-increasing order. *)
Fixpoint descending (l : list nat) : bool :=
  match l with
  | [] => true
  | a :: rest =>
      match rest with
      | [] => true
      | b :: _ => Nat.leb b a && descending rest
      end
  end.

(** ** More worked examples *)

Module Cases.

(** A sheet without the easting column. *)
Definition no_easting_sheet : DataFrame :=
  mkDF ["Tipo"; "POINT_Y"] [mkRow 0 [VStr "A"; VStr "7460000,2"]].

(** The sample machine with that sheet in place of the survey. *)
Definition no_easting : Runtime :=
  mkRuntime (fun _ => Ok no_easting_sheet) Sample.sample_str
            Sample.integer_part Sample.iso_day
            (fun x y => (x, y))
            (fun _ => Ok "iVBORw0KGgo=")
            (fun _ _ => Ok tt).

(** The survey sheet as [load_data] returns it on the sample machine. *)
Definition loaded : DataFrame :=
  mkDF Sample.sheet_columns
    [mkRow 0 [VStr "A"; VStr "ok"; VTime 20230105;
              VFloat 680000; VFloat 7460000];
     mkRow 1 [VStr "B"; VStr "ok"; VNaT; VFloat 681000; VFloat 7461000];
     mkRow 2 [VStr "B"; VNaN; VTime 20230107;
              VFloat 682000; VFloat 7462000]].

(** A converted table: one dated point and one undated. *)
Definition geo : DataFrame :=
  mkDF ["Tipo"; "Data"; "Longitude"; "Latitude"]
    [mkRow 0 [VStr "A"; VTime 20230105; VFloat 1; VFloat 2];
     mkRow 1 [VStr "B"; VNaT; VFloat 3; VFloat 4]].

(** A converted table in which no point is dated. *)
Definition undated : DataFrame :=
  mkDF ["Tipo"; "Data"; "Longitude"; "Latitude"]
    [mkRow 0 [VStr "A"; VNaT; VFloat 1; VFloat 2]].

Definition palette : ColorMap :=
  [(VStr "A", "#ff0000"); (VStr "B", "#00ff00")].

(** [geo] with both optional layers, Tipo as legend and [palette]. *)
Definition painted_scene : Scene :=
  [Basemap "ROADMAP"; LogoOverlay "iVBORw0KGgo="; LocateControl;
   HeatMap [(VFloat 2, VFloat 1); (VFloat 4, VFloat 3)];
   TimestampedGeoJson
     [mkFeature (VFloat 1, VFloat 2) 20230105 (VStr "A") "#ff0000"];
   CircleMarker (VFloat 2, VFloat 1) "#ff0000" "#ff0000";
   CircleMarker (VFloat 4, VFloat 3) "#00ff00" "#00ff00";
   LegendPanel palette].

(** [geo] with the animated layer only, no legend and no colours. *)
Definition bare_scene : Scene :=
  [Basemap "openstreetmap"; LogoOverlay "iVBORw0KGgo="; LocateControl;
   TimestampedGeoJson
     [mkFeature (VFloat 1, VFloat 2) 20230105 (VStr "") "blue"]].

(** The user filters on Tipo, leaves every value selected and picks Tipo for
    the legend. *)
Definition legend_all : UI :=
  mkUI ["Tipo"] (fun _ options => options) (Some "Tipo") (fun _ => "#3388ff")
       "OpenStreetMap" true true.

(** The user chooses no filter column. *)
Definition no_filter : UI :=
  mkUI [] (fun _ options => options) None (fun _ => "#3388ff")
       "OpenStreetMap" false false.

(** What the page shows when the user of [legend_all] runs the script on the
    survey sheet. *)
Definition legend_page : Page :=
  Eval vm_compute in
    match fst (app (R := Sample.runtime) "survey.xlsx" "logo.png" legend_all) with
    | Ok page => page
    | Raise _ => blank_page
    end.

Definition legend_scene : Scene :=
  Eval vm_compute in
    match scene legend_page with Some m => m | None => [] end.

Definition legend_table : DataFrame :=
  Eval vm_compute in
    match filtered_table legend_page with Some d => d | None => mkDF [] [] end.

End Cases.

(** * Properties *)

(** ** Cells and series *)

Lemma value_eqb_true (a b : Value) : value_eqb a b = true <-> a = b.
Proof.
  unfold value_eqb. destruct (Value_eq_dec a b); split; congruence.
Qed.

Lemma value_eqb_refl (a : Value) : value_eqb a a = true.
Proof. now apply value_eqb_true. Qed.

Lemma isin_In (values : list Value) (v : Value) :
  isin values v = true <-> In v values.
Proof.
  unfold isin. rewrite existsb_exists. split.
  - intros [x [Hx He]]. apply value_eqb_true in He. now subst.
  - intros H. exists v. split; [assumption | apply value_eqb_refl].
Qed.

Lemma isin_false (values : list Value) (v : Value) :
  isin values v = false <-> ~ In v values.
Proof.
  rewrite <- isin_In. destruct (isin values v); split; congruence.
Qed.

Lemma unique_from_In (l seen : list Value) (v : Value) :
  In v (unique_from seen l) <-> In v l /\ ~ In v seen.
Proof.
  revert seen. induction l as [| x l IH]; intros seen; simpl.
  - tauto.
  - destruct (isin seen x) eqn:E.
    + apply isin_In in E. rewrite IH. split.
      * tauto.
      * intros [[-> | H] Hn]; [contradiction | tauto].
    + apply isin_false in E. simpl. rewrite IH. simpl. split.
      * intros [-> | [H Hn]]; [tauto | tauto].
      * intros [[-> | H] Hn]; [tauto |].
        destruct (Value_eq_dec x v); [tauto | right; tauto].
Qed.

Lemma In_unique (l : list Value) (v : Value) : In v (unique l) <-> In v l.
Proof. unfold unique. rewrite unique_from_In. simpl. tauto. Qed.

Lemma NoDup_unique_from (l seen : list Value) : NoDup (unique_from seen l).
Proof.
  revert seen. induction l as [| x l IH]; intros seen; simpl.
  - constructor.
  - destruct (isin seen x); [apply IH |].
    constructor; [| apply IH].
    rewrite unique_from_In. simpl. tauto.
Qed.

Lemma NoDup_unique (l : list Value) : NoDup (unique l).
Proof. apply NoDup_unique_from. Qed.

(** ** Boolean-mask indexing *)

Lemma mask_filter {A B} (f : B -> bool) (g : A -> B) (l : list A) :
  map fst (filter snd (combine l (map f (map g l)))) =
  filter (fun r => f (g r)) l.
Proof.
  induction l as [| x l IH]; simpl; [reflexivity |].
  destruct (f (g x)); simpl; now rewrite IH.
Qed.

Lemma filter_all {A} (f : A -> bool) (l : list A) :
  (forall x, In x l -> f x = true) -> filter f l = l.
Proof.
  induction l as [| x l IH]; simpl; intros H; [reflexivity |].
  rewrite (H x (or_introl eq_refl)). f_equal. apply IH. auto.
Qed.

Lemma get_column_rows (df : DataFrame) (col : string) (series : list Value) :
  get_column df col = Ok series ->
  exists i, col_index col (columns df) = Some i /\ series = map (cell i) (rows df).
Proof.
  unfold get_column. destruct (col_index col (columns df)) as [i |]; [| discriminate].
  intros [= <-]. now exists i.
Qed.

Lemma boolean_index_isin (df : DataFrame) (i : nat) (values : list Value) :
  boolean_index df (map (isin values) (map (cell i) (rows df))) =
  mkDF (columns df) (filter (fun r => isin values (cell i r)) (rows df)).
Proof. unfold boolean_index. now rewrite mask_filter. Qed.

Lemma frame_eta (df : DataFrame) : mkDF (columns df) (rows df) = df.
Proof. now destruct df. Qed.

(** ** Attribute filter engine *)

Lemma apply_attribute_filters_app (df : DataFrame) (pre post : Filters) :
  apply_attribute_filters df (pre ++ post) =
  (df' <- apply_attribute_filters df pre ;; apply_attribute_filters df' post).
Proof.
  revert df. induction pre as [| cv pre IH]; intros df; simpl; [reflexivity |].
  destruct (filter_step df cv) as [df' | e]; simpl; [apply IH | reflexivity].
Qed.

(** The step of the loop, by cases on its guard. *)
Lemma filter_step_cases (df : DataFrame) (col : string) (values series : list Value) :
  get_column df col = Ok series ->
  filter_step df (col, values) =
  Ok (if negb (truthy values) || Nat.eqb (length values) (length (unique series))
      then df
      else boolean_index df (map (isin values) series)).
Proof.
  intros H. unfold filter_step. destruct values as [| v values]; [reflexivity |].
  rewrite H. cbn [rbind truthy negb orb].
  match goal with |- context [Nat.eqb ?a ?b] => now destruct (Nat.eqb a b) end.
Qed.

Lemma filter_step_full (df : DataFrame) (col : string) (values series : list Value) :
  get_column df col = Ok series ->
  (forall v, In v values <-> In v (unique series)) ->
  filter_step df (col, values) = Ok df.
Proof.
  intros Hc Hv. rewrite (filter_step_cases _ _ _ _ Hc).
  destruct (negb (truthy values) || _); [reflexivity |].
  apply get_column_rows in Hc. destruct Hc as [i [_ ->]].
  rewrite boolean_index_isin. rewrite filter_all; [now rewrite frame_eta |].
  intros r Hr. apply isin_In. apply Hv. apply In_unique.
  now apply in_map.
Qed.

(** C4. Filtering with a FilterSpec whose allowed list for each constrained
    column holds exactly the distinct values present in that column returns
    the input table itself: same columns, same rows with the same labels, in
    the same order. *)
Theorem full_selection_is_identity (df : DataFrame) (filters : Filters) :
  full_selection df filters ->
  apply_attribute_filters df filters = Ok df.
Proof.
  induction filters as [| [col values] rest IH]; intros H;
    cbn [apply_attribute_filters]; [reflexivity |].
  destruct (H col values (or_introl eq_refl)) as [series [Hc Hv]].
  rewrite (filter_step_full _ _ _ _ Hc Hv). cbn [rbind].
  apply IH. intros c vs Hin. apply H. now right.
Qed.

Lemma full_selection_is_identity_witness :
  full_selection Sample.survey [("Tipo", [VStr "B"; VStr "A"; VStr "B"])] /\
  apply_attribute_filters Sample.survey [("Tipo", [VStr "B"; VStr "A"; VStr "B"])]
  = Ok Sample.survey.
Proof.
  assert (H : full_selection Sample.survey
                [("Tipo", [VStr "B"; VStr "A"; VStr "B"])]).
  { intros col values [[= <- <-] | []].
    exists [VStr "A"; VStr "B"; VStr "B"]. split; [reflexivity |].
    intros v. vm_compute. tauto. }
  split; [exact H | exact (full_selection_is_identity _ _ H)].
Defined.

(** C1, as the code has it. A column whose allowed list is empty is skipped:
    wherever it stands in the FilterSpec, the result is that of the FilterSpec
    without it, so an empty list excludes no row. *)
Theorem empty_allowed_set_is_skipped
    (df : DataFrame) (pre post : Filters) (col : string) :
  apply_attribute_filters df (pre ++ (col, []) :: post) =
  apply_attribute_filters df (pre ++ post).
Proof.
  rewrite !apply_attribute_filters_app.
  destruct (apply_attribute_filters df pre); reflexivity.
Qed.

(** C1, as stated, fails: with an empty allowed list for Tipo all three rows
    of the sample sheet come back. *)
Lemma empty_allowed_set_keeps_rows :
  apply_attribute_filters Sample.survey [("Tipo", [])] = Ok Sample.survey /\
  length (rows Sample.survey) = 3.
Proof. split; reflexivity. Qed.

(** C9. A column whose allowed list has as many entries as the frame reached
    at that step has distinct values in the column is skipped, whatever the
    listed values are: the frame meant is the one left by the columns before
    it, not the original table. *)
Theorem equal_cardinality_is_skipped
    (df df' : DataFrame) (pre post : Filters) (col : string)
    (values series : list Value) :
  apply_attribute_filters df pre = Ok df' ->
  get_column df' col = Ok series ->
  length values = length (unique series) ->
  apply_attribute_filters df (pre ++ (col, values) :: post) =
  apply_attribute_filters df (pre ++ post).
Proof.
  intros Hpre Hc Hlen. rewrite !apply_attribute_filters_app, Hpre.
  cbn [rbind apply_attribute_filters].
  rewrite (filter_step_cases _ _ _ _ Hc).
  apply Nat.eqb_eq in Hlen. rewrite Hlen, orb_true_r. reflexivity.
Qed.

(** After Tipo is narrowed to "B", Analise has two distinct values left (ok
    and NaN) out of the original two; a list of two values that occur nowhere
    in the table is then skipped, and both "B" rows survive. *)
Lemma equal_cardinality_is_skipped_witness :
  apply_attribute_filters Sample.survey [("Tipo", [VStr "B"])]
  = Ok (mkDF Sample.sheet_columns [Sample.row1; Sample.row2]) /\
  apply_attribute_filters Sample.survey
    ([("Tipo", [VStr "B"])] ++ [("Analise", [VStr "x"; VStr "y"])])
  = apply_attribute_filters Sample.survey ([("Tipo", [VStr "B"])] ++ []).
Proof.
  split; [reflexivity |].
  apply (equal_cardinality_is_skipped Sample.survey
           (mkDF Sample.sheet_columns [Sample.row1; Sample.row2])
           [("Tipo", [VStr "B"])] [] "Analise" [VStr "x"; VStr "y"]
           [VStr "ok"; VNaN]); reflexivity.
Defined.

(** ** Statistics aggregator *)







Lemma In_insert_desc (p q : Value * nat) (l : list (Value * nat)) :
  In q (insert_desc p l) <-> q = p \/ In q l.
Proof.
  induction l as [| x l IH]; simpl.
  - intuition congruence.
  - destruct (Nat.leb (snd x) (snd p)); simpl; [intuition congruence |].
    rewrite IH. intuition congruence.
Qed.

Lemma In_sorted (t : list (Value * nat)) (q : Value * nat) :
  In q (fold_right insert_desc [] t) <-> In q t.
Proof.
  induction t as [| p t IH]; simpl; [reflexivity |].
  rewrite In_insert_desc, IH. intuition congruence.
Qed.

Lemma In_tally (l : list Value) (v : Value) (n : nat) :
  In (v, n) (tally l) <-> In v l /\ n = count_occ Value_eq_dec l v.
Proof.
  unfold tally. rewrite in_map_iff. split.
  - intros [x [[= <- <-] Hx]]. apply (proj1 (In_unique _ _)) in Hx. now split.
  - intros [Hv ->]. exists v. split; [reflexivity | now apply (proj2 (In_unique _ _))].
Qed.

Lemma count_occ_present (l : list Value) (v : Value) :
  notnull v = true ->
  count_occ Value_eq_dec (filter notnull l) v = count_occ Value_eq_dec l v.
Proof.
  intros Hv. induction l as [| x l IH]; simpl; [reflexivity |].
  destruct (notnull x) eqn:Hx; simpl.
  - destruct (Value_eq_dec x v); now rewrite IH.
  - destruct (Value_eq_dec x v) as [-> |]; [congruence | exact IH].
Qed.

(** What [value_counts] lists: each present value with its number of
    occurrences. *)
Lemma In_value_counts (series : list Value) (v : Value) (n : nat) :
  In (v, n) (value_counts series) <->
  In v series /\ notnull v = true /\ n = count_occ Value_eq_dec series v.
Proof.
  unfold value_counts. rewrite In_sorted, In_tally, filter_In. split.
  - intros [[Hv Hn] ->]. now rewrite count_occ_present.
  - intros (Hv & Hn & ->). now rewrite count_occ_present.
Qed.

(** ** binary64 rounding *)


Lemma pow2_plus (a b : Z) : (pow2 (a + b) == pow2 a * pow2 b)%Q.
Proof. apply Qpower_plus. discriminate. Qed.

Lemma pow2_le (a b : Z) : (a <= b)%Z -> (pow2 a <= pow2 b)%Q.
Proof. intros H. apply Qpower_le_compat_l; [assumption | discriminate]. Qed.


Lemma pow2_inject (a : Z) : (0 <= a)%Z -> (inject_Z (2 ^ a) == pow2 a)%Q.
Proof. intros H. unfold pow2. now rewrite Zpower_Qpower. Qed.


Lemma binary_exponent_lt (x : Q) :
  (0 < x)%Q -> (x < pow2 (binary_exponent x + 1))%Q.
Proof.
  intros Hx. unfold binary_exponent.
  destruct (Qle_bool _ x) eqn:E.
  2:{ replace (Z.log2 (Qnum x) - Z.log2 (Zpos (Qden x)) - 1 + 1)%Z
        with (Z.log2 (Qnum x) - Z.log2 (Zpos (Qden x)))%Z by lia.
      apply Qnot_le_lt. intros H. apply Qle_bool_iff in H. congruence. }
  clear E. destruct x as [n d]. cbn [Qnum Qden].
  assert (Hn : (0 < n)%Z) by (unfold Qlt in Hx; simpl in Hx; lia).
  destruct (Z.log2_spec n Hn) as [_ Ha].
  destruct (Z.log2_spec (Zpos d) (Pos2Z.is_pos d)) as [Hb _].
  pose proof (Z.log2_nonneg n) as Ha0. pose proof (Z.log2_nonneg (Zpos d)) as Hb0.
  set (a := Z.log2 n) in *. set (b := Z.log2 (Zpos d)) in *.
  replace (a - b + 1)%Z with (Z.succ a + - b)%Z by lia.
  rewrite pow2_plus. unfold pow2 at 2. rewrite Qpower_opp.
  fold (pow2 b). rewrite <- !pow2_inject by lia.
  rewrite (Qmake_Qdiv n d).
  assert (H1 : (inject_Z n < inject_Z (2 ^ Z.succ a))%Q) by now rewrite <- Zlt_Qlt.
  assert (H2 : (inject_Z (2 ^ b) <= inject_Z (Zpos d))%Q) by now rewrite <- Zle_Qle.
  assert (H3 : (0 < inject_Z (2 ^ b))%Q).
  { rewrite <- (Zlt_Qlt 0). apply Z.pow_pos_nonneg; lia. }
  assert (H4 : (0 < inject_Z n)%Q) by (rewrite <- (Zlt_Qlt 0); lia).
  set (A := inject_Z (2 ^ Z.succ a)) in *. set (N := inject_Z n) in *.
  set (D := inject_Z (Zpos d)) in *. set (B := inject_Z (2 ^ b)) in *.
  assert (HD : (0 < D)%Q) by lra.
  apply Qlt_le_trans with (A / D)%Q.
  - unfold Qdiv. apply Qmult_lt_compat_r; [| assumption].
    now apply Qinv_lt_0_compat.
  - unfold Qdiv. apply Qmult_le_l; [lra |].
    apply Qle_shift_inv_l; [assumption |].
    rewrite Qmult_comm. apply Qle_shift_div_r; [assumption |]. lra.
Qed.

(** The doubles nearest to 0.1 and to 1/3, and two ties. *)
Lemma round_binary64_examples :
  round_binary64 (1 # 10) = (3602879701896397 # 36028797018963968)%Q /\
  round_binary64 (1 # 3) = (6004799503160661 # 18014398509481984)%Q /\
  round_binary64 (inject_Z (2 ^ 53 + 1)) = inject_Z (2 ^ 53) /\
  round_binary64 (inject_Z (2 ^ 53 + 3)) = inject_Z (2 ^ 53 + 4) /\
  round_binary64 100 = 100%Q.
Proof. repeat split; now vm_compute. Qed.














Lemma stats_table_counts (series : list Value) :
  map Contagem (stats_table series) = map snd (value_counts series).
Proof. unfold stats_table. rewrite map_map. reflexivity. Qed.





(** Chart colours never fail: an unmapped category gets the default. *)
Lemma chart_colour_default (color_map : ColorMap) (v : Value) :
  dict_lookup color_map v = None -> dict_get color_map v "#1f77b4" = "#1f77b4".
Proof. unfold dict_get. now intros ->. Qed.

(** ** Coordinate normalizer: text level *)

Lemma str_replace_app (pat repl : ascii) (a b : string) :
  str_replace pat repl (a ++ b)%string =
  (str_replace pat repl a ++ str_replace pat repl b)%string.
Proof.
  induction a as [| c a IH]; simpl; [reflexivity |]. now rewrite IH.
Qed.

Lemma count_char_replaced (s : string) :
  count_char "." (str_replace "," "." s) = count_char "," s + count_char "." s.
Proof.
  induction s as [| c s IH]; simpl; [reflexivity |].
  rewrite IH. destruct (Ascii.eqb c ",") eqn:E.
  - apply Ascii.eqb_eq in E. subst c. simpl. lia.
  - destruct (Ascii.eqb c "."); simpl; lia.
Qed.

Lemma dots_app (a b : list ascii) : dots (a ++ b) = dots a + dots b.
Proof. unfold dots. now rewrite filter_app, length_app. Qed.

Lemma dots_rev (l : list ascii) : dots (rev l) = dots l.
Proof.
  induction l as [| c l IH]; [reflexivity |].
  simpl rev. rewrite dots_app, IH. unfold dots. simpl.
  destruct (is_dot c); simpl; lia.
Qed.

Lemma dots_cons (c : ascii) (l : list ascii) :
  dots (c :: l) = (if is_dot c then 1 else 0) + dots l.
Proof. unfold dots. simpl. now destruct (is_dot c). Qed.

Lemma count_char_dots (s : string) :
  count_char "." s = dots (list_ascii_of_string s).
Proof.
  induction s as [| c s IH]; [reflexivity |].
  simpl. rewrite dots_cons, IH. reflexivity.
Qed.

Lemma dotless_at_point (p : ascii -> bool) : p "."%char = false -> dotless p.
Proof.
  intros H c Hc. unfold is_dot. destruct (Ascii.eqb c ".") eqn:E; [| reflexivity].
  apply Ascii.eqb_eq in E. subst c. congruence.
Qed.

Lemma space_dotless : dotless is_space.
Proof. now apply dotless_at_point. Qed.

Lemma exp_mark_dotless : dotless is_exp_mark.
Proof. now apply dotless_at_point. Qed.

Lemma digit_dotless : dotless is_digit.
Proof. now apply dotless_at_point. Qed.

Lemma dots_drop_while (p : ascii -> bool) (l : list ascii) :
  dotless p -> dots (drop_while p l) = dots l.
Proof.
  intros Hp. induction l as [| c l IH]; [reflexivity |].
  simpl. destruct (p c) eqn:E; [| reflexivity].
  rewrite IH, dots_cons, (Hp c E). reflexivity.
Qed.

Lemma dots_strip (l : list ascii) : dots (strip l) = dots l.
Proof.
  unfold strip.
  now rewrite dots_rev, (dots_drop_while _ _ space_dotless), dots_rev,
    (dots_drop_while _ _ space_dotless).
Qed.

Lemma dots_take_sign (l : list ascii) : dots (snd (take_sign l)) = dots l.
Proof.
  destruct l as [| c l]; [reflexivity |]. unfold take_sign.
  destruct (Ascii.eqb c "-") eqn:E1.
  { apply Ascii.eqb_eq in E1. subst c. reflexivity. }
  destruct (Ascii.eqb c "+") eqn:E2; [| reflexivity].
  apply Ascii.eqb_eq in E2. subst c. reflexivity.
Qed.

Lemma break_at_app (p : ascii -> bool) (l : list ascii) :
  fst (break_at p l) ++ snd (break_at p l) = l.
Proof.
  induction l as [| c l IH]; [reflexivity |].
  simpl. destruct (p c); [reflexivity |].
  destruct (break_at p l) as [a b]. simpl in *. now rewrite IH.
Qed.

Lemma break_at_prefix (l : list ascii) : dots (fst (break_at is_dot l)) = 0.
Proof.
  induction l as [| c l IH]; [reflexivity |].
  simpl. destruct (is_dot c) eqn:E; [reflexivity |].
  destruct (break_at is_dot l) as [a b]. simpl in *.
  now rewrite dots_cons, E, IH.
Qed.

Lemma break_at_head (p : ascii -> bool) (l : list ascii) (c : ascii)
    (rest : list ascii) :
  snd (break_at p l) = c :: rest -> p c = true.
Proof.
  induction l as [| x l IH]; [discriminate |].
  simpl. destruct (p x) eqn:E.
  - simpl. now intros [= <- _].
  - destruct (break_at p l) as [a b]. simpl in *. exact IH.
Qed.

Lemma digitpart_tail_dots (l : list ascii) (u : bool) :
  digitpart_tail u l = true -> dots l = 0.
Proof.
  revert u. induction l as [| c l IH]; intros u; [reflexivity |].
  simpl. destruct (is_digit c) eqn:Ed.
  - intros H. rewrite dots_cons, (digit_dotless c Ed). exact (IH _ H).
  - destruct (Ascii.eqb c "_") eqn:Eu; [| discriminate].
    apply Ascii.eqb_eq in Eu. subst c.
    intros H. apply andb_true_iff in H. destruct H as [_ H].
    rewrite dots_cons. exact (IH _ H).
Qed.

Lemma digitpart_dots (l : list ascii) : digitpart l = true -> dots l = 0.
Proof.
  destruct l as [| c l]; [reflexivity |]. simpl. intros H.
  apply andb_true_iff in H. destruct H as [Hd Ht].
  rewrite dots_cons, (digit_dotless c Hd). exact (digitpart_tail_dots _ _ Ht).
Qed.

Lemma number_ok_dots (ip frac : list ascii) :
  number_ok ip frac = true -> dots frac <= 1.
Proof.
  destruct frac as [| c fp]; [intros _; unfold dots; simpl; lia |].
  rewrite dots_cons. intros H.
  assert (Hfp : dots fp = 0).
  { unfold number_ok in H. destruct ip as [| i ip'].
    - now apply digitpart_dots.
    - destruct fp as [| f fp']; [reflexivity |].
      apply andb_true_iff in H. destruct H as [_ H]. now apply digitpart_dots. }
  rewrite Hfp. destruct (is_dot c); lia.
Qed.

Lemma parse_exponent_dots (l : list ascii) (e : option (bool * list ascii)) :
  (forall c rest, l = c :: rest -> is_exp_mark c = true) ->
  parse_exponent l = Some e -> dots l = 0.
Proof.
  destruct l as [| c rest]; [reflexivity |].
  intros Hm. unfold parse_exponent.
  pose proof (dots_take_sign rest) as Hs.
  destruct (take_sign rest) as [neg digits]. simpl in Hs.
  destruct (digitpart digits) eqn:Ed; [| discriminate].
  intros _. rewrite dots_cons, (exp_mark_dotless c (Hm c rest eq_refl)), <- Hs.
  now apply digitpart_dots.
Qed.

Lemma to_lower_dot (c : ascii) : is_dot (to_lower c) = is_dot c.
Proof.
  destruct c as [b0 b1 b2 b3 b4 b5 b6 b7].
  destruct b0, b1, b2, b3, b4, b5, b6, b7; reflexivity.
Qed.

Lemma dots_lower (l : list ascii) : dots (map to_lower l) = dots l.
Proof.
  induction l as [| c l IH]; [reflexivity |].
  simpl map. now rewrite !dots_cons, to_lower_dot, IH.
Qed.

Lemma word_dots (l : list ascii) (w : string) :
  String.eqb (string_of_list_ascii (map to_lower l)) w = true ->
  dots l = dots (list_ascii_of_string w).
Proof.
  intros H. apply String.eqb_eq in H. rewrite <- H.
  now rewrite list_ascii_of_string_of_list_ascii, dots_lower.
Qed.

Lemma special_dots (neg : bool) (body : list ascii) (lit : FloatLiteral) :
  special neg body = Some lit -> dots body = 0.
Proof.
  unfold special.
  destruct (String.eqb _ "nan") eqn:E1; [intros _; exact (word_dots _ _ E1) |].
  destruct (String.eqb _ "inf") eqn:E2; [intros _; exact (word_dots _ _ E2) |].
  destruct (String.eqb _ "infinity") eqn:E3; [intros _; exact (word_dots _ _ E3) |].
  discriminate.
Qed.

(** Whatever [float()] accepts holds at most one decimal point. *)
Lemma read_float_one_dot (s : string) (lit : FloatLiteral) :
  read_float s = Some lit -> count_char "." s <= 1.
Proof.
  rewrite count_char_dots, <- dots_strip, <- dots_take_sign.
  unfold read_float.
  destruct (take_sign (strip (list_ascii_of_string s))) as [neg body].
  cbn [snd].
  destruct (special neg body) as [sp |] eqn:Es.
  { intros _. rewrite (special_dots _ _ _ Es). lia. }
  pose proof (break_at_app is_exp_mark body) as Hb.
  pose proof (break_at_head is_exp_mark body) as Hh.
  destruct (break_at is_exp_mark body) as [mant exp]. cbn [fst snd] in Hb, Hh.
  pose proof (break_at_app is_dot mant) as Hm.
  pose proof (break_at_prefix mant) as Hp.
  destruct (break_at is_dot mant) as [ip frac]. cbn [fst snd] in Hm, Hp.
  destruct (number_ok ip frac) eqn:En; [| discriminate].
  destruct (parse_exponent exp) as [e |] eqn:Ee; [| discriminate].
  intros _. rewrite <- Hb, <- Hm, !dots_app, Hp.
  rewrite (parse_exponent_dots exp e Hh Ee).
  pose proof (number_ok_dots _ _ En). lia.
Qed.

Lemma read_float_two_commas (s : string) :
  2 <= count_char "," s -> read_float (str_replace "," "." s) = None.
Proof.
  intros H. destruct (read_float (str_replace "," "." s)) as [lit |] eqn:E;
    [| reflexivity].
  apply read_float_one_dot in E. rewrite count_char_replaced in E. lia.
Qed.

(** Whatever [float()] accepts holds no comma. *)

Lemma commas_app (a b : list ascii) : commas (a ++ b) = commas a + commas b.
Proof. unfold commas. now rewrite filter_app, length_app. Qed.

Lemma commas_cons (c : ascii) (l : list ascii) :
  commas (c :: l) = (if is_comma c then 1 else 0) + commas l.
Proof. unfold commas. simpl. now destruct (is_comma c). Qed.

Lemma commas_rev (l : list ascii) : commas (rev l) = commas l.
Proof.
  induction l as [| c l IH]; [reflexivity |].
  simpl rev. rewrite commas_app, IH, !commas_cons. unfold commas at 2. simpl. lia.
Qed.

Lemma count_char_commas (s : string) :
  count_char "," s = commas (list_ascii_of_string s).
Proof.
  induction s as [| c s IH]; [reflexivity |].
  simpl. rewrite commas_cons, IH. reflexivity.
Qed.

Lemma count_char_app (c : ascii) (a b : string) :
  count_char c (a ++ b) = count_char c a + count_char c b.
Proof.
  induction a as [| x a IH]; simpl; [reflexivity |]. rewrite IH. lia.
Qed.

Lemma str_replace_clean (s : string) :
  count_char "," s = 0 -> str_replace "," "." s = s.
Proof.
  induction s as [| c s IH]; simpl; [reflexivity |].
  destruct (Ascii.eqb c ","); [discriminate |].
  intros H. now rewrite IH.
Qed.

Lemma commas_drop_while (p : ascii -> bool) (l : list ascii) :
  p ","%char = false -> commas (drop_while p l) = commas l.
Proof.
  intros Hp. induction l as [| c l IH]; [reflexivity |].
  simpl. destruct (p c) eqn:E; [| reflexivity].
  rewrite IH, commas_cons. unfold is_comma.
  destruct (Ascii.eqb c ",") eqn:Ec; [| reflexivity].
  apply Ascii.eqb_eq in Ec. subst c. congruence.
Qed.

Lemma commas_strip (l : list ascii) : commas (strip l) = commas l.
Proof.
  unfold strip.
  now rewrite commas_rev, (commas_drop_while is_space) by reflexivity;
    rewrite commas_rev, (commas_drop_while is_space) by reflexivity.
Qed.

Lemma commas_take_sign (l : list ascii) : commas (snd (take_sign l)) = commas l.
Proof.
  destruct l as [| c l]; [reflexivity |]. unfold take_sign.
  destruct (Ascii.eqb c "-") eqn:E1.
  { apply Ascii.eqb_eq in E1. subst c. reflexivity. }
  destruct (Ascii.eqb c "+") eqn:E2; [| reflexivity].
  apply Ascii.eqb_eq in E2. subst c. reflexivity.
Qed.

Lemma digit_no_comma (c : ascii) : is_digit c = true -> is_comma c = false.
Proof.
  unfold is_comma. intros H. destruct (Ascii.eqb c ",") eqn:E; [| reflexivity].
  apply Ascii.eqb_eq in E. subst c. discriminate.
Qed.

Lemma digitpart_tail_commas (l : list ascii) (u : bool) :
  digitpart_tail u l = true -> commas l = 0.
Proof.
  revert u. induction l as [| c l IH]; intros u; [reflexivity |].
  simpl. destruct (is_digit c) eqn:Ed.
  - intros H. rewrite commas_cons, (digit_no_comma c Ed). exact (IH _ H).
  - destruct (Ascii.eqb c "_") eqn:Eu; [| discriminate].
    apply Ascii.eqb_eq in Eu. subst c.
    intros H. apply andb_true_iff in H. destruct H as [_ H].
    rewrite commas_cons. exact (IH _ H).
Qed.

Lemma digitpart_commas (l : list ascii) : digitpart l = true -> commas l = 0.
Proof.
  destruct l as [| c l]; [reflexivity |]. simpl. intros H.
  apply andb_true_iff in H. destruct H as [Hd Ht].
  rewrite commas_cons, (digit_no_comma c Hd).
  exact (digitpart_tail_commas _ _ Ht).
Qed.

Lemma number_ok_commas (ip frac : list ascii) :
  (forall c rest, frac = c :: rest -> is_dot c = true) ->
  number_ok ip frac = true -> commas ip = 0 /\ commas frac = 0.
Proof.
  destruct frac as [| c fp]; intros Hd H.
  - split; [now apply digitpart_commas | reflexivity].
  - assert (Hc : is_comma c = false).
    { specialize (Hd c fp eq_refl). unfold is_dot in Hd.
      apply Ascii.eqb_eq in Hd. now subst c. }
    rewrite commas_cons, Hc. cbn [number_ok] in H.
    destruct ip as [| i ip'].
    + split; [reflexivity | now apply digitpart_commas].
    + destruct fp as [| f fp'].
      * split; [now apply digitpart_commas | reflexivity].
      * apply andb_true_iff in H. destruct H as [H1 H2].
        split; now apply digitpart_commas.
Qed.

Lemma parse_exponent_commas (l : list ascii) (e : option (bool * list ascii)) :
  (forall c rest, l = c :: rest -> is_exp_mark c = true) ->
  parse_exponent l = Some e -> commas l = 0.
Proof.
  destruct l as [| c rest]; [reflexivity |].
  intros Hm. unfold parse_exponent.
  pose proof (commas_take_sign rest) as Hs.
  destruct (take_sign rest) as [neg digits]. simpl in Hs.
  destruct (digitpart digits) eqn:Ed; [| discriminate].
  intros _. rewrite commas_cons, <- Hs, (digitpart_commas _ Ed).
  specialize (Hm c rest eq_refl). unfold is_comma.
  destruct (Ascii.eqb c ",") eqn:Ec; [| reflexivity].
  apply Ascii.eqb_eq in Ec. subst c. discriminate.
Qed.

Lemma to_lower_comma (c : ascii) : is_comma (to_lower c) = is_comma c.
Proof.
  destruct c as [b0 b1 b2 b3 b4 b5 b6 b7].
  destruct b0, b1, b2, b3, b4, b5, b6, b7; reflexivity.
Qed.

Lemma commas_lower (l : list ascii) : commas (map to_lower l) = commas l.
Proof.
  induction l as [| c l IH]; [reflexivity |].
  simpl map. now rewrite !commas_cons, to_lower_comma, IH.
Qed.

Lemma word_commas (l : list ascii) (w : string) :
  String.eqb (string_of_list_ascii (map to_lower l)) w = true ->
  commas l = commas (list_ascii_of_string w).
Proof.
  intros H. apply String.eqb_eq in H. rewrite <- H.
  now rewrite list_ascii_of_string_of_list_ascii, commas_lower.
Qed.

Lemma special_commas (neg : bool) (body : list ascii) (lit : FloatLiteral) :
  special neg body = Some lit -> commas body = 0.
Proof.
  unfold special.
  destruct (String.eqb _ "nan") eqn:E1; [intros _; exact (word_commas _ _ E1) |].
  destruct (String.eqb _ "inf") eqn:E2; [intros _; exact (word_commas _ _ E2) |].
  destruct (String.eqb _ "infinity") eqn:E3;
    [intros _; exact (word_commas _ _ E3) |].
  discriminate.
Qed.

Lemma read_float_no_comma (s : string) (lit : FloatLiteral) :
  read_float s = Some lit -> count_char "," s = 0.
Proof.
  rewrite count_char_commas, <- commas_strip, <- commas_take_sign.
  unfold read_float.
  destruct (take_sign (strip (list_ascii_of_string s))) as [neg body].
  cbn [snd].
  destruct (special neg body) as [sp |] eqn:Es.
  { intros _. exact (special_commas _ _ _ Es). }
  pose proof (break_at_app is_exp_mark body) as Hb.
  pose proof (break_at_head is_exp_mark body) as Hh.
  destruct (break_at is_exp_mark body) as [mant exp]. cbn [fst snd] in Hb, Hh.
  pose proof (break_at_app is_dot mant) as Hm.
  pose proof (break_at_head is_dot mant) as Hd.
  destruct (break_at is_dot mant) as [ip frac]. cbn [fst snd] in Hm, Hd.
  destruct (number_ok ip frac) eqn:En; [| discriminate].
  destruct (parse_exponent exp) as [e |] eqn:Ee; [| discriminate].
  intros _. rewrite <- Hb, <- Hm, !commas_app.
  rewrite (parse_exponent_commas exp e Hh Ee).
  destruct (number_ok_commas _ _ Hd En) as [-> ->]. reflexivity.
Qed.

(** The words [nan], [inf] and [infinity] hold no decimal point: a text
    with a point that [float()] accepts is a decimal number. *)
Lemma read_float_word (s : string) (lit : FloatLiteral) :
  read_float s = Some lit ->
  (exists neg ip fp e, lit = LitDec neg ip fp e) \/ count_char "." s = 0.
Proof.
  rewrite count_char_dots, <- dots_strip, <- dots_take_sign.
  unfold read_float.
  destruct (take_sign (strip (list_ascii_of_string s))) as [neg body].
  cbn [snd].
  destruct (special neg body) as [sp |] eqn:Es.
  { intros _. right. exact (special_dots _ _ _ Es). }
  destruct (break_at is_exp_mark body) as [mant exp].
  destruct (break_at is_dot mant) as [ip frac].
  destruct (number_ok ip frac); [| discriminate].
  destruct (parse_exponent exp) as [e |]; [| discriminate].
  intros [= <-]. left. now eexists _, _, _, _.
Qed.

Lemma mapM_length {A B} (f : A -> Result B) (l : list A) (l' : list B) :
  mapM f l = Ok l' -> length l' = length l.
Proof.
  revert l'. induction l as [| x l IH]; intros l'; simpl.
  - now intros [= <-].
  - destruct (f x) as [y | e]; [| discriminate]. simpl.
    destruct (mapM f l) as [ys | e]; [| discriminate]. simpl.
    intros [= <-]. simpl. f_equal. now apply IH.
Qed.

Lemma mapM_raises {A B} (f : A -> Result B) (l : list A) (x : A) (e : Exn) :
  In x l -> f x = Raise e -> exists e', mapM f l = Raise e'.
Proof.
  induction l as [| y l IH]; intros Hin Hx; [destruct Hin |].
  simpl. destruct Hin as [-> | Hin].
  - rewrite Hx. now exists e.
  - destruct (f y) as [b | e1]; [| now exists e1]. simpl.
    destruct (IH Hin Hx) as [e' ->]. now exists e'.
Qed.

Section NormalizerFacts.
Context {R : Runtime}.

(** C8. Any text that [float()] accepts and that has a decimal point, read
    as [a ++ "." ++ b], normalizes to the double of the number it spells,
    and the same text with a comma in place of the point normalizes to the
    same double. *)
Theorem decimal_comma_same_as_point (a b : string) (lit : FloatLiteral) :
  read_float (a ++ "." ++ b) = Some lit ->
  normalize_coordinate (VStr (a ++ "," ++ b)) = Ok (VFloat (round64 lit)) /\
  normalize_coordinate (VStr (a ++ "." ++ b)) = Ok (VFloat (round64 lit)).
Proof.
  intros Hr.
  pose proof (read_float_no_comma _ _ Hr) as Hno.
  rewrite !count_char_app in Hno.
  assert (Ha : str_replace "," "." a = a) by (apply str_replace_clean; lia).
  assert (Hb : str_replace "," "." b = b) by (apply str_replace_clean; lia).
  assert (Hdec : exists neg ip fp e, lit = LitDec neg ip fp e).
  { destruct (read_float_word _ _ Hr) as [H | H]; [assumption |].
    rewrite !count_char_app in H. simpl in H. lia. }
  destruct Hdec as (neg & ip & fp & e & ->).
  unfold normalize_coordinate, astype_str, astype_float.
  rewrite !str_replace_app, Ha, Hb.
  change (str_replace "," "." ",") with ".".
  change (str_replace "," "." ".") with ".".
  rewrite Hr. now split.
Qed.

Lemma normalize_two_commas (s : string) :
  2 <= count_char "," s ->
  normalize_coordinate (VStr s) = Raise (ValueError (str_replace "," "." s)).
Proof.
  intros H. unfold normalize_coordinate, astype_float, astype_str.
  now rewrite (read_float_two_commas s H).
Qed.

End NormalizerFacts.

Lemma decimal_comma_same_as_point_witness :
  read_float ("680000" ++ "." ++ "5")
  = Some (LitDec false (list_ascii_of_string "680000")
                 (list_ascii_of_string "5") None) /\
  normalize_coordinate (R := Sample.runtime) (VStr ("680000" ++ "," ++ "5"))
  = Ok (VFloat (round64 (Runtime := Sample.runtime)
                  (LitDec false (list_ascii_of_string "680000")
                          (list_ascii_of_string "5") None))) /\
  normalize_coordinate (R := Sample.runtime) (VStr ("680000" ++ "." ++ "5"))
  = Ok (VFloat (round64 (Runtime := Sample.runtime)
                  (LitDec false (list_ascii_of_string "680000")
                          (list_ascii_of_string "5") None))).
Proof.
  split; [reflexivity |].
  exact (decimal_comma_same_as_point (R := Sample.runtime) "680000" "5"
           (LitDec false (list_ascii_of_string "680000")
                   (list_ascii_of_string "5") None) eq_refl).
Defined.

(** ** Column assignment *)

Lemma col_index_inj (cols : list string) (c c' : string) (i : nat) :
  col_index c cols = Some i -> col_index c' cols = Some i -> c = c'.
Proof.
  revert i. induction cols as [| x cols IH]; intros i; simpl; [discriminate |].
  destruct (String.eqb c x) eqn:E1, (String.eqb c' x) eqn:E2.
  - apply String.eqb_eq in E1, E2. congruence.
  - intros [= <-]. destruct (col_index c' cols); discriminate.
  - destruct (col_index c cols); [| discriminate]. intros [= <-]. discriminate.
  - destruct (col_index c cols) as [j |] eqn:Hj; [| discriminate].
    destruct (col_index c' cols) as [j' |] eqn:Hj'; [| discriminate].
    simpl. intros [= <-] [= ->]. now apply (IH j).
Qed.

Lemma col_index_lt (cols : list string) (c : string) (i : nat) :
  col_index c cols = Some i -> i < length cols.
Proof.
  revert i. induction cols as [| x cols IH]; intros i; simpl; [discriminate |].
  destruct (String.eqb c x); [intros [= <-]; lia |].
  destruct (col_index c cols) as [j |]; [| discriminate].
  simpl. intros [= <-]. specialize (IH j eq_refl). lia.
Qed.

Lemma nth_replace_other {A} (i j : nat) (v d : A) (l : list A) :
  i <> j -> nth j (replace_nth i v l) d = nth j l d.
Proof.
  revert i j. induction l as [| x l IH]; intros i j H; [now destruct i |].
  destruct i, j; simpl; try reflexivity; [contradiction |].
  apply IH. lia.
Qed.

Lemma nth_replace_same {A} (i : nat) (v d : A) (l : list A) :
  i < length l -> nth i (replace_nth i v l) d = v.
Proof.
  revert i. induction l as [| x l IH]; intros i H; simpl in H; [lia |].
  destruct i; simpl; [reflexivity |]. apply IH. lia.
Qed.

Lemma set_column_existing (df : DataFrame) (c : string) (i : nat)
    (series : list Value) :
  col_index c (columns df) = Some i ->
  set_column df c series =
  mkDF (columns df)
    (map (fun rv => mkRow (label (fst rv)) (replace_nth i (snd rv) (cells (fst rv))))
         (combine (rows df) series)).
Proof. unfold set_column. now intros ->. Qed.

Lemma cells_other (rs : list Row) (series : list Value) (i j : nat) :
  i <> j -> length series = length rs ->
  map (cell j)
    (map (fun rv => mkRow (label (fst rv)) (replace_nth i (snd rv) (cells (fst rv))))
         (combine rs series)) = map (cell j) rs.
Proof.
  intros Hij. revert series.
  induction rs as [| r rs IH]; intros [| v series] H; simpl in *;
    try reflexivity; try discriminate.
  f_equal; [| apply IH; lia].
  unfold cell. simpl. now apply nth_replace_other.
Qed.

Lemma cells_same (rs : list Row) (series : list Value) (i : nat) :
  (forall r, In r rs -> i < length (cells r)) ->
  length series = length rs ->
  map (cell i)
    (map (fun rv => mkRow (label (fst rv)) (replace_nth i (snd rv) (cells (fst rv))))
         (combine rs series)) = series.
Proof.
  revert series.
  induction rs as [| r rs IH]; intros [| v series] Hwf H; simpl in *;
    try reflexivity; try discriminate.
  f_equal; [| apply IH; [auto | lia]].
  unfold cell. simpl. apply nth_replace_same. auto.
Qed.

Lemma get_column_set_other (df : DataFrame) (c c' : string) (i : nat)
    (series : list Value) :
  col_index c (columns df) = Some i -> c <> c' ->
  length series = length (rows df) ->
  get_column (set_column df c series) c' = get_column df c'.
Proof.
  intros Hi Hne Hlen. rewrite (set_column_existing _ _ _ _ Hi).
  unfold get_column. cbn [columns rows].
  destruct (col_index c' (columns df)) as [j |] eqn:Hj; [| reflexivity].
  f_equal. apply cells_other; [| assumption].
  intros ->. apply Hne. exact (col_index_inj _ _ _ _ Hi Hj).
Qed.

Lemma get_column_set_same (df : DataFrame) (c : string) (i : nat)
    (series : list Value) :
  well_formed df = true ->
  col_index c (columns df) = Some i ->
  length series = length (rows df) ->
  get_column (set_column df c series) c = Ok series.
Proof.
  intros Hwf Hi Hlen. rewrite (set_column_existing _ _ _ _ Hi).
  unfold get_column. cbn [columns rows]. rewrite Hi.
  f_equal. apply cells_same; [| assumption].
  intros r Hr. unfold well_formed in Hwf. rewrite forallb_forall in Hwf.
  specialize (Hwf r Hr). apply Nat.eqb_eq in Hwf. rewrite Hwf.
  exact (col_index_lt _ _ _ Hi).
Qed.

Lemma has_column_get (df : DataFrame) (c : string) :
  has_column df c = true ->
  exists i, col_index c (columns df) = Some i /\
            get_column df c = Ok (map (cell i) (rows df)).
Proof.
  unfold has_column, get_column.
  destruct (col_index c (columns df)) as [i |]; [| discriminate].
  intros _. now exists i.
Qed.

Section LoaderFacts.
Context {R : Runtime}.

Lemma normalize_column_inv (df df' : DataFrame) (c : string) :
  normalize_column df c = Ok df' ->
  exists i series floats,
    col_index c (columns df) = Some i /\
    get_column df c = Ok series /\
    mapM normalize_coordinate series = Ok floats /\
    length floats = length (rows df) /\
    df' = set_column df c floats.
Proof.
  unfold normalize_column.
  destruct (get_column df c) as [series | e] eqn:Hc; [| discriminate].
  destruct (get_column_rows _ _ _ Hc) as [i [Hi Hs]].
  cbn [rbind].
  destruct (mapM normalize_coordinate series) as [floats | e] eqn:Hm;
    [| discriminate].
  cbn [rbind]. intros [= <-]. exists i, series, floats.
  repeat split; try assumption.
  rewrite (mapM_length _ _ _ Hm), Hs. apply length_map.
Qed.

Lemma normalize_column_other (df df' : DataFrame) (c c' : string) :
  normalize_column df c = Ok df' -> c <> c' ->
  get_column df' c' = get_column df c'.
Proof.
  intros H Hne.
  destruct (normalize_column_inv _ _ _ H) as (i & series & floats & Hi & _ & _ & Hl & ->).
  now apply (get_column_set_other _ _ _ i).
Qed.

Lemma normalize_column_bad_cell (df : DataFrame) (c s : string)
    (series : list Value) :
  get_column df c = Ok series -> In (VStr s) series ->
  2 <= count_char "," s ->
  exists e, normalize_column df c = Raise e.
Proof.
  intros Hc Hin Hs. unfold normalize_column. rewrite Hc. cbn [rbind].
  destruct (mapM_raises normalize_coordinate series (VStr s) _ Hin
              (normalize_two_commas s Hs)) as [e ->].
  now exists e.
Qed.

Lemma dates_coerced_other (df : DataFrame) (c : string) :
  c <> "Data" -> get_column (dates_coerced df) c = get_column df c.
Proof.
  intros Hne. unfold dates_coerced.
  destruct (get_column df "Data") as [series |] eqn:Hd; [| reflexivity].
  destruct (get_column_rows _ _ _ Hd) as [i [Hi ->]].
  apply (get_column_set_other _ _ _ i); [assumption | congruence |].
  now rewrite !length_map.
Qed.

(** [load_data] after a successful read, step by step. *)
Lemma load_data_steps (file_path : string) (df : DataFrame) :
  read_excel file_path = Ok df ->
  load_data file_path =
  let df1 := if has_column df "Data" then dates_coerced df else df in
  let log1 := if has_column df "Data" then []
              else [StError missing_date_column] in
  match (df2 <- normalize_column df1 "POINT_X" ;; normalize_column df2 "POINT_Y") with
  | Ok df3 => (Some df3, log1)
  | Raise e => (None, log1 ++ [StErrorExn "Erro ao ler o arquivo Excel: " e])
  end.
Proof.
  intros Hr. unfold load_data, load_data_body. rewrite Hr.
  unfold lift, ret, report. cbn [mbind].
  destruct (has_column df "Data") eqn:Hd.
  - destruct (has_column_get _ _ Hd) as [i [Hi Hg]].
    unfold dates_coerced. rewrite Hg. cbn [mbind app].
    destruct (normalize_column _ "POINT_X") as [df2 | e]; cbn [mbind rbind app];
      [| reflexivity].
    destruct (normalize_column df2 "POINT_Y") as [df3 | e]; reflexivity.
  - cbn [mbind app].
    destruct (normalize_column df "POINT_X") as [df2 | e]; cbn [mbind rbind app];
      [| reflexivity].
    destruct (normalize_column df2 "POINT_Y") as [df3 | e]; reflexivity.
Qed.

(** C10. Every comma of a coordinate becomes a point, so a coordinate cell
    with two or more commas cannot be read as a float: whenever such a cell
    stands in POINT_X or POINT_Y, [load_data] gives [None] for the whole
    table and reports the failure. *)
Theorem two_commas_reject_table
    (file_path : string) (df : DataFrame) (c s : string) (series : list Value) :
  read_excel file_path = Ok df ->
  c = "POINT_X" \/ c = "POINT_Y" ->
  get_column df c = Ok series ->
  In (VStr s) series ->
  2 <= count_char "," s ->
  normalize_coordinate (VStr s) = Raise (ValueError (str_replace "," "." s)) /\
  fst (load_data file_path) = None /\
  exists e, In (StErrorExn "Erro ao ler o arquivo Excel: " e)
               (snd (load_data file_path)).
Proof.
  intros Hr Hc Hg Hin Hs. split; [now apply normalize_two_commas |].
  rewrite (load_data_steps _ _ Hr). cbv zeta.
  set (df1 := if has_column df "Data" then dates_coerced df else df).
  assert (Hg1 : get_column df1 c = Ok series).
  { subst df1. destruct (has_column df "Data"); [| assumption].
    rewrite dates_coerced_other; [assumption |].
    destruct Hc as [-> | ->]; discriminate. }
  assert (Hfail : exists e,
            (df2 <- normalize_column df1 "POINT_X" ;; normalize_column df2 "POINT_Y")
            = Raise e).
  { destruct Hc as [-> | ->].
    - destruct (normalize_column_bad_cell _ _ _ _ Hg1 Hin Hs) as [e ->].
      now exists e.
    - destruct (normalize_column df1 "POINT_X") as [df2 | e] eqn:Hx;
        [| now exists e].
      cbn [rbind]. apply (normalize_column_bad_cell _ _ s series); try assumption.
      rewrite (normalize_column_other _ _ _ "POINT_Y" Hx); [assumption | discriminate]. }
  destruct Hfail as [e ->]. cbn [fst snd]. split; [reflexivity |].
  exists e. apply in_or_app. right. now left.
Qed.

(** C7, as the code has it. With a Data column in the sheet, a successful
    load reports nothing at all, and the Data column of the result is the
    cell-by-cell coercion of the sheet's: what cannot be parsed is there as
    NaT.  Without a Data column the one report is that the column was not
    found, and loading goes on. *)
Theorem unparsable_dates_become_NaT
    (file_path : string) (df df' : DataFrame) (log : list Report) :
  read_excel file_path = Ok df ->
  well_formed df = true ->
  load_data file_path = (Some df', log) ->
  (forall series, get_column df "Data" = Ok series ->
     log = [] /\ get_column df' "Data" = Ok (map to_datetime_coerce series)) /\
  (has_column df "Data" = false -> log = [StError missing_date_column]).
Proof.
  intros Hr Hwf. rewrite (load_data_steps _ _ Hr). cbv zeta.
  destruct (normalize_column _ "POINT_X") as [df2 | e] eqn:Hx; cbn [rbind];
    [| discriminate].
  destruct (normalize_column df2 "POINT_Y") as [df3 | e] eqn:Hy; [| discriminate].
  intros [= <- <-]. split.
  - intros series Hg. destruct (get_column_rows _ _ _ Hg) as [i [Hi Hs]].
    assert (Hd : has_column df "Data" = true) by (unfold has_column; now rewrite Hi).
    rewrite Hd in *. split; [reflexivity |].
    rewrite (normalize_column_other _ _ _ "Data" Hy) by discriminate.
    rewrite (normalize_column_other _ _ _ "Data" Hx) by discriminate.
    unfold dates_coerced. rewrite Hg.
    apply (get_column_set_same _ _ i); [assumption | assumption |].
    rewrite Hs. now rewrite !length_map.
  - now intros ->.
Qed.

End LoaderFacts.

Lemma two_commas_reject_table_witness :
  normalize_coordinate (R := Sample.runtime) (VStr "680,000,5")
  = Raise (ValueError "680.000.5") /\
  fst (load_data (R := Sample.runtime) "thousands.xlsx") = None /\
  exists e, In (StErrorExn "Erro ao ler o arquivo Excel: " e)
               (snd (load_data (R := Sample.runtime) "thousands.xlsx")).
Proof.
  apply (two_commas_reject_table (R := Sample.runtime) "thousands.xlsx"
           Sample.thousands_survey "POINT_X" "680,000,5" [VStr "680,000,5"]).
  - reflexivity.
  - now left.
  - reflexivity.
  - now left.
  - vm_compute. lia.
Defined.

Lemma unparsable_dates_become_NaT_witness :
  (forall series, get_column Sample.survey "Data" = Ok series ->
     @nil Report = [] /\
     get_column
       (mkDF Sample.sheet_columns
          [mkRow 0 [VStr "A"; VStr "ok"; VTime 20230105;
                    VFloat 680000; VFloat 7460000];
           mkRow 1 [VStr "B"; VStr "ok"; VNaT; VFloat 681000; VFloat 7461000];
           mkRow 2 [VStr "B"; VNaN; VTime 20230107;
                    VFloat 682000; VFloat 7462000]]) "Data"
     = Ok (map (to_datetime_coerce (R := Sample.runtime)) series)) /\
  (has_column Sample.survey "Data" = false ->
   @nil Report = [StError missing_date_column]).
Proof.
  apply (unparsable_dates_become_NaT (R := Sample.runtime) "survey.xlsx"
           Sample.survey); reflexivity.
Defined.

(** C7, as stated, fails: the second row of the sample sheet has the text
    "sem data" for a date; the load succeeds, reports nothing, and that cell
    comes back as NaT. *)
Lemma unparsable_date_not_reported :
  get_column Sample.survey "Data"
  = Ok [VStr "2023-01-05"; VStr "sem data"; VStr "2023-01-07"] /\
  parse_datetime (Runtime := Sample.runtime) (VStr "sem data") = None /\
  exists df', load_data (R := Sample.runtime) "survey.xlsx" = (Some df', []) /\
              get_column df' "Data" = Ok [VTime 20230105; VNaT; VTime 20230107].
Proof.
  split; [reflexivity |]. split; [reflexivity |].
  eexists. split; reflexivity.
Qed.


(** ** Reports and exceptions *)

Lemma mbind_ok_inv {A B} (m : M A) (k : A -> M B) (b : B) (log : list Report) :
  mbind m k = (Ok b, log) ->
  exists a l1 l2, m = (Ok a, l1) /\ k a = (Ok b, l2) /\ log = l1 ++ l2.
Proof.
  unfold mbind. destruct m as [[a | e] l1]; [| discriminate].
  destruct (k a) as [r l2] eqn:Hk. intros [= -> <-]. now exists a, l1, l2.
Qed.

Lemma lift_ok_inv {A} (r : Result A) (a : A) (log : list Report) :
  lift r = (Ok a, log) -> r = Ok a /\ log = [].
Proof. unfold lift. now intros [= -> <-]. Qed.

Lemma ret_ok_inv {A} (x a : A) (log : list Report) :
  ret x = (Ok a, log) -> x = a /\ log = [].
Proof. unfold ret. now intros [= -> <-]. Qed.

(** Inverts one [x <~ m ;; k] that ended well. *)
Ltac bind_inv H a l1 l2 Hm Hk :=
  apply mbind_ok_inv in H; destruct H as (a & l1 & l2 & Hm & Hk & ->).

Ltac lift_inv H :=
  apply lift_ok_inv in H; destruct H as [H ->].

Ltac ret_inv H :=
  apply ret_ok_inv in H; destruct H as [H ->].

(** ** Scene layers *)

Lemma time_features_of_app (a b : Scene) :
  time_features_of (a ++ b) = time_features_of a ++ time_features_of b.
Proof. apply flat_map_app. Qed.

Lemma base_features_of_app (a b : Scene) :
  base_features_of (a ++ b) = base_features_of a ++ base_features_of b.
Proof. apply flat_map_app. Qed.

Lemma circle_marker_inv (gdf : DataFrame) (lc : option string) (cm : ColorMap)
    (r : Row) (l : Layer) :
  circle_marker gdf lc cm r = Ok l -> is_marker l = true.
Proof.
  unfold circle_marker.
  repeat match goal with
         | |- context [rbind ?x _] => destruct x; cbn [rbind]; try discriminate
         end.
  now intros [= <-].
Qed.

Lemma markers_only (gdf : DataFrame) (lc : option string) (cm : ColorMap)
    (rs : list Row) (ms : list Layer) :
  mapM (circle_marker gdf lc cm) rs = Ok ms ->
  time_features_of ms = [] /\ base_features_of ms = [].
Proof.
  revert ms. induction rs as [| r rs IH]; intros ms; simpl.
  - now intros [= <-].
  - destruct (circle_marker gdf lc cm r) as [l |] eqn:Hl; [| discriminate].
    cbn [rbind]. destruct (mapM _ rs) as [ms' |]; [| discriminate].
    cbn [rbind]. intros [= <-]. destruct (IH ms' eq_refl) as [H1 H2].
    apply circle_marker_inv in Hl. destruct l; try discriminate.
    simpl. now rewrite H1, H2.
Qed.

(** The time features are those of the dated rows, one for one and in
    order, each with its row's timestamp. *)
Lemma time_features_dated (gdf : DataFrame) (lc : option string) (cm : ColorMap)
    (i : nat) (rs : list Row) (fs : list TimeFeature) :
  col_index "Data" (columns gdf) = Some i ->
  time_features gdf lc cm rs = Ok fs ->
  Forall2 (fun r f => cell i r = VTime (time f))
          (filter (fun r => notnull (cell i r)) rs) fs.
Proof.
  intros Hi. revert fs. induction rs as [| r rs IH]; intros fs; simpl.
  - intros [= <-]. constructor.
  - unfold time_feature at 1. unfold row_get at 1. rewrite Hi. cbn [rbind].
    destruct (notnull (cell i r)) eqn:Hn.
    + destruct (row_get gdf r "Longitude") as [lon |]; [| discriminate].
      cbn [rbind].
      destruct (row_get gdf r "Latitude") as [lat |]; [| discriminate].
      cbn [rbind].
      destruct (cell i r) eqn:Hc; cbn [isoformat rbind]; try discriminate.
      match goal with
      | |- context [rbind (if ?c then ?x else ?y) _] =>
          destruct (if c then x else y); cbn [rbind]; [| discriminate]
      end.
      match goal with
      | |- context [rbind (if ?c then ?x else ?y) _] =>
          destruct (if c then x else y); cbn [rbind]; [| discriminate]
      end.
      destruct (time_features gdf lc cm rs) as [fs' |]; [| discriminate].
      cbn [rbind]. intros [= <-]. constructor; [exact Hc | now apply IH].
    + cbn [rbind].
      destruct (time_features gdf lc cm rs) as [fs' |]; [| discriminate].
      cbn [rbind]. intros [= <-]. now apply IH.
Qed.

Section ComposerFacts.
Context {R : Runtime}.

(** What [create_map] leaves in the scene, as far as time features and base
    features go. *)
Lemma create_map_features
    (gdf : DataFrame) (bo lp : string) (lc : option string) (cm : ColorMap)
    (gh gt : bool) (m : Scene) (log : list Report) :
  create_map gdf bo lp lc cm gh gt = (Ok m, log) ->
  base_features_of m = [] /\
  (gt = true ->
   Forall2 (fun r f => row_get gdf r "Data" = Ok (VTime (time f)))
           (dated_rows gdf) (time_features_of m)).
Proof.
  unfold create_map. intros H.
  bind_inv H x1 l1 l1' H1 H. clear H1 x1 l1.
  bind_inv H x2 l2 l2' H2 H. clear H2 x2 l2.
  bind_inv H logo l3 l3' H3 H. clear H3 l3.
  bind_inv H m1 l4 l4' Hheat H.
  bind_inv H m2 l5 l5' Htime H.
  bind_inv H m3 l6 l6' Hmark H.
  ret_inv H. subst m3.
  (* heat stage *)
  assert (E1 : base_features_of m1 = [] /\ time_features_of m1 = []).
  { destruct gh.
    - bind_inv Hheat hpts l7 l7' Hh Hheat. ret_inv Hheat. subst m1. now split.
    - ret_inv Hheat. subst m1. now split. }
  destruct E1 as [B1 T1].
  (* time stage *)
  assert (E2 : base_features_of m2 = [] /\
               (gt = true ->
                Forall2 (fun r f => row_get gdf r "Data" = Ok (VTime (time f)))
                        (dated_rows gdf) (time_features_of m2))).
  { unfold dated_rows, row_get, has_column in *.
    destruct gt; cbn [andb] in Htime.
    - destruct (col_index "Data" (columns gdf)) as [i |] eqn:Hi.
      + bind_inv Htime fs l8 l8' Hfs Htime. lift_inv Hfs.
        pose proof (time_features_dated _ _ _ _ _ _ Hi Hfs) as Hd.
        assert (Hd' : Forall2 (fun r f => Ok (cell i r) = Ok (VTime (time f)))
                        (filter (fun r => notnull (cell i r)) (rows gdf)) fs).
        { eapply Forall2_impl; [| exact Hd]. simpl. now intros a b ->. }
        destruct fs as [| f fs].
        * bind_inv Htime u l9 l9' Hu Htime. ret_inv Htime. subst m2.
          rewrite T1. split; [assumption | intros _; exact Hd'].
        * cbn [truthy] in Htime. ret_inv Htime. subst m2.
          rewrite base_features_of_app, time_features_of_app, B1, T1.
          simpl. rewrite app_nil_r. split; [reflexivity | intros _; exact Hd'].
      + ret_inv Htime. subst m2. rewrite T1. split; [assumption |].
        intros _. constructor.
    - ret_inv Htime. subst m2. split; [assumption | discriminate]. }
  destruct E2 as [B2 T2].
  (* marker stage *)
  destruct (legend_set lc && truthy cm).
  - bind_inv Hmark ms l10 l10' Hms Hmark. lift_inv Hms. ret_inv Hmark. subst m.
    destruct (markers_only _ _ _ _ _ Hms) as [Tm Bm].
    rewrite !base_features_of_app, !time_features_of_app, B2, Tm, Bm.
    simpl. rewrite app_nil_r. split; [reflexivity | exact T2].
  - ret_inv Hmark. subst m. now split.
Qed.

End ComposerFacts.

(** ** Frames with no rows *)

Lemma col_index_app_l (c : string) (cols more : list string) (i : nat) :
  col_index c cols = Some i -> col_index c (cols ++ more) = Some i.
Proof.
  revert i. induction cols as [| x cols IH]; intros i; simpl; [discriminate |].
  destruct (String.eqb c x); [trivial |].
  destruct (col_index c cols) as [j |]; [| discriminate].
  intros [= <-]. now rewrite (IH j eq_refl).
Qed.

Lemma col_index_app_last (c : string) (cols : list string) :
  col_index c (cols ++ [c]) <> None.
Proof.
  induction cols as [| x cols IH]; simpl.
  - now rewrite String.eqb_refl.
  - destruct (String.eqb c x); [discriminate |].
    destruct (col_index c (cols ++ [c])); [discriminate | contradiction].
Qed.

Lemma has_column_set_same (df : DataFrame) (c : string) (series : list Value) :
  has_column (set_column df c series) c = true.
Proof.
  unfold has_column, set_column.
  destruct (col_index c (columns df)) as [i |] eqn:Hi; cbn [columns].
  - now rewrite Hi.
  - pose proof (col_index_app_last c (columns df)) as H.
    now destruct (col_index c (columns df ++ [c])).
Qed.

Lemma has_column_set_keep (df : DataFrame) (c c' : string) (series : list Value) :
  has_column df c' = true -> has_column (set_column df c series) c' = true.
Proof.
  unfold has_column, set_column.
  destruct (col_index c' (columns df)) as [j |] eqn:Hj; [| discriminate].
  intros _. destruct (col_index c (columns df)); cbn [columns].
  - now rewrite Hj.
  - now rewrite (col_index_app_l _ _ _ _ Hj).
Qed.

Lemma set_column_no_rows (df : DataFrame) (c : string) (series : list Value) :
  rows df = [] -> rows (set_column df c series) = [].
Proof.
  intros H. unfold set_column.
  destruct (col_index c (columns df)); cbn [rows]; now rewrite H.
Qed.

Section PipelineFacts.
Context {R : Runtime}.

Lemma convert_utm_no_rows (df df' : DataFrame) :
  convert_utm_to_latlon df = Ok df' -> rows df = [] ->
  rows df' = [] /\ has_column df' "Longitude" = true /\
  has_column df' "Latitude" = true.
Proof.
  unfold convert_utm_to_latlon.
  destruct (get_column df "POINT_X") as [xs |]; [| discriminate]. cbn [rbind].
  destruct (get_column df "POINT_Y") as [ys |]; [| discriminate]. cbn [rbind].
  intros [= <-] Hr. repeat split.
  - now apply set_column_no_rows, set_column_no_rows.
  - apply has_column_set_keep, has_column_set_same.
  - apply has_column_set_same.
Qed.

(** A frame with no rows is never converted: the empty GeoDataFrame is
    reported and [(None, None)] returned. *)
Lemma convert_to_geojson_no_rows (df : DataFrame) :
  has_column df "Longitude" = true -> has_column df "Latitude" = true ->
  rows df = [] ->
  convert_to_geojson df = (Ok None, [StError empty_geodataframe]).
Proof.
  intros Hlon Hlat Hr. unfold convert_to_geojson. rewrite Hlon, Hlat.
  destruct (has_column_get _ _ Hlon) as [i [_ ->]].
  destruct (has_column_get _ _ Hlat) as [j [_ ->]].
  assert (He : forall series, df_empty (set_column df "geometry" series) = true).
  { intros series. unfold df_empty. now rewrite set_column_no_rows. }
  unfold lift. cbn [andb mbind]. rewrite He. reflexivity.
Qed.

(** A run of the script that shows a map went through every stage. *)
Lemma app_scene_inv (excel_file logo_path : string) (ui : UI) (page : Page)
    (log : list Report) (m : Scene) :
  app excel_file logo_path ui = (Ok page, log) ->
  scene page = Some m ->
  exists df0 log0 df1 file gdf log1 cm m0 log2,
    load_data excel_file = (Some df0, log0) /\
    convert_utm_to_latlon df0 = Ok df1 /\
    convert_to_geojson df1 = (Ok (Some (file, gdf)), log1) /\
    create_map gdf (basemap_choice ui) logo_path (legend_choice ui) cm
      (heatmap_box ui) (time_series_box ui) = (Ok m0, log2) /\
    m = m0 ++ [GeoJsonLayer "Dados GeoJSON" (rows gdf)].
Proof.
  unfold app. intros H Hs.
  bind_inv H logo l1 l1' Hlogo H. clear Hlogo.
  destruct (load_data excel_file) as [[df0 |] log0] eqn:Hload.
  2:{ injection H as <- _. discriminate. }
  bind_inv H u l2 l2' Hu H. clear Hu.
  bind_inv H df1 l3 l3' Hutm H. lift_inv Hutm.
  bind_inv H dfd l4 l4' Hdrop H. clear Hdrop.
  destruct (truthy (filter_columns ui)).
  2:{ bind_inv H u2 l5 l5' Hu2 H. ret_inv H. subst page. discriminate. }
  bind_inv H filters l5 l5' Hf H. clear Hf.
  bind_inv H dff l6 l6' Hff H. clear Hff.
  bind_inv H cm l7 l7' Hcm H. clear Hcm.
  bind_inv H converted l8 l8' Hconv H.
  destruct converted as [[file gdf] |].
  2:{ bind_inv H u3 l9 l9' Hu3 H. ret_inv H. subst page. discriminate. }
  bind_inv H m0 l9 l9' Hmap H.
  bind_inv H figs l10 l10' Hfigs H. ret_inv H. subst page.
  cbn [scene] in Hs. injection Hs as <-.
  exists df0, log0, df1, file, gdf, l8, cm, m0, l9. repeat split; assumption.
Qed.

(** C3, as the code has it. The time features come from the table the map is
    built on, which is the whole reprojected table and not the filtered one:
    there is one time feature per row of that table whose timestamp is not
    missing, in row order and with that row's timestamp, and every row of
    that table, dated or not, is in the base GeoJSON layer. *)
Theorem time_features_follow_map_table
    (excel_file logo_path : string) (ui : UI) (page : Page)
    (log : list Report) (m : Scene) :
  app excel_file logo_path ui = (Ok page, log) ->
  scene page = Some m ->
  time_series_box ui = true ->
  exists df0 log0 df1 file gdf log1,
    load_data excel_file = (Some df0, log0) /\
    convert_utm_to_latlon df0 = Ok df1 /\
    convert_to_geojson df1 = (Ok (Some (file, gdf)), log1) /\
    length (time_features_of m) = length (dated_rows gdf) /\
    Forall2 (fun r f => row_get gdf r "Data" = Ok (VTime (time f)))
            (dated_rows gdf) (time_features_of m) /\
    base_features_of m = rows gdf.
Proof.
  intros H Hs Ht.
  destruct (app_scene_inv _ _ _ _ _ _ H Hs)
    as (df0 & log0 & df1 & file & gdf & log1 & cm & m0 & log2 &
        Hload & Hutm & Hconv & Hmap & ->).
  destruct (create_map_features _ _ _ _ _ _ _ _ _ Hmap) as [Hb Hf].
  rewrite Ht in Hf. specialize (Hf eq_refl).
  exists df0, log0, df1, file, gdf, log1.
  assert (Ht' : time_features_of
                  (m0 ++ [GeoJsonLayer "Dados GeoJSON" (rows gdf)])
                = time_features_of m0).
  { rewrite time_features_of_app. apply app_nil_r. }
  assert (Hb' : base_features_of
                  (m0 ++ [GeoJsonLayer "Dados GeoJSON" (rows gdf)])
                = rows gdf).
  { rewrite base_features_of_app, Hb. apply app_nil_r. }
  rewrite Ht', Hb'.
  split; [exact Hload |]. split; [exact Hutm |]. split; [exact Hconv |].
  split; [symmetry; exact (Forall2_length Hf) |].
  split; [exact Hf | reflexivity].
Qed.

(** C5, as the code has it. When the loaded table has no rows, a run of the
    script that ends without an exception shows nothing at all, heat layer
    requested or not.  Once filter columns are chosen, it adds to the
    loader's reports exactly two: the empty GeoDataFrame and the failed
    conversion.  With no filter column chosen the conversion is not
    attempted and the one report added is the warning that asks for filter
    columns. *)
Theorem empty_table_composes_no_scene
    (excel_file logo_path : string) (ui : UI) (df0 : DataFrame)
    (log0 log : list Report) (page : Page) :
  load_data excel_file = (Some df0, log0) ->
  rows df0 = [] ->
  app excel_file logo_path ui = (Ok page, log) ->
  page = blank_page /\
  log = log0 ++ (if truthy (filter_columns ui)
                 then [StError empty_geodataframe; StError geojson_failed]
                 else [StWarning no_filter_column]).
Proof.
  intros Hload Hr H. unfold app in H.
  bind_inv H logo l1 l1' Hlogo H. lift_inv Hlogo. clear Hlogo.
  rewrite Hload in H.
  bind_inv H u l2 l2' Hu H. injection Hu as _ <-.
  bind_inv H df1 l3 l3' Hutm H. lift_inv Hutm.
  destruct (convert_utm_no_rows _ _ Hutm Hr) as (Hr1 & Hlon & Hlat).
  bind_inv H dfd l4 l4' Hdrop H. lift_inv Hdrop. clear Hdrop.
  destruct (truthy (filter_columns ui)).
  2:{ bind_inv H u2 l5 l5' Hu2 H. ret_inv H. subst page.
      unfold report in Hu2. injection Hu2 as _ <-.
      split; reflexivity. }
  bind_inv H filters l5 l5' Hf H. lift_inv Hf. clear Hf.
  bind_inv H dff l6 l6' Hff H. lift_inv Hff. clear Hff.
  bind_inv H cm l7 l7' Hcm H.
  assert (Hl7 : l7 = []).
  { destruct (legend_choice ui) as [c |].
    - destruct (legend_set (Some c)).
      + bind_inv Hcm series l8 l8' Hs Hcm. lift_inv Hs. now ret_inv Hcm.
      + now ret_inv Hcm.
    - now ret_inv Hcm. }
  subst l7. clear Hcm.
  bind_inv H converted l8 l8' Hconv H.
  rewrite (convert_to_geojson_no_rows _ Hlon Hlat Hr1) in Hconv.
  injection Hconv as <- <-.
  bind_inv H u3 l9 l9' Hu3 H. ret_inv H. subst page.
  unfold report in Hu3. injection Hu3 as _ <-.
  split; reflexivity.
Qed.

End PipelineFacts.

Lemma time_features_follow_map_table_witness :
  exists df0 log0 df1 file gdf log1,
    load_data (R := Sample.runtime) "survey.xlsx" = (Some df0, log0) /\
    convert_utm_to_latlon (R := Sample.runtime) df0 = Ok df1 /\
    convert_to_geojson (R := Sample.runtime) df1 = (Ok (Some (file, gdf)), log1) /\
    length (time_features_of Sample.plain_scene) = length (dated_rows gdf) /\
    Forall2 (fun r f => row_get gdf r "Data" = Ok (VTime (time f)))
            (dated_rows gdf) (time_features_of Sample.plain_scene) /\
    base_features_of Sample.plain_scene = rows gdf.
Proof.
  apply (time_features_follow_map_table (R := Sample.runtime)
           "survey.xlsx" "logo.png" Sample.only_A_plain Sample.plain_page []);
    reflexivity.
Defined.

(** C3, as stated, fails: with Tipo narrowed to "A" one row is left in the
    filtered table, and it is dated; the animated layer still has the two
    dated rows of the whole sheet. *)
Lemma time_features_ignore_filter :
  app (R := Sample.runtime) "survey.xlsx" "logo.png" Sample.only_A_plain
  = (Ok Sample.plain_page, []) /\
  scene Sample.plain_page = Some Sample.plain_scene /\
  filtered_table Sample.plain_page = Some Sample.plain_filtered /\
  length (rows Sample.plain_filtered) = 1 /\
  length (dated_rows Sample.plain_filtered) = 1 /\
  length (time_features_of Sample.plain_scene) = 2.
Proof. repeat split. Qed.

Lemma empty_table_composes_no_scene_witness :
  load_data (R := Sample.runtime) "empty.xlsx"
  = (Some (mkDF Sample.sheet_columns []), []) /\
  app (R := Sample.runtime) "empty.xlsx" "logo.png" Sample.keep_all
  = (Ok blank_page, [StError empty_geodataframe; StError geojson_failed]) /\
  blank_page = blank_page /\
  [StError empty_geodataframe; StError geojson_failed]
  = [] ++ (if truthy (filter_columns Sample.keep_all)
           then [StError empty_geodataframe; StError geojson_failed]
           else [StWarning no_filter_column]).
Proof.
  split; [reflexivity |]. split; [reflexivity |].
  apply (empty_table_composes_no_scene (R := Sample.runtime)
           "empty.xlsx" "logo.png" Sample.keep_all
           (mkDF Sample.sheet_columns []) []); reflexivity.
Defined.

(** C5, as stated, fails: on the sheet with no rows and the heat box ticked
    the run ends with two error reports and a page without a map. *)
Lemma empty_table_shows_no_map :
  heatmap_box Sample.keep_all = true /\
  app (R := Sample.runtime) "empty.xlsx" "logo.png" Sample.keep_all
  = (Ok (mkPage None None None),
     [StError empty_geodataframe; StError geojson_failed]).
Proof. split; reflexivity. Qed.

(** C2. The script narrows Tipo to "A" and colours only the values left in
    the filtered table, then draws markers for every row of the whole table:
    the first "B" row has no colour and [color_map[...]] raises [KeyError],
    which nothing catches.  The two sibling lookups, in the time features and
    in the chart, use [get] with a default on the same map. *)
Lemma unmapped_legend_value_raises :
  app (R := Sample.runtime) "survey.xlsx" "logo.png" Sample.only_A
  = (Raise (KeyError (VStr "B")), []) /\
  dict_item [(VStr "A", "#3388ff")] (VStr "B") = Raise (KeyError (VStr "B")) /\
  dict_get [(VStr "A", "#3388ff")] (VStr "B") "blue" = "blue" /\
  dict_get [(VStr "A", "#3388ff")] (VStr "B") "#1f77b4" = "#1f77b4".
Proof. repeat split. Qed.

(** * Further properties *)

(** ** Attribute filter engine: shape of the result *)

Lemma filter_filter {A} (p q : A -> bool) (l : list A) :
  filter q (filter p l) = filter (fun x => p x && q x) l.
Proof.
  induction l as [| x l IH]; simpl; [reflexivity |].
  destruct (p x); simpl; [destruct (q x) |]; now rewrite IH.
Qed.

Lemma filter_true {A} (l : list A) : filter (fun _ => true) l = l.
Proof. induction l as [| x l IH]; simpl; [reflexivity | now rewrite IH]. Qed.

(** One pass of the loop keeps the columns and keeps or drops whole rows. *)
Lemma filter_step_shape (df df' : DataFrame) (col : string) (values : list Value) :
  filter_step df (col, values) = Ok df' ->
  columns df' = columns df /\
  (df' = df \/
   exists i, col_index col (columns df) = Some i /\ values <> [] /\
             rows df' = filter (fun r => isin values (cell i r)) (rows df)).
Proof.
  unfold filter_step. destruct values as [| v values].
  - intros [= <-]. split; [reflexivity | now left].
  - destruct (get_column df col) as [series |] eqn:Hc; [| discriminate].
    cbn [rbind]. destruct (get_column_rows _ _ _ Hc) as [i [Hi ->]].
    match goal with |- context [Nat.eqb ?a ?b] => destruct (Nat.eqb a b) end.
    + intros [= <-]. split; [reflexivity | now left].
    + intros [= <-]. rewrite boolean_index_isin. cbn [columns rows].
      split; [reflexivity |]. right. exists i. repeat split; [assumption | discriminate].
Qed.

Lemma apply_attribute_filters_columns (df df' : DataFrame) (filters : Filters) :
  apply_attribute_filters df filters = Ok df' -> columns df' = columns df.
Proof.
  revert df. induction filters as [| [col values] rest IH]; intros df;
    cbn [apply_attribute_filters].
  - now intros [= <-].
  - destruct (filter_step df (col, values)) as [df1 |] eqn:Hs; [| discriminate].
    cbn [rbind]. intros H. rewrite (IH _ H).
    exact (proj1 (filter_step_shape _ _ _ _ Hs)).
Qed.

Lemma apply_attribute_filters_rows (df df' : DataFrame) (filters : Filters) :
  apply_attribute_filters df filters = Ok df' ->
  exists keep : Row -> bool, rows df' = filter keep (rows df).
Proof.
  revert df. induction filters as [| [col values] rest IH]; intros df;
    cbn [apply_attribute_filters].
  - intros [= <-]. exists (fun _ => true). now rewrite filter_true.
  - destruct (filter_step df (col, values)) as [df1 |] eqn:Hs; [| discriminate].
    cbn [rbind]. intros H. destruct (IH _ H) as [q Hq].
    destruct (filter_step_shape _ _ _ _ Hs) as [_ [-> | (i & _ & _ & Hr)]].
    + now exists q.
    + exists (fun r => isin values (cell i r) && q r).
      now rewrite Hq, Hr, filter_filter.
Qed.

(** X1. A filter that succeeds never touches the columns and never adds,
    changes or reorders rows: the rows of the result are the rows of the
    input that pass some test, in their original order and with their
    labels. *)
Theorem filter_result_is_selection (df df' : DataFrame) (filters : Filters) :
  apply_attribute_filters df filters = Ok df' ->
  columns df' = columns df /\
  exists keep : Row -> bool, rows df' = filter keep (rows df).
Proof.
  intros H. split.
  - exact (apply_attribute_filters_columns _ _ _ H).
  - exact (apply_attribute_filters_rows _ _ _ H).
Qed.

Lemma filter_result_is_selection_witness :
  apply_attribute_filters Sample.survey [("Tipo", [VStr "B"])]
  = Ok (mkDF Sample.sheet_columns [Sample.row1; Sample.row2]) /\
  columns (mkDF Sample.sheet_columns [Sample.row1; Sample.row2])
  = columns Sample.survey /\
  exists keep : Row -> bool,
    rows (mkDF Sample.sheet_columns [Sample.row1; Sample.row2])
    = filter keep (rows Sample.survey).
Proof.
  split; [reflexivity |].
  apply (filter_result_is_selection Sample.survey
           (mkDF Sample.sheet_columns [Sample.row1; Sample.row2])
           [("Tipo", [VStr "B"])]).
  reflexivity.
Defined.

(** X2. A row that satisfies every constraint with a non-empty list is never
    dropped: if, for each such column, the row's value is among the allowed
    values, the row is in the result. *)
Theorem matching_rows_are_kept
    (df df' : DataFrame) (filters : Filters) (r : Row) :
  apply_attribute_filters df filters = Ok df' ->
  In r (rows df) ->
  (forall col values i, In (col, values) filters -> values <> [] ->
     col_index col (columns df) = Some i -> In (cell i r) values) ->
  In r (rows df').
Proof.
  revert df. induction filters as [| [col values] rest IH]; intros df;
    cbn [apply_attribute_filters].
  - now intros [= <-].
  - destruct (filter_step df (col, values)) as [df1 |] eqn:Hs; [| discriminate].
    cbn [rbind]. intros H Hin Hok.
    destruct (filter_step_shape _ _ _ _ Hs) as [Hcols Hrows].
    apply (IH df1 H).
    + destruct Hrows as [-> | (i & Hi & Hne & Hr)]; [assumption |].
      rewrite Hr. apply filter_In. split; [assumption |].
      apply isin_In. apply (Hok col values i); [now left | assumption | assumption].
    + intros c vs j Hc Hne Hj. rewrite Hcols in Hj.
      apply (Hok c vs j); [now right | assumption | assumption].
Qed.

Lemma matching_rows_are_kept_witness :
  apply_attribute_filters Sample.survey
    [("Tipo", [VStr "B"]); ("Analise", [])]
  = Ok (mkDF Sample.sheet_columns [Sample.row1; Sample.row2]) /\
  In Sample.row2 (rows Sample.survey) /\
  In Sample.row2 (rows (mkDF Sample.sheet_columns [Sample.row1; Sample.row2])).
Proof.
  split; [reflexivity |]. split; [right; right; now left |].
  apply (matching_rows_are_kept Sample.survey
           (mkDF Sample.sheet_columns [Sample.row1; Sample.row2])
           [("Tipo", [VStr "B"]); ("Analise", [])] Sample.row2).
  - reflexivity.
  - right; right; now left.
  - intros col values i [[= <- <-] | [[= <- <-] | []]] Hne.
    + intros [= <-]. now left.
    + contradiction.
Defined.

(** X3. A constraint with a non-empty list on a column the table does not
    have ends the whole filter with [KeyError] for that column, wherever the
    constraint stands, once the constraints before it went through. *)
Theorem missing_column_raises_KeyError
    (df df1 : DataFrame) (pre post : Filters) (col : string)
    (values : list Value) :
  apply_attribute_filters df pre = Ok df1 ->
  has_column df col = false ->
  values <> [] ->
  apply_attribute_filters df (pre ++ (col, values) :: post)
  = Raise (KeyError (VStr col)).
Proof.
  intros Hpre Hc Hne. rewrite apply_attribute_filters_app, Hpre.
  cbn [rbind apply_attribute_filters]. unfold filter_step.
  destruct values as [| v values]; [contradiction |].
  unfold get_column. rewrite (apply_attribute_filters_columns _ _ _ Hpre).
  unfold has_column in Hc.
  destruct (col_index col (columns df)); [discriminate | reflexivity].
Qed.

Lemma missing_column_raises_KeyError_witness :
  apply_attribute_filters Sample.survey
    ([("Tipo", [VStr "B"])] ++ [("Bairro", [VStr "Centro"])])
  = Raise (KeyError (VStr "Bairro")).
Proof.
  apply (missing_column_raises_KeyError Sample.survey
           (mkDF Sample.sheet_columns [Sample.row1; Sample.row2])
           [("Tipo", [VStr "B"])] [] "Bairro" [VStr "Centro"]).
  - reflexivity.
  - reflexivity.
  - discriminate.
Defined.

(** ** Coordinate normalizer: what is read *)

Lemma list_ascii_of_string_app (a b : string) :
  list_ascii_of_string (a ++ b) = list_ascii_of_string a ++ list_ascii_of_string b.
Proof. induction a as [| c a IH]; simpl; [reflexivity | now rewrite IH]. Qed.

Lemma break_at_none (p : ascii -> bool) (l : list ascii) :
  forallb (fun c => negb (p c)) l = true -> break_at p l = (l, []).
Proof.
  induction l as [| c l IH]; simpl; [reflexivity |].
  intros H. apply andb_true_iff in H. destruct H as [Hc Hl].
  destruct (p c); [discriminate |]. now rewrite (IH Hl).
Qed.

Lemma break_at_first (p : ascii -> bool) (a b : list ascii) (c : ascii) :
  forallb (fun x => negb (p x)) a = true -> p c = true ->
  break_at p (a ++ c :: b) = (a, c :: b).
Proof.
  intros Ha Hc. induction a as [| x a IH]; simpl.
  - now rewrite Hc.
  - simpl in Ha. apply andb_true_iff in Ha. destruct Ha as [Hx Ha].
    destruct (p x); [discriminate |]. now rewrite (IH Ha).
Qed.

(** A digit is none of the characters the reader treats specially. *)
Lemma digit_plain (c : ascii) :
  is_digit c = true ->
  is_space c = false /\ is_dot c = false /\ is_exp_mark c = false /\
  Ascii.eqb c "-" = false /\ Ascii.eqb c "+" = false /\ to_lower c = c.
Proof.
  destruct c as [b0 b1 b2 b3 b4 b5 b6 b7].
  destruct b0, b1, b2, b3, b4, b5, b6, b7; try discriminate;
    intros _; repeat split.
Qed.

Lemma digits_no (p : ascii -> bool) (l : list ascii) :
  (forall c, is_digit c = true -> p c = false) ->
  forallb is_digit l = true -> forallb (fun c => negb (p c)) l = true.
Proof.
  intros Hp. induction l as [| c l IH]; simpl; [reflexivity |].
  intros H. apply andb_true_iff in H. destruct H as [Hc Hl].
  now rewrite (Hp c Hc), (IH Hl).
Qed.

Lemma digitpart_tail_digits (l : list ascii) :
  forallb is_digit l = true -> digitpart_tail false l = true.
Proof.
  induction l as [| c l IH]; simpl; [reflexivity |].
  intros H. apply andb_true_iff in H. destruct H as [Hc Hl].
  now rewrite Hc, (IH Hl).
Qed.

Lemma digitpart_digits (l : list ascii) :
  forallb is_digit l = true -> l <> [] -> digitpart l = true.
Proof.
  destruct l as [| c l]; [contradiction |]. simpl. intros H _.
  apply andb_true_iff in H. destruct H as [Hc Hl].
  now rewrite Hc, (digitpart_tail_digits _ Hl).
Qed.

Lemma drop_while_head (p : ascii -> bool) (c : ascii) (l : list ascii) :
  p c = false -> drop_while p (c :: l) = c :: l.
Proof. simpl. now intros ->. Qed.

Lemma strip_clean (l : list ascii) (c z : ascii) (l1 l2 : list ascii) :
  l = c :: l1 -> rev l = z :: l2 ->
  is_space c = false -> is_space z = false -> strip l = l.
Proof.
  intros Hl Hr Hc Hz. unfold strip. rewrite Hl at 1.
  rewrite (drop_while_head _ _ _ Hc), <- Hl, Hr.
  rewrite (drop_while_head _ _ _ Hz), <- Hr. apply rev_involutive.
Qed.

(** Digits, a point, digits: nothing to strip, no sign, no exponent. *)
Lemma read_float_decimal (la lb : list ascii) :
  forallb is_digit la = true -> la <> [] ->
  forallb is_digit lb = true -> lb <> [] ->
  read_float (string_of_list_ascii (la ++ "."%char :: lb))
  = Some (LitDec false la lb None).
Proof.
  intros Ha Hna Hb Hnb. unfold read_float.
  rewrite list_ascii_of_string_of_list_ascii.
  (* nothing is stripped *)
  assert (Hstrip : strip (la ++ "."%char :: lb) = la ++ "."%char :: lb).
  { destruct la as [| a la']; [contradiction |].
    simpl in Ha. apply andb_true_iff in Ha. destruct Ha as [Ha0 _].
    destruct (rev lb) as [| z rb] eqn:Hrev.
    { apply (f_equal (@rev ascii)) in Hrev. rewrite rev_involutive in Hrev.
      now subst lb. }
    assert (Hz : is_digit z = true).
    { rewrite forallb_forall in Hb. apply Hb. apply in_rev. rewrite Hrev.
      now left. }
    apply (strip_clean _ a z (la' ++ "."%char :: lb)
             ((rb ++ ["."%char]) ++ rev (a :: la'))).
    - reflexivity.
    - rewrite rev_app_distr. cbn [rev]. rewrite Hrev. reflexivity.
    - apply (digit_plain a Ha0).
    - apply (digit_plain z Hz). }
  rewrite Hstrip.
  (* no sign, no special word *)
  destruct la as [| a la']; [contradiction |].
  pose proof Ha as Ha'. simpl in Ha'. apply andb_true_iff in Ha'.
  destruct Ha' as [Ha0 Hla'].
  destruct (digit_plain a Ha0) as (_ & _ & _ & Hm & Hp & Hlow).
  assert (Hsign : take_sign ((a :: la') ++ "."%char :: lb)
                  = (false, a :: la' ++ "."%char :: lb)).
  { change ((a :: la') ++ "."%char :: lb) with (a :: (la' ++ "."%char :: lb)).
    unfold take_sign. now rewrite Hm, Hp. }
  rewrite Hsign.
  assert (Hsp : special false (a :: la' ++ "."%char :: lb) = None).
  { unfold special. cbn [map string_of_list_ascii]. rewrite Hlow.
    assert (Hn : Ascii.eqb a "n" = false).
    { destruct (Ascii.eqb a "n") eqn:E; [| reflexivity].
      apply Ascii.eqb_eq in E. subst a. discriminate. }
    assert (Hi : Ascii.eqb a "i" = false).
    { destruct (Ascii.eqb a "i") eqn:E; [| reflexivity].
      apply Ascii.eqb_eq in E. subst a. discriminate. }
    cbn [String.eqb]. now rewrite Hn, Hi. }
  rewrite Hsp.
  (* no exponent mark anywhere; the point splits the mantissa *)
  assert (Hexp : break_at is_exp_mark (a :: la' ++ "."%char :: lb)
                 = (a :: la' ++ "."%char :: lb, [])).
  { apply break_at_none.
    change (a :: la' ++ "."%char :: lb) with ((a :: la') ++ "."%char :: lb).
    apply forallb_forall. intros c Hc. apply in_app_or in Hc.
    rewrite forallb_forall in Ha, Hb.
    destruct Hc as [Hc | [<- | Hc]]; [| reflexivity |].
    - now rewrite (proj1 (proj2 (proj2 (digit_plain c (Ha c Hc))))).
    - now rewrite (proj1 (proj2 (proj2 (digit_plain c (Hb c Hc))))). }
  rewrite Hexp.
  change (a :: la' ++ "."%char :: lb) with ((a :: la') ++ "."%char :: lb).
  rewrite (break_at_first is_dot (a :: la') lb "."%char
             (digits_no is_dot (a :: la') (fun c H => proj1 (proj2 (digit_plain c H))) Ha)
             eq_refl).
  destruct lb as [| b lb']; [contradiction |].
  cbn [number_ok tl parse_exponent].
  rewrite (digitpart_digits (a :: la') Ha Hna), (digitpart_digits (b :: lb') Hb Hnb).
  reflexivity.
Qed.

Section NormalizerReads.
Context {R : Runtime}.

(** X4. A coordinate written as digits, a decimal comma and digits is read:
    the result is the float nearest to the decimal number with those integer
    and fraction digits, the same as for the text written with a point. *)
Theorem decimal_comma_is_read (a b : string) :
  all_digits a = true -> a <> "" ->
  all_digits b = true -> b <> "" ->
  normalize_coordinate (VStr (a ++ "," ++ b))
  = Ok (VFloat (round64 (LitDec false (list_ascii_of_string a)
                                (list_ascii_of_string b) None))).
Proof.
  unfold all_digits. intros Ha Hna Hb Hnb.
  unfold normalize_coordinate, astype_str, astype_float.
  assert (Hrep : forall s, forallb is_digit (list_ascii_of_string s) = true ->
                           str_replace "," "." s = s).
  { induction s as [| c s IH]; simpl; [reflexivity |].
    intros H. apply andb_true_iff in H. destruct H as [Hc Hs].
    rewrite (IH Hs). destruct (Ascii.eqb c ",") eqn:E; [| reflexivity].
    apply Ascii.eqb_eq in E. subst c. discriminate. }
  rewrite !str_replace_app, (Hrep a Ha), (Hrep b Hb).
  change (str_replace "," "." ",") with ".".
  assert (Htext : (a ++ "." ++ b)%string
                  = string_of_list_ascii
                      (list_ascii_of_string a ++ "."%char :: list_ascii_of_string b)).
  { rewrite <- (string_of_list_ascii_of_string (a ++ "." ++ b)).
    now rewrite list_ascii_of_string_app. }
  rewrite Htext, read_float_decimal; try assumption.
  - reflexivity.
  - destruct a; [contradiction | discriminate].
  - destruct b; [contradiction | discriminate].
Qed.

End NormalizerReads.

Lemma decimal_comma_is_read_witness :
  normalize_coordinate (R := Sample.runtime) (VStr ("680000" ++ "," ++ "5"))
  = Ok (VFloat (round64 (Runtime := Sample.runtime)
                  (LitDec false (list_ascii_of_string "680000")
                          (list_ascii_of_string "5") None))).
Proof.
  apply (decimal_comma_is_read (R := Sample.runtime) "680000" "5");
    first [reflexivity | discriminate].
Defined.

(** ** Column assignment keeps the frame's shape *)

Lemma length_replace_nth {A} (i : nat) (v : A) (l : list A) :
  length (replace_nth i v l) = length l.
Proof.
  revert i. induction l as [| x l IH]; intros i; [now destruct i |].
  destruct i; simpl; [reflexivity | now rewrite IH].
Qed.

Lemma labels_combine {B} (f : Row * B -> Row) (rs : list Row) (bs : list B) :
  (forall rv, label (f rv) = label (fst rv)) ->
  length bs = length rs ->
  map label (map f (combine rs bs)) = map label rs.
Proof.
  intros Hf. revert bs. induction rs as [| r rs IH]; intros [| b bs] H;
    simpl in *; try reflexivity; try discriminate.
  rewrite Hf. simpl. f_equal. apply IH. lia.
Qed.

Lemma set_column_labels (df : DataFrame) (c : string) (series : list Value) :
  length series = length (rows df) ->
  map label (rows (set_column df c series)) = map label (rows df).
Proof.
  intros H. unfold set_column.
  destruct (col_index c (columns df)); cbn [rows];
    apply labels_combine; auto.
Qed.

Lemma set_column_columns (df : DataFrame) (c : string) (series : list Value) :
  has_column df c = true -> columns (set_column df c series) = columns df.
Proof.
  unfold has_column, set_column.
  now destruct (col_index c (columns df)).
Qed.

Lemma set_column_well_formed (df : DataFrame) (c : string) (series : list Value) :
  well_formed df = true -> well_formed (set_column df c series) = true.
Proof.
  unfold well_formed, set_column. intros H. rewrite forallb_forall in H.
  destruct (col_index c (columns df)) as [i |]; cbn [rows columns];
    apply forallb_forall; intros r Hr; apply in_map_iff in Hr;
    destruct Hr as [[r0 v] [<- Hin]]; apply in_combine_l in Hin;
    specialize (H r0 Hin); apply Nat.eqb_eq in H; apply Nat.eqb_eq;
    cbn [cells fst snd].
  - now rewrite length_replace_nth.
  - rewrite !length_app, H. reflexivity.
Qed.

Lemma mapM_all {A B} (f : A -> Result B) (p : B -> bool) (l : list A)
    (l' : list B) :
  (forall x y, f x = Ok y -> p y = true) ->
  mapM f l = Ok l' -> forallb p l' = true.
Proof.
  intros Hf. revert l'. induction l as [| x l IH]; intros l'; simpl.
  - now intros [= <-].
  - destruct (f x) as [y |] eqn:Hx; [| discriminate]. cbn [rbind].
    destruct (mapM f l) as [ys |]; [| discriminate]. cbn [rbind].
    intros [= <-]. simpl. now rewrite (Hf x y Hx), (IH ys eq_refl).
Qed.

Section LoaderShape.
Context {R : Runtime}.

Lemma normalize_coordinate_float (v w : Value) :
  normalize_coordinate v = Ok w -> is_float w = true.
Proof.
  unfold normalize_coordinate, astype_float.
  destruct (read_float _) as [[| neg | neg ip fp e] |]; try discriminate;
    now intros [= <-].
Qed.

Lemma dates_coerced_shape (df : DataFrame) :
  has_column df "Data" = true ->
  columns (dates_coerced df) = columns df /\
  map label (rows (dates_coerced df)) = map label (rows df) /\
  (well_formed df = true -> well_formed (dates_coerced df) = true).
Proof.
  intros Hd. unfold dates_coerced.
  destruct (has_column_get _ _ Hd) as [i [Hi ->]]. repeat split.
  - now apply set_column_columns.
  - apply set_column_labels. now rewrite !length_map.
  - apply set_column_well_formed.
Qed.

Lemma normalize_column_shape (df df' : DataFrame) (c : string) :
  normalize_column df c = Ok df' ->
  columns df' = columns df /\
  map label (rows df') = map label (rows df) /\
  (well_formed df = true ->
   well_formed df' = true /\
   exists floats, get_column df' c = Ok floats /\ forallb is_float floats = true).
Proof.
  intros H.
  destruct (normalize_column_inv _ _ _ H)
    as (i & series & floats & Hi & Hc & Hm & Hl & ->).
  repeat split.
  - apply set_column_columns. unfold has_column. now rewrite Hi.
  - now apply set_column_labels.
  - now apply set_column_well_formed.
  - exists floats. split.
    + now apply (get_column_set_same _ _ i).
    + apply (mapM_all _ _ _ _ normalize_coordinate_float Hm).
Qed.

(** The frame after the date step of [load_data]. *)
Lemma date_step_shape (df : DataFrame) :
  let df1 := if has_column df "Data" then dates_coerced df else df in
  columns df1 = columns df /\
  map label (rows df1) = map label (rows df) /\
  (well_formed df = true -> well_formed df1 = true).
Proof.
  cbv zeta. destruct (has_column df "Data") eqn:Hd.
  - now apply dates_coerced_shape.
  - repeat split; trivial.
Qed.

(** X5. A load that succeeds keeps the sheet's columns, in order, and its
    rows, with their labels; the table stays rectangular, and every cell of
    POINT_X and of POINT_Y is then a float (a number or NaN), never text. *)
Theorem loaded_table_keeps_shape
    (file_path : string) (df df' : DataFrame) (log : list Report) :
  read_excel file_path = Ok df ->
  well_formed df = true ->
  load_data file_path = (Some df', log) ->
  columns df' = columns df /\
  map label (rows df') = map label (rows df) /\
  well_formed df' = true /\
  exists xs ys,
    get_column df' "POINT_X" = Ok xs /\ forallb is_float xs = true /\
    get_column df' "POINT_Y" = Ok ys /\ forallb is_float ys = true.
Proof.
  intros Hr Hwf. rewrite (load_data_steps _ _ Hr). cbv zeta.
  destruct (date_step_shape df) as (Hc1 & Hl1 & Hw1). cbv zeta in Hc1, Hl1, Hw1.
  specialize (Hw1 Hwf).
  destruct (normalize_column _ "POINT_X") as [df2 |] eqn:Hx; cbn [rbind];
    [| discriminate].
  destruct (normalize_column df2 "POINT_Y") as [df3 |] eqn:Hy; [| discriminate].
  intros [= <- <-].
  destruct (normalize_column_shape _ _ _ Hx) as (Hc2 & Hl2 & Hw2).
  destruct (Hw2 Hw1) as (Hwf2 & xs & Hxs & Hfx).
  destruct (normalize_column_shape _ _ _ Hy) as (Hc3 & Hl3 & Hw3).
  destruct (Hw3 Hwf2) as (Hwf3 & ys & Hys & Hfy).
  split; [congruence |]. split; [congruence |]. split; [assumption |].
  exists xs, ys. repeat split; try assumption.
  rewrite (normalize_column_other _ _ _ "POINT_X" Hy) by discriminate.
  exact Hxs.
Qed.

(** X6. Whether a load fails can be read off the reports: [load_data]
    returns [None] exactly when it reports "Erro ao ler o arquivo Excel"
    with the exception that ended it. *)
Theorem load_fails_iff_reported (file_path : string) :
  fst (load_data file_path) = None <->
  exists e, In (StErrorExn "Erro ao ler o arquivo Excel: " e)
               (snd (load_data file_path)).
Proof.
  destruct (read_excel file_path) as [df | e0] eqn:Hr.
  - rewrite (load_data_steps _ _ Hr). cbv zeta.
    destruct (_ <- normalize_column _ "POINT_X" ;; normalize_column _ "POINT_Y")
      as [df3 | e]; cbn [fst snd].
    + split; [discriminate |]. intros [e He].
      destruct (has_column df "Data"); simpl in He;
        [contradiction | destruct He as [He | []]; discriminate].
    + split; [| reflexivity]. intros _. exists e.
      apply in_or_app. right. now left.
  - unfold load_data, load_data_body. rewrite Hr. cbn.
    split; [| reflexivity]. intros _. exists e0. now left.
Qed.

(** X7. A sheet that lacks POINT_X or POINT_Y cannot be loaded: the lookup
    raises, the exception is caught and [load_data] returns [None]. *)
Theorem missing_coordinate_column_fails
    (file_path : string) (df : DataFrame) :
  read_excel file_path = Ok df ->
  has_column df "POINT_X" = false \/ has_column df "POINT_Y" = false ->
  fst (load_data file_path) = None.
Proof.
  intros Hr Hmiss. rewrite (load_data_steps _ _ Hr). cbv zeta.
  destruct (date_step_shape df) as (Hc1 & _ & _). cbv zeta in Hc1.
  set (df1 := if has_column df "Data" then dates_coerced df else df) in *.
  assert (Hno : forall d c, columns d = columns df -> has_column df c = false ->
                            normalize_column d c = Raise (KeyError (VStr c))).
  { intros d c Hd Hc. unfold normalize_column, get_column. rewrite Hd.
    unfold has_column in Hc. now destruct (col_index c (columns df)). }
  destruct Hmiss as [Hx | Hy].
  - now rewrite (Hno df1 "POINT_X" Hc1 Hx).
  - destruct (normalize_column df1 "POINT_X") as [df2 |] eqn:Hx; [| reflexivity].
    cbn [rbind].
    destruct (normalize_column_shape _ _ _ Hx) as (Hc2 & _ & _).
    rewrite (Hno df2 "POINT_Y"); [reflexivity | congruence | assumption].
Qed.

End LoaderShape.

Lemma loaded_table_keeps_shape_witness :
  load_data (R := Sample.runtime) "survey.xlsx"
  = (Some (mkDF Sample.sheet_columns
       [mkRow 0 [VStr "A"; VStr "ok"; VTime 20230105;
                 VFloat 680000; VFloat 7460000];
        mkRow 1 [VStr "B"; VStr "ok"; VNaT; VFloat 681000; VFloat 7461000];
        mkRow 2 [VStr "B"; VNaN; VTime 20230107;
                 VFloat 682000; VFloat 7462000]]), []) /\
  exists df',
    columns df' = columns Sample.survey /\
    map label (rows df') = map label (rows Sample.survey) /\
    well_formed df' = true /\
    exists xs ys,
      get_column df' "POINT_X" = Ok xs /\ forallb is_float xs = true /\
      get_column df' "POINT_Y" = Ok ys /\ forallb is_float ys = true.
Proof.
  split; [reflexivity |]. eexists.
  apply (loaded_table_keeps_shape (R := Sample.runtime) "survey.xlsx"
           Sample.survey _ []); reflexivity.
Defined.

Lemma missing_coordinate_column_fails_witness :
  has_column Cases.no_easting_sheet "POINT_X" = false /\
  fst (load_data (R := Cases.no_easting) "survey.xlsx") = None.
Proof.
  split; [reflexivity |].
  apply (missing_coordinate_column_fails (R := Cases.no_easting) "survey.xlsx"
           Cases.no_easting_sheet).
  - reflexivity.
  - now left.
Defined.

(** ** New columns *)

Lemma col_index_app_new (c : string) (cols : list string) :
  col_index c cols = None -> col_index c (cols ++ [c]) = Some (length cols).
Proof.
  induction cols as [| x cols IH]; simpl.
  - now rewrite String.eqb_refl.
  - destruct (String.eqb c x); [discriminate |].
    destruct (col_index c cols); [discriminate |].
    intros _. now rewrite (IH eq_refl).
Qed.

Lemma col_index_app_none (c c' : string) (cols : list string) :
  col_index c' cols = None -> c <> c' -> col_index c' (cols ++ [c]) = None.
Proof.
  intros H Hne. induction cols as [| x cols IH]; simpl in *.
  - destruct (String.eqb c' c) eqn:E; [| reflexivity].
    apply String.eqb_eq in E. congruence.
  - destruct (String.eqb c' x); [discriminate |].
    destruct (col_index c' cols); [discriminate |]. now rewrite IH.
Qed.

Lemma cells_appended (rs : list Row) (series : list Value) (n : nat) :
  (forall r, In r rs -> length (cells r) = n) ->
  length series = length rs ->
  map (cell n)
    (map (fun rv => mkRow (label (fst rv)) (cells (fst rv) ++ [snd rv]))
         (combine rs series)) = series.
Proof.
  revert series. induction rs as [| r rs IH]; intros [| v series] Hwf H;
    simpl in *; try reflexivity; try discriminate.
  f_equal; [| apply IH; [auto | lia]].
  unfold cell. cbn [cells]. rewrite <- (Hwf r (or_introl eq_refl)).
  now rewrite nth_middle.
Qed.

Lemma cells_kept (rs : list Row) (series : list Value) (j n : nat) :
  (forall r, In r rs -> length (cells r) = n) -> j < n ->
  length series = length rs ->
  map (cell j)
    (map (fun rv => mkRow (label (fst rv)) (cells (fst rv) ++ [snd rv]))
         (combine rs series)) = map (cell j) rs.
Proof.
  intros Hwf Hj. revert series.
  induction rs as [| r rs IH]; intros [| v series] H;
    simpl in *; try reflexivity; try discriminate.
  f_equal; [| apply IH; [auto | lia]].
  unfold cell. cbn [cells]. apply app_nth1.
  rewrite (Hwf r (or_introl eq_refl)). exact Hj.
Qed.

Lemma well_formed_rows (df : DataFrame) :
  well_formed df = true ->
  forall r, In r (rows df) -> length (cells r) = length (columns df).
Proof.
  unfold well_formed. rewrite forallb_forall. intros H r Hr.
  now apply Nat.eqb_eq, H.
Qed.

(** [df[c] = series] then [df[c]] gives the series back. *)
Lemma get_set_column (df : DataFrame) (c : string) (series : list Value) :
  well_formed df = true -> length series = length (rows df) ->
  get_column (set_column df c series) c = Ok series.
Proof.
  intros Hwf Hlen. destruct (col_index c (columns df)) as [i |] eqn:Hi.
  - now apply (get_column_set_same _ _ i).
  - unfold set_column, get_column. rewrite Hi. cbn [columns rows].
    rewrite (col_index_app_new _ _ Hi). f_equal.
    apply cells_appended; [now apply well_formed_rows | assumption].
Qed.

(** [df[c] = series] leaves every other column as it was. *)
Lemma get_set_column_other (df : DataFrame) (c c' : string)
    (series : list Value) :
  well_formed df = true -> c <> c' -> length series = length (rows df) ->
  get_column (set_column df c series) c' = get_column df c'.
Proof.
  intros Hwf Hne Hlen. destruct (col_index c (columns df)) as [i |] eqn:Hi.
  - now apply (get_column_set_other _ _ _ i).
  - unfold set_column, get_column. rewrite Hi. cbn [columns rows].
    destruct (col_index c' (columns df)) as [j |] eqn:Hj.
    + rewrite (col_index_app_l _ _ _ _ Hj). f_equal.
      apply (cells_kept _ _ _ (length (columns df)));
        [now apply well_formed_rows | exact (col_index_lt _ _ _ Hj) | assumption].
    + now rewrite (col_index_app_none _ _ _ Hj Hne).
Qed.

Lemma get_column_length (df : DataFrame) (c : string) (series : list Value) :
  get_column df c = Ok series -> length series = length (rows df).
Proof.
  intros H. destruct (get_column_rows _ _ _ H) as [i [_ ->]]. apply length_map.
Qed.

Section Reprojection.
Context {R : Runtime}.

(** X8. On a rectangular table whose POINT_X and POINT_Y hold floats, as a
    load leaves them, the reprojection succeeds and works row by row: rows
    and labels are kept, Longitude and Latitude hold, for each row, the two
    components of the transform of that row's POINT_X and POINT_Y, and every
    other column is left as it was. *)
Theorem reprojection_is_rowwise
    (df : DataFrame) (xs ys : list Value) :
  well_formed df = true ->
  get_column df "POINT_X" = Ok xs -> forallb is_float xs = true ->
  get_column df "POINT_Y" = Ok ys -> forallb is_float ys = true ->
  exists df',
    convert_utm_to_latlon df = Ok df' /\
    map label (rows df') = map label (rows df) /\
    well_formed df' = true /\
    get_column df' "Longitude"
    = Ok (map (fun xy => fst (transform (fst xy) (snd xy))) (combine xs ys)) /\
    get_column df' "Latitude"
    = Ok (map (fun xy => snd (transform (fst xy) (snd xy))) (combine xs ys)) /\
    forall c, c <> "Longitude" -> c <> "Latitude" ->
              get_column df' c = get_column df c.
Proof.
  intros Hwf Hx _ Hy _. unfold convert_utm_to_latlon. rewrite Hx, Hy.
  cbn [rbind].
  eexists. split; [reflexivity |].
  set (out := map (fun xy => transform (fst xy) (snd xy)) (combine xs ys)).
  assert (Hout : length out = length (rows df)).
  { unfold out. rewrite length_map, length_combine.
    rewrite (get_column_length _ _ _ Hx), (get_column_length _ _ _ Hy). lia. }
  assert (Hlon : length (map fst out) = length (rows df))
    by now rewrite length_map.
  set (df1 := set_column df "Longitude" (map fst out)).
  assert (Hwf1 : well_formed df1 = true) by now apply set_column_well_formed.
  assert (Hl1 : map label (rows df1) = map label (rows df))
    by now apply set_column_labels.
  assert (Hlat : length (map snd out) = length (rows df1)).
  { rewrite length_map, Hout.
    rewrite <- (length_map label (rows df1)), Hl1. symmetry. apply length_map. }
  split; [rewrite set_column_labels by exact Hlat; exact Hl1 |].
  split; [now apply set_column_well_formed |].
  split; [| split].
  - rewrite get_set_column_other by (try assumption; discriminate).
    unfold df1. rewrite get_set_column by assumption.
    unfold out. now rewrite map_map.
  - rewrite get_set_column by assumption. unfold out. now rewrite map_map.
  - intros c Hc1 Hc2.
    rewrite get_set_column_other by (try assumption; congruence).
    unfold df1. apply get_set_column_other; [assumption | congruence | assumption].
Qed.

(** X9. [convert_to_geojson] never raises.  When it returns a frame, the
    file is output.geojson, nothing was reported, and the frame has the rows
    of the input, which is not empty; when it returns [(None, None)] exactly
    one error was reported. *)
Theorem convert_to_geojson_outcomes (df : DataFrame) :
  exists result log,
    convert_to_geojson df = (Ok result, log) /\
    match result with
    | Some (file, gdf) =>
        log = [] /\ file = "output.geojson" /\ rows df <> [] /\
        map label (rows gdf) = map label (rows df)
    | None => exists problem, log = [problem]
    end.
Proof.
  unfold convert_to_geojson.
  destruct (has_column df "Longitude" && has_column df "Latitude") eqn:Hc.
  2:{ eexists _, _. split; [reflexivity |]. cbn. now eexists. }
  apply andb_true_iff in Hc. destruct Hc as [Hlon Hlat].
  destruct (has_column_get _ _ Hlon) as [i [_ Hgi]].
  destruct (has_column_get _ _ Hlat) as [j [_ Hgj]].
  rewrite Hgi, Hgj. unfold lift. cbn [mbind].
  set (pts := map (fun p => VPoint (fst p) (snd p))
                  (combine (map (cell i) (rows df)) (map (cell j) (rows df)))).
  assert (Hlen : length pts = length (rows df)).
  { unfold pts. rewrite length_map, length_combine, !length_map. lia. }
  pose proof (set_column_labels df "geometry" pts Hlen) as Hlab.
  destruct (df_empty (set_column df "geometry" pts)) eqn:He; cbn [negb].
  - eexists _, _. split; [reflexivity |]. cbn. now eexists.
  - destruct (to_file (set_column df "geometry" pts) "output.geojson")
      as [[] | e].
    + eexists _, _. split; [reflexivity |]. cbn.
      repeat split; try assumption.
      intros Hr. unfold df_empty in He.
      apply (f_equal (@length nat)) in Hlab. rewrite !length_map, Hr in Hlab.
      destruct (rows (set_column df "geometry" pts)); [discriminate He |].
      discriminate Hlab.
    + eexists _, _. split; [reflexivity |]. cbn. now eexists.
Qed.

End Reprojection.

Lemma reprojection_is_rowwise_witness :
  well_formed Cases.loaded = true /\
  exists df',
    convert_utm_to_latlon (R := Sample.runtime) Cases.loaded = Ok df' /\
    map label (rows df') = map label (rows Cases.loaded) /\
    well_formed df' = true /\
    get_column df' "Longitude"
    = Ok [VFloat 680000; VFloat 681000; VFloat 682000] /\
    get_column df' "Latitude"
    = Ok [VFloat 7460000; VFloat 7461000; VFloat 7462000] /\
    forall c, c <> "Longitude" -> c <> "Latitude" ->
              get_column df' c = get_column Cases.loaded c.
Proof.
  split; [reflexivity |].
  apply (reprojection_is_rowwise (R := Sample.runtime) Cases.loaded
           [VFloat 680000; VFloat 681000; VFloat 682000]
           [VFloat 7460000; VFloat 7461000; VFloat 7462000]);
    reflexivity.
Defined.

(** ** Layer composer: what a finished scene holds *)

Lemma mapM_Forall2 {A B} (f : A -> Result B) (l : list A) (l' : list B) :
  mapM f l = Ok l' -> Forall2 (fun x y => f x = Ok y) l l'.
Proof.
  revert l'. induction l as [| x l IH]; intros l'; simpl.
  - intros [= <-]. constructor.
  - destruct (f x) as [y |] eqn:Hx; [| discriminate]. cbn [rbind].
    destruct (mapM f l) as [ys |]; [| discriminate]. cbn [rbind].
    intros [= <-]. constructor; [assumption | now apply IH].
Qed.

Lemma heat_layers_app (a b : Scene) :
  heat_layers (a ++ b) = heat_layers a ++ heat_layers b.
Proof. apply flat_map_app. Qed.

Lemma legend_panels_app (a b : Scene) :
  legend_panels (a ++ b) = legend_panels a ++ legend_panels b.
Proof. apply flat_map_app. Qed.

Lemma markers_of_app (a b : Scene) :
  markers_of (a ++ b) = markers_of a ++ markers_of b.
Proof. apply filter_app. Qed.

Lemma markers_are_markers (gdf : DataFrame) (lc : option string) (cm : ColorMap)
    (rs : list Row) (ms : list Layer) :
  mapM (circle_marker gdf lc cm) rs = Ok ms ->
  markers_of ms = ms /\ heat_layers ms = [] /\ legend_panels ms = [].
Proof.
  revert ms. induction rs as [| r rs IH]; intros ms; simpl.
  - now intros [= <-].
  - destruct (circle_marker gdf lc cm r) as [l |] eqn:Hl; [| discriminate].
    cbn [rbind]. destruct (mapM _ rs) as [ms' |]; [| discriminate].
    cbn [rbind]. intros [= <-]. destruct (IH ms' eq_refl) as (H1 & H2 & H3).
    apply circle_marker_inv in Hl. destruct l; try discriminate.
    unfold markers_of in *. simpl. now rewrite H1, H2, H3.
Qed.

Section SceneFacts.
Context {R : Runtime}.

(** A finished scene, stage by stage. *)
Lemma create_map_inv
    (gdf : DataFrame) (bo lp : string) (lc : option string) (cm : ColorMap)
    (gh gt : bool) (m : Scene) (log : list Report) :
  create_map gdf bo lp lc cm gh gt = (Ok m, log) ->
  exists logo heat animated marked,
    read_logo lp = Ok logo /\
    m = [Basemap (basemap_name bo); LogoOverlay logo; LocateControl]
          ++ heat ++ animated ++ marked /\
    (if gh
     then exists pts, mapM (heat_point gdf) (rows gdf) = Ok pts /\
                      heat = [HeatMap pts]
     else heat = []) /\
    (if gt && has_column gdf "Data"
     then exists fs, time_features gdf lc cm (rows gdf) = Ok fs /\
                     animated = (if truthy fs then [TimestampedGeoJson fs] else []) /\
                     log = (if truthy fs then [] else [StError no_time_data])
     else animated = [] /\ log = []) /\
    (if legend_set lc && truthy cm
     then exists ms, mapM (circle_marker gdf lc cm) (rows gdf) = Ok ms /\
                     marked = ms ++ [LegendPanel cm]
     else marked = []).
Proof.
  unfold create_map. intros H.
  bind_inv H x1 l1 l1' H1 H. lift_inv H1. clear H1 x1.
  bind_inv H x2 l2 l2' H2 H. lift_inv H2. clear H2 x2.
  bind_inv H logo l3 l3' Hlogo H. lift_inv Hlogo.
  bind_inv H m1 l4 l4' Hheat H.
  bind_inv H m2 l5 l5' Htime H.
  bind_inv H m3 l6 l6' Hmark H.
  ret_inv H. subst m3.
  set (m0 := [Basemap (basemap_name bo); LogoOverlay logo; LocateControl]) in *.
  assert (E1 : exists heat, m1 = m0 ++ heat /\ l4 = [] /\
             (if gh then exists pts, mapM (heat_point gdf) (rows gdf) = Ok pts /\
                                     heat = [HeatMap pts]
              else heat = [])).
  { destruct gh.
    - bind_inv Hheat pts l7 l7' Hp Hheat. lift_inv Hp. ret_inv Hheat.
      exists [HeatMap pts]. repeat split; [now symmetry | now exists pts].
    - ret_inv Hheat. exists []. rewrite app_nil_r. now repeat split. }
  destruct E1 as (heat & -> & -> & Hh).
  assert (E2 : exists animated, m2 = (m0 ++ heat) ++ animated /\
             (if gt && has_column gdf "Data"
              then exists fs, time_features gdf lc cm (rows gdf) = Ok fs /\
                     animated = (if truthy fs then [TimestampedGeoJson fs] else []) /\
                     l5 = (if truthy fs then [] else [StError no_time_data])
              else animated = [] /\ l5 = [])).
  { destruct (gt && has_column gdf "Data").
    - bind_inv Htime fs l8 l8' Hfs Htime. lift_inv Hfs.
      destruct fs as [| f fs]; cbn [truthy] in *.
      + bind_inv Htime u l9 l9' Hu Htime. ret_inv Htime.
        unfold report in Hu. injection Hu as _ <-.
        exists []. rewrite app_nil_r. split; [now symmetry |].
        exists []. now repeat split.
      + ret_inv Htime. exists [TimestampedGeoJson (f :: fs)].
        split; [now symmetry |]. exists (f :: fs). now repeat split.
    - ret_inv Htime. exists []. rewrite app_nil_r. now repeat split. }
  destruct E2 as (animated & -> & Ht).
  assert (E3 : exists marked, m = ((m0 ++ heat) ++ animated) ++ marked /\ l6 = [] /\
             (if legend_set lc && truthy cm
              then exists ms, mapM (circle_marker gdf lc cm) (rows gdf) = Ok ms /\
                              marked = ms ++ [LegendPanel cm]
              else marked = [])).
  { destruct (legend_set lc && truthy cm).
    - bind_inv Hmark ms l10 l10' Hms Hmark. lift_inv Hms. ret_inv Hmark.
      exists (ms ++ [LegendPanel cm]). repeat split; [now symmetry | now exists ms].
    - ret_inv Hmark. exists []. rewrite app_nil_r. now repeat split. }
  destruct E3 as (marked & -> & -> & Hm).
  exists logo, heat, animated, marked.
  split; [assumption |]. split; [now rewrite <- !app_assoc |].
  split; [assumption |]. split; [| assumption].
  destruct (gt && has_column gdf "Data").
  - destruct Ht as (fs & Hfs & Ha & ->). exists fs.
    repeat split; try assumption. cbn. now rewrite !app_nil_r.
  - destruct Ht as [-> ->]. now split.
Qed.

(** X10. Every finished scene starts with the same three elements, in this
    order and whatever the data: the base map, which is one of the five
    named ones or OpenStreetMap for any other choice, the logo read from
    [logo_path], and the locate control. *)
Theorem scene_starts_with_fixed_layers
    (gdf : DataFrame) (bo lp : string) (lc : option string) (cm : ColorMap)
    (gh gt : bool) (m : Scene) (log : list Report) :
  create_map gdf bo lp lc cm gh gt = (Ok m, log) ->
  exists logo overlays,
    read_logo lp = Ok logo /\
    m = Basemap (basemap_name bo) :: LogoOverlay logo :: LocateControl
        :: overlays /\
    (In bo named_basemaps \/ basemap_name bo = "openstreetmap").
Proof.
  intros H. destruct (create_map_inv _ _ _ _ _ _ _ _ _ H)
    as (logo & heat & animated & marked & Hl & -> & _).
  exists logo, (heat ++ animated ++ marked). repeat split; [assumption |].
  unfold basemap_name, named_basemaps.
  destruct (String.eqb bo "Google Maps") eqn:E1;
    [apply String.eqb_eq in E1; subst bo; left; simpl; tauto |].
  destruct (String.eqb bo "Google Satellite") eqn:E2;
    [apply String.eqb_eq in E2; subst bo; left; simpl; tauto |].
  destruct (String.eqb bo "Google Terrain") eqn:E3;
    [apply String.eqb_eq in E3; subst bo; left; simpl; tauto |].
  destruct (String.eqb bo "ESRI Satellite") eqn:E4;
    [apply String.eqb_eq in E4; subst bo; left; simpl; tauto |].
  destruct (String.eqb bo "ESRI Street") eqn:E5;
    [apply String.eqb_eq in E5; subst bo; left; simpl; tauto |].
  now right.
Qed.

(** X11. A finished scene has a heat layer exactly when one was requested,
    and then exactly one: it has one point per row of the table, in row
    order, made of that row's Latitude and Longitude. *)
Theorem heat_layer_follows_request
    (gdf : DataFrame) (bo lp : string) (lc : option string) (cm : ColorMap)
    (gh gt : bool) (m : Scene) (log : list Report) :
  create_map gdf bo lp lc cm gh gt = (Ok m, log) ->
  if gh
  then exists pts,
         heat_layers m = [pts] /\
         Forall2 (fun r p => row_get gdf r "Latitude" = Ok (fst p) /\
                             row_get gdf r "Longitude" = Ok (snd p))
                 (rows gdf) pts
  else heat_layers m = [].
Proof.
  intros H. destruct (create_map_inv _ _ _ _ _ _ _ _ _ H)
    as (logo & heat & animated & marked & _ & -> & Hh & Ht & Hm).
  assert (Ha : heat_layers animated = []).
  { destruct (gt && has_column gdf "Data").
    - destruct Ht as (fs & _ & -> & _). now destruct (truthy fs).
    - now destruct Ht as [-> _]. }
  assert (Hk : heat_layers marked = []).
  { destruct (legend_set lc && truthy cm).
    - destruct Hm as (ms & Hms & ->). rewrite heat_layers_app.
      now rewrite (proj1 (proj2 (markers_are_markers _ _ _ _ _ Hms))).
    - now subst marked. }
  rewrite !heat_layers_app, Ha, Hk, !app_nil_r. cbn [heat_layers flat_map app].
  destruct gh.
  - destruct Hh as (pts & Hp & ->). exists pts. split; [reflexivity |].
    apply mapM_Forall2 in Hp. eapply Forall2_impl; [| exact Hp].
    intros r [lat lon]. unfold heat_point.
    destruct (row_get gdf r "Latitude"); cbn [rbind]; [| discriminate].
    destruct (row_get gdf r "Longitude"); cbn [rbind]; [| discriminate].
    now intros [= -> ->].
  - now subst heat.
Qed.

(** Markers and legend panel of a finished scene. *)
Lemma create_map_marked
    (gdf : DataFrame) (bo lp : string) (lc : option string) (cm : ColorMap)
    (gh gt : bool) (m : Scene) (log : list Report) :
  create_map gdf bo lp lc cm gh gt = (Ok m, log) ->
  if legend_set lc && truthy cm
  then legend_panels m = [cm] /\
       mapM (circle_marker gdf lc cm) (rows gdf) = Ok (markers_of m)
  else legend_panels m = [] /\ markers_of m = [].
Proof.
  intros H. destruct (create_map_inv _ _ _ _ _ _ _ _ _ H)
    as (logo & heat & animated & marked & _ & -> & Hh & Ht & Hm).
  assert (Hheat : legend_panels heat = [] /\ markers_of heat = []).
  { destruct gh; [destruct Hh as (pts & _ & ->) | subst heat]; now split. }
  assert (Ha : legend_panels animated = [] /\ markers_of animated = []).
  { destruct (gt && has_column gdf "Data").
    - destruct Ht as (fs & _ & -> & _). now destruct (truthy fs).
    - destruct Ht as [-> _]. now split. }
  rewrite !legend_panels_app, !markers_of_app.
  rewrite (proj1 Hheat), (proj2 Hheat), (proj1 Ha), (proj2 Ha).
  cbn [legend_panels markers_of flat_map filter is_marker app].
  destruct (legend_set lc && truthy cm).
  - destruct Hm as (ms & Hms & ->).
    destruct (markers_are_markers _ _ _ _ _ Hms) as (Hmm & _ & Hlp).
    fold (legend_panels (ms ++ [LegendPanel cm])).
    fold (markers_of (ms ++ [LegendPanel cm])).
    rewrite legend_panels_app, markers_of_app, Hlp, Hmm. cbn.
    rewrite app_nil_r. now split.
  - subst marked. now split.
Qed.

(** X12. When a legend column and a non-empty colour map are given, a
    finished scene has one circle marker per row, in row order, at that row's
    Latitude and Longitude and with the colour the map gives the row's legend
    value for both outline and fill, and one legend panel listing the whole
    colour map; otherwise it has no marker and no legend panel. *)
Theorem markers_follow_rows
    (gdf : DataFrame) (bo lp : string) (lc : option string) (cm : ColorMap)
    (gh gt : bool) (m : Scene) (log : list Report) :
  create_map gdf bo lp lc cm gh gt = (Ok m, log) ->
  if legend_set lc && truthy cm
  then legend_panels m = [cm] /\
       Forall2 (fun r l =>
                  exists lat lon key colour,
                    row_get gdf r "Latitude" = Ok lat /\
                    row_get gdf r "Longitude" = Ok lon /\
                    row_legend gdf r lc = Ok key /\
                    dict_lookup cm key = Some colour /\
                    l = CircleMarker (lat, lon) colour colour)
               (rows gdf) (markers_of m)
  else legend_panels m = [] /\ markers_of m = [].
Proof.
  intros H. pose proof (create_map_marked _ _ _ _ _ _ _ _ _ H) as Hm.
  destruct (legend_set lc && truthy cm); [| exact Hm].
  destruct Hm as [Hlp Hms]. split; [exact Hlp |].
  apply mapM_Forall2 in Hms. eapply Forall2_impl; [| exact Hms].
  intros r l. unfold circle_marker, dict_item.
  destruct (row_get gdf r "Latitude") as [lat |]; cbn [rbind]; [| discriminate].
  destruct (row_get gdf r "Longitude") as [lon |]; cbn [rbind]; [| discriminate].
  destruct (row_legend gdf r lc) as [key |]; cbn [rbind]; [| discriminate].
  destruct (dict_lookup cm key) as [colour |] eqn:Hd; cbn [rbind];
    [| discriminate].
  intros [= <-]. now exists lat, lon, key, colour.
Qed.

(** X13. The only thing [create_map] ever reports is that there is no data
    for the animated layer, and it reports it exactly when that layer was
    requested, the table has a Data column and no row has a timestamp; in
    every other finished run it reports nothing. *)
Theorem only_missing_time_data_is_reported
    (gdf : DataFrame) (bo lp : string) (lc : option string) (cm : ColorMap)
    (gh gt : bool) (m : Scene) (log : list Report) :
  create_map gdf bo lp lc cm gh gt = (Ok m, log) ->
  log = if gt && has_column gdf "Data" && negb (truthy (dated_rows gdf))
        then [StError no_time_data] else [].
Proof.
  intros H. destruct (create_map_inv _ _ _ _ _ _ _ _ _ H)
    as (logo & heat & animated & marked & _ & _ & _ & Ht & _).
  destruct (gt && has_column gdf "Data") eqn:E; cbn [andb].
  - destruct Ht as (fs & Hfs & _ & ->).
    apply andb_true_iff in E. destruct E as [_ E].
    unfold has_column in E. unfold dated_rows.
    destruct (col_index "Data" (columns gdf)) as [i |] eqn:Hi; [| discriminate].
    pose proof (Forall2_length (time_features_dated _ _ _ _ _ _ Hi Hfs)) as Hlen.
    destruct fs, (filter _ (rows gdf)); try discriminate; reflexivity.
  - now destruct Ht as [_ ->].
Qed.

(** X14. Without a legend column every time feature has the empty label, and
    without a colour map every time feature is blue: an unset legend is not
    an error. *)
Theorem unset_legend_gives_default_style
    (gdf : DataFrame) (bo lp : string) (lc : option string) (cm : ColorMap)
    (gh gt : bool) (m : Scene) (log : list Report) :
  create_map gdf bo lp lc cm gh gt = (Ok m, log) ->
  (legend_set lc = false ->
   Forall (fun f => popup f = VStr "") (time_features_of m)) /\
  (truthy cm = false ->
   Forall (fun f => style_color f = "blue") (time_features_of m)).
Proof.
  intros H. destruct (create_map_inv _ _ _ _ _ _ _ _ _ H)
    as (logo & heat & animated & marked & _ & -> & Hh & Ht & Hm).
  assert (Hheat : time_features_of heat = []).
  { destruct gh; [destruct Hh as (pts & _ & ->) | subst heat]; reflexivity. }
  assert (Hmk : time_features_of marked = []).
  { destruct (legend_set lc && truthy cm).
    - destruct Hm as (ms & Hms & ->). rewrite time_features_of_app.
      now rewrite (proj1 (markers_only _ _ _ _ _ Hms)).
    - now subst marked. }
  rewrite !time_features_of_app, Hheat, Hmk, app_nil_r.
  cbn [time_features_of flat_map app].
  fold (time_features_of animated).
  assert (Hstyle : forall rs fs, time_features gdf lc cm rs = Ok fs ->
            (legend_set lc = false -> Forall (fun f => popup f = VStr "") fs) /\
            (truthy cm = false -> Forall (fun f => style_color f = "blue") fs)).
  { induction rs as [| r rs IH]; intros fs; simpl.
    - intros [= <-]. split; constructor.
    - destruct (time_feature gdf lc cm r) as [ofe |] eqn:Hf; [| discriminate].
      cbn [rbind].
      destruct (time_features gdf lc cm rs) as [fs' |]; [| discriminate].
      cbn [rbind]. intros [= <-]. destruct (IH fs' eq_refl) as [IH1 IH2].
      destruct ofe as [f |]; [| now split].
      unfold time_feature in Hf.
      destruct (row_get gdf r "Data") as [d |]; cbn [rbind] in Hf; [| discriminate].
      destruct (notnull d); [| discriminate].
      destruct (row_get gdf r "Longitude"); cbn [rbind] in Hf; [| discriminate].
      destruct (row_get gdf r "Latitude"); cbn [rbind] in Hf; [| discriminate].
      destruct (isoformat d); cbn [rbind] in Hf; [| discriminate].
      split; intros Hoff; rewrite Hoff in Hf; cbn [rbind] in Hf.
      + destruct (if truthy cm then _ else _); cbn [rbind] in Hf; [| discriminate].
        injection Hf as <-. constructor; [reflexivity | auto].
      + destruct (if legend_set lc then _ else _); cbn [rbind] in Hf;
          [| discriminate].
        injection Hf as <-. constructor; [reflexivity | auto]. }
  destruct (gt && has_column gdf "Data").
  - destruct Ht as (fs & Hfs & -> & _). destruct (Hstyle _ _ Hfs) as [S1 S2].
    destruct fs as [| f fs]; cbn; [split; constructor |].
    rewrite app_nil_r. now split.
  - destruct Ht as [-> _]. split; constructor.
Qed.

End SceneFacts.

Lemma scene_starts_with_fixed_layers_witness :
  create_map (R := Sample.runtime) Cases.geo "Google Maps" "logo.png"
    (Some "Tipo") Cases.palette true true = (Ok Cases.painted_scene, []) /\
  exists logo overlays,
    read_logo (Runtime := Sample.runtime) "logo.png" = Ok logo /\
    Cases.painted_scene
    = Basemap (basemap_name "Google Maps") :: LogoOverlay logo :: LocateControl
      :: overlays /\
    (In "Google Maps" named_basemaps \/
     basemap_name "Google Maps" = "openstreetmap").
Proof.
  split; [reflexivity |].
  apply (scene_starts_with_fixed_layers (R := Sample.runtime) Cases.geo
           "Google Maps" "logo.png" (Some "Tipo") Cases.palette true true
           Cases.painted_scene []).
  reflexivity.
Defined.

Lemma heat_layer_follows_request_witness :
  create_map (R := Sample.runtime) Cases.geo "Google Maps" "logo.png"
    (Some "Tipo") Cases.palette true true = (Ok Cases.painted_scene, []) /\
  exists pts,
    heat_layers Cases.painted_scene = [pts] /\
    Forall2 (fun r p => row_get Cases.geo r "Latitude" = Ok (fst p) /\
                        row_get Cases.geo r "Longitude" = Ok (snd p))
            (rows Cases.geo) pts.
Proof.
  split; [reflexivity |].
  exact (heat_layer_follows_request (R := Sample.runtime) Cases.geo
           "Google Maps" "logo.png" (Some "Tipo") Cases.palette true true
           Cases.painted_scene [] eq_refl).
Defined.

Lemma markers_follow_rows_witness :
  create_map (R := Sample.runtime) Cases.geo "Google Maps" "logo.png"
    (Some "Tipo") Cases.palette true true = (Ok Cases.painted_scene, []) /\
  legend_panels Cases.painted_scene = [Cases.palette] /\
  Forall2 (fun r l =>
             exists lat lon key colour,
               row_get Cases.geo r "Latitude" = Ok lat /\
               row_get Cases.geo r "Longitude" = Ok lon /\
               row_legend Cases.geo r (Some "Tipo") = Ok key /\
               dict_lookup Cases.palette key = Some colour /\
               l = CircleMarker (lat, lon) colour colour)
          (rows Cases.geo) (markers_of Cases.painted_scene).
Proof.
  split; [reflexivity |].
  exact (markers_follow_rows (R := Sample.runtime) Cases.geo
           "Google Maps" "logo.png" (Some "Tipo") Cases.palette true true
           Cases.painted_scene [] eq_refl).
Defined.

Lemma only_missing_time_data_is_reported_witness :
  create_map (R := Sample.runtime) Cases.undated "OpenStreetMap" "logo.png"
    None [] false true
  = (Ok [Basemap "openstreetmap"; LogoOverlay "iVBORw0KGgo="; LocateControl],
     [StError no_time_data]) /\
  dated_rows Cases.undated = [] /\
  [StError no_time_data]
  = if true && has_column Cases.undated "Data"
       && negb (truthy (dated_rows Cases.undated))
    then [StError no_time_data] else [].
Proof.
  split; [reflexivity |]. split; [reflexivity |].
  apply (only_missing_time_data_is_reported (R := Sample.runtime)
           Cases.undated "OpenStreetMap" "logo.png" None [] false true
           [Basemap "openstreetmap"; LogoOverlay "iVBORw0KGgo="; LocateControl]).
  reflexivity.
Defined.

Lemma unset_legend_gives_default_style_witness :
  create_map (R := Sample.runtime) Cases.geo "OpenStreetMap" "logo.png"
    None [] false true = (Ok Cases.bare_scene, []) /\
  Forall (fun f => popup f = VStr "") (time_features_of Cases.bare_scene) /\
  Forall (fun f => style_color f = "blue") (time_features_of Cases.bare_scene).
Proof.
  split; [reflexivity |].
  destruct (unset_legend_gives_default_style (R := Sample.runtime) Cases.geo
              "OpenStreetMap" "logo.png" None [] false true
              Cases.bare_scene [] eq_refl) as [Hp Hc].
  split; [exact (Hp eq_refl) | exact (Hc eq_refl)].
Defined.

(** ** Statistics aggregator: the bars of the chart *)

Lemma keys_insert_desc (p : Value * nat) (l : list (Value * nat)) :
  ~ In (fst p) (map fst l) -> NoDup (map fst l) ->
  NoDup (map fst (insert_desc p l)).
Proof.
  induction l as [| x l IH]; simpl; intros Hp Hl.
  - constructor; [easy | constructor].
  - destruct (Nat.leb (snd x) (snd p)); simpl.
    + constructor; assumption.
    + inversion Hl as [| ? ? Hx Hl']; subst. constructor.
      * intros Hin. apply in_map_iff in Hin. destruct Hin as [q [Hq Hin]].
        apply (proj1 (In_insert_desc _ _ _)) in Hin. destruct Hin as [-> | Hin].
        -- apply Hp. now left.
        -- apply Hx. rewrite <- Hq. now apply in_map.
      * apply IH; [intros H; apply Hp; now right | assumption].
Qed.

Lemma keys_sorted (t : list (Value * nat)) :
  NoDup (map fst t) -> NoDup (map fst (fold_right insert_desc [] t)).
Proof.
  induction t as [| p t IH]; simpl; intros H; [constructor |].
  inversion H as [| ? ? Hp Ht]; subst. apply keys_insert_desc; [| now apply IH].
  intros Hin. apply Hp. apply in_map_iff in Hin. destruct Hin as [q [Hq Hin]].
  apply (proj1 (In_sorted _ _)) in Hin. rewrite <- Hq. now apply in_map.
Qed.

Lemma tally_keys (l : list Value) : map fst (tally l) = unique l.
Proof. unfold tally. rewrite map_map. apply map_id. Qed.

Lemma value_counts_keys (series : list Value) :
  NoDup (map fst (value_counts series)).
Proof.
  unfold value_counts. apply keys_sorted. rewrite tally_keys.
  apply NoDup_unique.
Qed.

Lemma descending_cons (a : nat) (l : list nat) :
  descending (a :: l) =
  match l with [] => true | b :: _ => Nat.leb b a && descending l end.
Proof. reflexivity. Qed.

Lemma descending_insert (p : Value * nat) (l : list (Value * nat)) :
  descending (map snd l) = true ->
  descending (map snd (insert_desc p l)) = true.
Proof.
  induction l as [| x l IH]; [reflexivity |].
  cbn [insert_desc]. destruct (Nat.leb (snd x) (snd p)) eqn:Hle.
  - intros H. cbn [map]. rewrite descending_cons. cbn [map] in H.
    now rewrite Hle, H.
  - cbn [map]. rewrite (descending_cons (snd x) (map snd l)).
    rewrite (descending_cons (snd x) (map snd (insert_desc p l))).
    intros H. apply Nat.leb_gt in Hle.
    assert (Hl : descending (map snd l) = true).
    { destruct l; [reflexivity |]. now apply andb_true_iff in H. }
    specialize (IH Hl). destruct l as [| y l].
    + cbn [insert_desc map]. apply andb_true_iff. split; [| reflexivity].
      apply Nat.leb_le. lia.
    + cbn [map] in H. apply andb_true_iff in H. destruct H as [Hy _].
      cbn [insert_desc] in *.
      destruct (Nat.leb (snd y) (snd p)); cbn [map] in *;
        apply andb_true_iff; (split; [| exact IH]).
      * apply Nat.leb_le. lia.
      * exact Hy.
Qed.

Lemma value_counts_descending (series : list Value) :
  descending (map snd (value_counts series)) = true.
Proof.
  unfold value_counts.
  induction (tally (filter notnull series)) as [| p t IH]; [reflexivity |].
  cbn [fold_right]. now apply descending_insert.
Qed.

Lemma stats_table_categories (series : list Value) :
  map Categoria (stats_table series) = map fst (value_counts series).
Proof. unfold stats_table. rewrite map_map. reflexivity. Qed.

(** X15. The chart has one bar per distinct value that is present in the
    column: no category is repeated, none is a missing value, every present
    value of the column is a category, and each bar counts how often its
    category occurs in the column, which is at least once. *)
Theorem chart_has_one_bar_per_value
    (df : DataFrame) (column_name : string) (color_map : ColorMap)
    (series : list Value) :
  get_column df column_name = Ok series ->
  exists c, create_statistics_chart df column_name color_map = Ok c /\
    NoDup (map Categoria (stats_df c)) /\
    (forall v, In v (map Categoria (stats_df c)) <->
               In v series /\ notnull v = true) /\
    (forall s, In s (stats_df c) ->
               Contagem s = count_occ Value_eq_dec series (Categoria s) /\
               0 < Contagem s).
Proof.
  intros Hc. unfold create_statistics_chart. rewrite Hc. cbn [rbind].
  eexists. split; [reflexivity |]. cbn [stats_df].
  split; [rewrite stats_table_categories; apply value_counts_keys |].
  split.
  - intros v. rewrite stats_table_categories, in_map_iff. split.
    + intros [[v' n] [Hv Hin]]. cbn [fst] in Hv. subst v'.
      apply (proj1 (In_value_counts _ _ _)) in Hin. tauto.
    + intros [Hv Hn]. exists (v, count_occ Value_eq_dec series v).
      split; [reflexivity |]. now apply In_value_counts.
  - intros s Hs. unfold stats_table in Hs. apply in_map_iff in Hs.
    destruct Hs as [[v n] [<- Hin]]. cbn [Categoria Contagem fst snd].
    apply (proj1 (In_value_counts _ _ _)) in Hin. destruct Hin as (Hv & _ & ->).
    split; [reflexivity |]. now apply count_occ_In.
Qed.

(** X16. The bars come in non-increasing order of count, the most frequent
    category first. *)
Theorem chart_bars_are_descending
    (df : DataFrame) (column_name : string) (color_map : ColorMap)
    (series : list Value) :
  get_column df column_name = Ok series ->
  exists c, create_statistics_chart df column_name color_map = Ok c /\
            descending (map Contagem (stats_df c)) = true.
Proof.
  intros Hc. unfold create_statistics_chart. rewrite Hc. cbn [rbind].
  eexists. split; [reflexivity |]. cbn [stats_df].
  rewrite stats_table_counts. apply value_counts_descending.
Qed.

Lemma chart_has_one_bar_per_value_witness :
  get_column Sample.survey "Analise" = Ok [VStr "ok"; VStr "ok"; VNaN] /\
  exists c, create_statistics_chart Sample.survey "Analise" [] = Ok c /\
    NoDup (map Categoria (stats_df c)) /\
    (forall v, In v (map Categoria (stats_df c)) <->
               In v [VStr "ok"; VStr "ok"; VNaN] /\ notnull v = true) /\
    (forall s, In s (stats_df c) ->
               Contagem s
               = count_occ Value_eq_dec [VStr "ok"; VStr "ok"; VNaN]
                           (Categoria s) /\
               0 < Contagem s).
Proof.
  split; [reflexivity |].
  exact (chart_has_one_bar_per_value Sample.survey "Analise" []
           [VStr "ok"; VStr "ok"; VNaN] eq_refl).
Defined.

Lemma chart_bars_are_descending_witness :
  get_column Sample.survey "Tipo" = Ok [VStr "A"; VStr "B"; VStr "B"] /\
  map Contagem (stats_table [VStr "A"; VStr "B"; VStr "B"]) = [2; 1] /\
  exists c, create_statistics_chart Sample.survey "Tipo" [] = Ok c /\
            descending (map Contagem (stats_df c)) = true.
Proof.
  split; [reflexivity |]. split; [reflexivity |].
  exact (chart_bars_are_descending Sample.survey "Tipo" []
           [VStr "A"; VStr "B"; VStr "B"] eq_refl).
Defined.

(** ** The script: what a finished run shows *)

Lemma unique_nonempty (l : list Value) : l <> [] -> unique l <> [].
Proof. destruct l as [| x l]; [contradiction | discriminate]. Qed.

Lemma dict_lookup_map (f : Value -> string) (l : list Value) (v : Value) :
  In v l -> dict_lookup (map (fun x => (x, f x)) l) v = Some (f v).
Proof.
  induction l as [| x l IH]; simpl; [contradiction |].
  intros H. destruct (value_eqb v x) eqn:E.
  - apply value_eqb_true in E. now subst x.
  - destruct H as [-> | H]; [now rewrite value_eqb_refl in E | now apply IH].
Qed.

Lemma legend_panels_base (m : Scene) (name : string) (fs : list Row) :
  legend_panels (m ++ [GeoJsonLayer name fs]) = legend_panels m.
Proof. rewrite legend_panels_app. apply app_nil_r. Qed.

Lemma markers_of_base (m : Scene) (name : string) (fs : list Row) :
  markers_of (m ++ [GeoJsonLayer name fs]) = markers_of m.
Proof. rewrite markers_of_app. apply app_nil_r. Qed.

(** Dropping columns *)

Lemma col_index_None (c : string) (cols : list string) :
  col_index c cols = None -> ~ In c cols.
Proof.
  induction cols as [| x cols IH]; simpl; [tauto |].
  destruct (String.eqb c x) eqn:E; [discriminate |].
  destruct (col_index c cols); [discriminate |].
  intros _ [-> | H]; [now rewrite String.eqb_refl in E | now apply IH].
Qed.

Lemma filter_absent (c : string) (cols : list string) :
  ~ In c cols -> filter (fun x => negb (String.eqb x c)) cols = cols.
Proof.
  induction cols as [| x cols IH]; simpl; [reflexivity |].
  intros H. destruct (String.eqb x c) eqn:E.
  - apply String.eqb_eq in E. subst x. exfalso. apply H. now left.
  - simpl. f_equal. apply IH. intros Hin. apply H. now right.
Qed.

Lemma remove_nth_col_index (c : string) (cols : list string) (i : nat) :
  col_index c cols = Some i -> NoDup cols ->
  remove_nth i cols = filter (fun x => negb (String.eqb x c)) cols.
Proof.
  revert i. induction cols as [| x cols IH]; intros i; simpl; [discriminate |].
  intros Hi Hnd. inversion Hnd as [| ? ? Hx Hnd']; subst.
  rewrite (String.eqb_sym x c). destruct (String.eqb c x) eqn:E.
  - injection Hi as <-. apply String.eqb_eq in E. subst x. simpl.
    symmetry. now apply filter_absent.
  - destruct (col_index c cols) as [j |]; [| discriminate].
    injection Hi as <-. simpl. f_equal. now apply IH.
Qed.

Lemma drop_column_labels (df df' : DataFrame) (c : string) :
  drop_column df c = Ok df' -> map label (rows df') = map label (rows df).
Proof.
  unfold drop_column. destruct (col_index c (columns df)); [| discriminate].
  intros [= <-]. cbn [rows]. now rewrite map_map.
Qed.

Lemma drop_columns_labels (df df' : DataFrame) (cs : list string) :
  drop_columns df cs = Ok df' -> map label (rows df') = map label (rows df).
Proof.
  revert df. induction cs as [| c cs IH]; intros df; simpl.
  - now intros [= <-].
  - destruct (drop_column df c) as [df1 |] eqn:H1; [| discriminate].
    cbn [rbind]. intros H. rewrite (IH _ H). now apply (drop_column_labels _ _ c).
Qed.

(** On distinct column names, dropping removes exactly the named columns
    and keeps the others in order. *)
Lemma drop_columns_columns (df df' : DataFrame) (cs : list string) :
  drop_columns df cs = Ok df' -> NoDup (columns df) ->
  columns df' = filter (fun x => negb (existsb (String.eqb x) cs)) (columns df).
Proof.
  revert df. induction cs as [| c cs IH]; intros df; simpl.
  - intros [= <-] _. symmetry. apply filter_true.
  - unfold drop_column at 1.
    destruct (col_index c (columns df)) as [i |] eqn:Hi; [| discriminate].
    cbn [rbind]. intros H Hnd. rewrite (IH _ H); cbn [columns].
    + rewrite (remove_nth_col_index _ _ _ Hi Hnd), filter_filter.
      apply filter_ext. intros x. now rewrite negb_orb.
    + rewrite (remove_nth_col_index _ _ _ Hi Hnd). now apply NoDup_filter.
Qed.

Lemma set_column_columns_new (df : DataFrame) (c : string) (series : list Value) :
  has_column df c = false -> columns (set_column df c series) = columns df ++ [c].
Proof.
  unfold has_column, set_column.
  now destruct (col_index c (columns df)).
Qed.

Lemma set_column_NoDup (df : DataFrame) (c : string) (series : list Value) :
  NoDup (columns df) -> NoDup (columns (set_column df c series)).
Proof.
  intros H. unfold set_column.
  destruct (col_index c (columns df)) eqn:Hi; cbn [columns]; [assumption |].
  apply NoDup_app; [assumption | repeat constructor; easy |].
  intros x Hx [<- | []]. now apply (col_index_None _ _ Hi).
Qed.

Lemma set_column_kept_columns (df : DataFrame) (c : string) (series : list Value)
    (p : string -> bool) :
  p c = false -> filter p (columns (set_column df c series)) = filter p (columns df).
Proof.
  intros Hp. unfold set_column.
  destruct (col_index c (columns df)); cbn [columns]; [reflexivity |].
  rewrite filter_app. simpl. rewrite Hp. apply app_nil_r.
Qed.

Section ScriptFacts.
Context {R : Runtime}.

Lemma convert_utm_labels (df df' : DataFrame) :
  convert_utm_to_latlon df = Ok df' ->
  map label (rows df') = map label (rows df).
Proof.
  unfold convert_utm_to_latlon.
  destruct (get_column df "POINT_X") as [xs |] eqn:Hx; [| discriminate].
  destruct (get_column df "POINT_Y") as [ys |] eqn:Hy; [| discriminate].
  cbn [rbind]. intros [= <-].
  assert (Hlen : length (combine xs ys) = length (rows df)).
  { rewrite length_combine, (get_column_length _ _ _ Hx),
      (get_column_length _ _ _ Hy). lia. }
  assert (H1 : map label (rows (set_column df "Longitude"
                 (map fst (map (fun xy => transform (fst xy) (snd xy))
                               (combine xs ys)))))
               = map label (rows df)).
  { apply set_column_labels. now rewrite !length_map. }
  rewrite set_column_labels; [exact H1 |].
  rewrite !length_map, Hlen.
  rewrite <- (length_map label (rows (set_column _ _ _))), H1.
  symmetry. apply length_map.
Qed.

Lemma convert_utm_columns (df df' : DataFrame) (p : string -> bool) :
  convert_utm_to_latlon df = Ok df' ->
  p "Longitude" = false -> p "Latitude" = false ->
  (NoDup (columns df) -> NoDup (columns df')) /\
  filter p (columns df') = filter p (columns df).
Proof.
  unfold convert_utm_to_latlon.
  destruct (get_column df "POINT_X") as [xs |]; [| discriminate].
  destruct (get_column df "POINT_Y") as [ys |]; [| discriminate].
  cbn [rbind]. intros [= <-] Hlon Hlat. split.
  - intros H. now apply set_column_NoDup, set_column_NoDup.
  - now rewrite !set_column_kept_columns.
Qed.

(** A run of the script that ends without an exception, stage by stage. *)
Lemma app_inv (excel_file logo_path : string) (ui : UI) (page : Page)
    (log : list Report) :
  app excel_file logo_path ui = (Ok page, log) ->
  (exists log0,
     load_data excel_file = (None, log0) /\ page = blank_page /\
     log = log0 ++ [StError load_failed]) \/
  (exists df0 log0 df1 dfd,
     load_data excel_file = (Some df0, log0) /\
     convert_utm_to_latlon df0 = Ok df1 /\
     drop_columns df1 ["POINT_X"; "POINT_Y"; "Longitude"; "Latitude"] = Ok dfd /\
     ((filter_columns ui = [] /\ page = blank_page /\
       log = log0 ++ [StWarning no_filter_column]) \/
      (exists filters dff cm converted log1,
         filter_columns ui <> [] /\
         mapM (fun col => series <- get_column dfd col ;;
                          Ok (col, selected_vals ui col (unique series)))
              (filter_columns ui) = Ok filters /\
         apply_attribute_filters dfd filters = Ok dff /\
         (if legend_set (legend_choice ui)
          then exists c series,
                 legend_choice ui = Some c /\ get_column dff c = Ok series /\
                 cm = picked_colors ui series
          else cm = []) /\
         convert_to_geojson df1 = (Ok converted, log1) /\
         match converted with
         | None =>
             page = blank_page /\
             log = log0 ++ log1 ++ [StError geojson_failed]
         | Some (file, gdf) =>
             exists m0 log2 figs,
               create_map gdf (basemap_choice ui) logo_path (legend_choice ui)
                 cm (heatmap_box ui) (time_series_box ui) = (Ok m0, log2) /\
               (if has_column dff "Analise"
                then exists c, create_statistics_chart dff "Analise" cm = Ok c /\
                               figs = Some c
                else figs = None) /\
               page = mkPage (Some (m0 ++ [GeoJsonLayer "Dados GeoJSON" (rows gdf)]))
                             figs (Some dff) /\
               log = log0 ++ log1 ++ log2
         end))).
Proof.
  unfold app. intros H.
  bind_inv H logo l1 l1' Hlogo H. lift_inv Hlogo. clear Hlogo.
  destruct (load_data excel_file) as [[df0 |] log0] eqn:Hload.
  2:{ injection H as <- <-. left. now exists log0. }
  right.
  bind_inv H u l2 l2' Hu H. injection Hu as _ <-.
  bind_inv H df1 l3 l3' Hutm H. lift_inv Hutm.
  bind_inv H dfd l4 l4' Hdrop H. lift_inv Hdrop.
  exists df0, log0, df1, dfd.
  split; [reflexivity |]. split; [assumption |]. split; [assumption |].
  destruct (filter_columns ui) as [| fc fcs] eqn:Hfc; cbn [truthy] in H.
  { bind_inv H u2 l5 l5' Hu2 H. ret_inv H. subst page.
    unfold report in Hu2. injection Hu2 as _ <-. left.
    repeat split. }
  right.
  bind_inv H filters l5 l5' Hf H. lift_inv Hf.
  bind_inv H dff l6 l6' Hff H. lift_inv Hff.
  bind_inv H cm l7 l7' Hcm H.
  bind_inv H converted l8 l8' Hconv H.
  exists filters, dff, cm, converted, l8.
  split; [discriminate |]. split; [assumption |]. split; [assumption |].
  assert (Hcolor : l7 = [] /\
            (if legend_set (legend_choice ui)
             then exists c series,
                    legend_choice ui = Some c /\ get_column dff c = Ok series /\
                    cm = picked_colors ui series
             else cm = [])).
  { destruct (legend_choice ui) as [c |] eqn:Hlc.
    - destruct (legend_set (Some c)) eqn:Hls.
      + bind_inv Hcm series l9 l9' Hs Hcm. lift_inv Hs. ret_inv Hcm.
        split; [reflexivity |]. now exists c, series.
      + ret_inv Hcm. now split.
    - ret_inv Hcm. cbn [legend_set]. now split. }
  destruct Hcolor as [-> Hcolor].
  split; [assumption |]. split; [assumption |].
  destruct converted as [[file gdf] |].
  - bind_inv H m0 l9 l9' Hmap H.
    bind_inv H figs l10 l10' Hfigs H. ret_inv H. subst page.
    exists m0, l9, figs. split; [assumption |].
    assert (Hcharts : l10 = [] /\
              (if has_column dff "Analise"
               then exists c, create_statistics_chart dff "Analise" cm = Ok c /\
                              figs = Some c
               else figs = None)).
    { destruct (has_column dff "Analise").
      - bind_inv Hfigs c l11 l11' Hc Hfigs. lift_inv Hc. ret_inv Hfigs.
        split; [reflexivity |]. now exists c.
      - ret_inv Hfigs. now split. }
    destruct Hcharts as [-> Hcharts].
    split; [assumption |]. split; [reflexivity |].
    cbn. now rewrite ?app_nil_r.
  - bind_inv H u3 l9 l9' Hu3 H. ret_inv H. subst page.
    unfold report in Hu3. injection Hu3 as _ <-.
    split; [reflexivity |]. cbn. now rewrite ?app_nil_r.
Qed.

(** X17. With no filter column chosen the script shows nothing, whatever
    the sheet holds: no map, no chart, no table, and after a successful load
    the one thing it adds to the loader's reports is the warning that asks
    for filter columns. *)
Theorem no_filter_column_shows_nothing
    (excel_file logo_path : string) (ui : UI) (page : Page)
    (log : list Report) :
  filter_columns ui = [] ->
  app excel_file logo_path ui = (Ok page, log) ->
  page = blank_page /\
  forall df0 log0, load_data excel_file = (Some df0, log0) ->
                   log = log0 ++ [StWarning no_filter_column].
Proof.
  intros Hfc H.
  destruct (app_inv _ _ _ _ _ H)
    as [(log0 & Hload & -> & ->)
       | (df0 & log0 & df1 & dfd & Hload & _ & _ &
          [(_ & -> & ->) | (fs & dff & cm & cv & l1 & Hne & _)])].
  - split; [reflexivity |]. intros d l Hl. rewrite Hl in Hload. discriminate.
  - split; [reflexivity |]. intros d l Hl. rewrite Hl in Hload.
    now injection Hload as _ ->.
  - contradiction.
Qed.

(** X18. A run that ends without an exception shows either map and table
    together or nothing at all; when it shows nothing, the last report says
    why: the load failed, no filter column was chosen, or the conversion to
    GeoJSON failed. *)
Theorem page_is_whole_or_explained
    (excel_file logo_path : string) (ui : UI) (page : Page)
    (log : list Report) :
  app excel_file logo_path ui = (Ok page, log) ->
  (exists m dff, scene page = Some m /\ filtered_table page = Some dff) \/
  (page = blank_page /\
   exists before why,
     log = before ++ [why] /\
     (why = StError load_failed \/ why = StWarning no_filter_column \/
      why = StError geojson_failed)).
Proof.
  intros H.
  destruct (app_inv _ _ _ _ _ H)
    as [(log0 & _ & -> & ->)
       | (df0 & log0 & df1 & dfd & _ & _ & _ &
          [(_ & -> & ->) | (fs & dff & cm & cv & l1 & _ & _ & _ & _ & _ & Hc)])].
  - right. split; [reflexivity |]. exists log0, (StError load_failed). tauto.
  - right. split; [reflexivity |].
    exists log0, (StWarning no_filter_column). tauto.
  - destruct cv as [[file gdf] |].
    + destruct Hc as (m0 & l2 & figs & _ & _ & -> & _). left.
      now eexists _, _.
    + destruct Hc as [-> ->]. right. split; [reflexivity |].
      exists (log0 ++ l1), (StError geojson_failed).
      split; [now rewrite app_assoc | tauto].
Qed.

(** X19. With a legend column chosen, the colours are picked for the values
    left by the filter: the legend panel of the map lists each distinct
    value of the filtered table's legend column once, in order of first
    appearance, with the colour picked for it, and looking up any present
    value of that column gives its picked colour.  If the filter leaves no
    row, the map has no legend panel and no marker. *)
Theorem legend_lists_filtered_values
    (excel_file logo_path : string) (ui : UI) (page : Page)
    (log : list Report) (m : Scene) (c : string) :
  app excel_file logo_path ui = (Ok page, log) ->
  scene page = Some m ->
  legend_choice ui = Some c -> c <> "" ->
  exists dff series,
    filtered_table page = Some dff /\ get_column dff c = Ok series /\
    (series <> [] -> legend_panels m = [picked_colors ui series]) /\
    (series = [] -> legend_panels m = [] /\ markers_of m = []) /\
    (forall v, In v series -> notnull v = true ->
               dict_item (picked_colors ui series) v = Ok (color_picker ui v)).
Proof.
  intros H Hs Hlc Hc.
  destruct (app_inv _ _ _ _ _ H)
    as [(log0 & _ & -> & _)
       | (df0 & log0 & df1 & dfd & _ & _ & _ &
          [(_ & -> & _) | (fs & dff & cm & cv & l1 & _ & _ & _ & Hcm & _ & Hp)])];
    try discriminate.
  destruct cv as [[file gdf] |]; [| destruct Hp as [-> _]; discriminate].
  destruct Hp as (m0 & l2 & figs & Hmap & _ & -> & _).
  cbn [scene] in Hs. injection Hs as <-.
  assert (Hset : legend_set (legend_choice ui) = true).
  { rewrite Hlc. cbn [legend_set]. destruct (String.eqb c "") eqn:E;
      [apply String.eqb_eq in E; contradiction | reflexivity]. }
  rewrite Hset in Hcm. destruct Hcm as (c' & series & Hlc' & Hg & ->).
  rewrite Hlc in Hlc'. injection Hlc' as <-.
  exists dff, series. split; [reflexivity |]. split; [assumption |].
  pose proof (create_map_marked _ _ _ _ _ _ _ _ _ Hmap) as Hm.
  rewrite Hset in Hm. cbn [andb] in Hm.
  rewrite legend_panels_base, markers_of_base.
  split; [| split].
  - intros Hne. unfold picked_colors in *.
    destruct (unique series) as [| v vs] eqn:Hu;
      [now apply unique_nonempty in Hu |].
    exact (proj1 Hm).
  - intros ->. exact Hm.
  - intros v Hv _. unfold dict_item, picked_colors.
    rewrite dict_lookup_map; [reflexivity | now apply In_unique].
Qed.

(** X20. The table on the page is the filtered display table: its columns
    are those of the sheet without POINT_X, POINT_Y, Longitude and Latitude
    (in the sheet's order, when the sheet's column names are distinct), and
    its rows are rows of the display table, which has one row per row of
    the loaded sheet with the same label. *)
Theorem shown_table_is_filtered_display
    (excel_file logo_path : string) (ui : UI) (page : Page)
    (log : list Report) (dff : DataFrame) :
  app excel_file logo_path ui = (Ok page, log) ->
  filtered_table page = Some dff ->
  exists df0 log0 df1 dfd,
    load_data excel_file = (Some df0, log0) /\
    convert_utm_to_latlon df0 = Ok df1 /\
    drop_columns df1 ["POINT_X"; "POINT_Y"; "Longitude"; "Latitude"] = Ok dfd /\
    map label (rows dfd) = map label (rows df0) /\
    columns dff = columns dfd /\
    (exists keep : Row -> bool, rows dff = filter keep (rows dfd)) /\
    (NoDup (columns df0) ->
     columns dff
     = filter (fun x => negb (existsb (String.eqb x)
                                ["POINT_X"; "POINT_Y"; "Longitude"; "Latitude"]))
              (columns df0)).
Proof.
  intros H Ht.
  destruct (app_inv _ _ _ _ _ H)
    as [(log0 & _ & -> & _)
       | (df0 & log0 & df1 & dfd & Hload & Hutm & Hdrop &
          [(_ & -> & _) | (fs & dff' & cm & cv & l1 & _ & _ & Hf & _ & _ & Hp)])];
    try discriminate.
  destruct cv as [[file gdf] |]; [| destruct Hp as [-> _]; discriminate].
  destruct Hp as (m0 & l2 & figs & _ & _ & -> & _).
  cbn [filtered_table] in Ht. injection Ht as <-.
  exists df0, log0, df1, dfd. repeat (split; [assumption |]).
  split.
  { rewrite (drop_columns_labels _ _ _ Hdrop). now apply convert_utm_labels. }
  pose proof (apply_attribute_filters_columns _ _ _ Hf) as Hcols.
  split; [assumption |]. split; [exact (apply_attribute_filters_rows _ _ _ Hf) |].
  intros Hnd.
  destruct (convert_utm_columns _ _
              (fun x => negb (existsb (String.eqb x)
                                ["POINT_X"; "POINT_Y"; "Longitude"; "Latitude"]))
              Hutm eq_refl eq_refl) as [Hnd1 Hkeep].
  rewrite Hcols, (drop_columns_columns _ _ _ Hdrop (Hnd1 Hnd)). exact Hkeep.
Qed.

(** X21. The charts follow the filter: the page has charts exactly when the
    filtered table has an Analise column, and then they are the statistics
    of that column of the filtered table. *)
Theorem charts_follow_filtered_table
    (excel_file logo_path : string) (ui : UI) (page : Page)
    (log : list Report) (dff : DataFrame) :
  app excel_file logo_path ui = (Ok page, log) ->
  filtered_table page = Some dff ->
  if has_column dff "Analise"
  then exists series c,
         get_column dff "Analise" = Ok series /\ charts page = Some c /\
         stats_df c = stats_table series
  else charts page = None.
Proof.
  intros H Ht.
  destruct (app_inv _ _ _ _ _ H)
    as [(log0 & _ & -> & _)
       | (df0 & log0 & df1 & dfd & _ & _ & _ &
          [(_ & -> & _) | (fs & dff' & cm & cv & l1 & _ & _ & _ & _ & _ & Hp)])];
    try discriminate.
  destruct cv as [[file gdf] |]; [| destruct Hp as [-> _]; discriminate].
  destruct Hp as (m0 & l2 & figs & _ & Hfigs & -> & _).
  cbn [filtered_table] in Ht. injection Ht as ->. cbn [charts].
  destruct (has_column dff "Analise") eqn:Ha; [| assumption].
  destruct Hfigs as (c & Hc & ->).
  destruct (has_column_get _ _ Ha) as [i [_ Hg]].
  unfold create_statistics_chart in Hc. rewrite Hg in Hc. cbn [rbind] in Hc.
  injection Hc as <-. eexists _, _. split; [exact Hg |]. split; reflexivity.
Qed.

(** X22. When [convert_to_geojson] returns a frame of a rectangular table,
    the file was written from that frame, its geometry column holds for
    each row the point made of that row's Longitude and Latitude, and every
    other column is as in the input. *)
Theorem geometry_column_holds_points
    (df gdf : DataFrame) (file : string) (log : list Report) :
  well_formed df = true ->
  convert_to_geojson df = (Ok (Some (file, gdf)), log) ->
  exists lons lats,
    get_column df "Longitude" = Ok lons /\
    get_column df "Latitude" = Ok lats /\
    get_column gdf "geometry"
    = Ok (map (fun p => VPoint (fst p) (snd p)) (combine lons lats)) /\
    to_file gdf file = Ok tt /\
    forall c, c <> "geometry" -> get_column gdf c = get_column df c.
Proof.
  intros Hwf. unfold convert_to_geojson.
  destruct (has_column df "Longitude" && has_column df "Latitude") eqn:Hc.
  2:{ cbn. discriminate. }
  apply andb_true_iff in Hc. destruct Hc as [Hlon Hlat].
  destruct (has_column_get _ _ Hlon) as [i [_ Hgi]].
  destruct (has_column_get _ _ Hlat) as [j [_ Hgj]].
  rewrite Hgi, Hgj. unfold lift. cbn [mbind].
  set (pts := map (fun p => VPoint (fst p) (snd p))
                  (combine (map (cell i) (rows df)) (map (cell j) (rows df)))).
  assert (Hlen : length pts = length (rows df)).
  { unfold pts. rewrite length_map, length_combine, !length_map. lia. }
  destruct (df_empty (set_column df "geometry" pts)); cbn [negb].
  { cbn. discriminate. }
  destruct (to_file (set_column df "geometry" pts) "output.geojson")
    as [[] | e] eqn:Hw; cbn; [| discriminate].
  intros [= <- <- <-]. eexists _, _. split; [reflexivity |].
  split; [reflexivity |]. split; [now apply get_set_column |].
  split; [assumption |].
  intros c Hne. apply get_set_column_other; [assumption | congruence | assumption].
Qed.

End ScriptFacts.

Lemma no_filter_column_shows_nothing_witness :
  filter_columns Cases.no_filter = [] /\
  app (R := Sample.runtime) "survey.xlsx" "logo.png" Cases.no_filter
  = (Ok blank_page, [StWarning no_filter_column]) /\
  forall df0 log0,
    load_data (R := Sample.runtime) "survey.xlsx" = (Some df0, log0) ->
    [StWarning no_filter_column] = log0 ++ [StWarning no_filter_column].
Proof.
  split; [reflexivity |]. split; [reflexivity |].
  apply (no_filter_column_shows_nothing (R := Sample.runtime)
           "survey.xlsx" "logo.png" Cases.no_filter blank_page
           [StWarning no_filter_column]); reflexivity.
Defined.

Lemma page_is_whole_or_explained_witness :
  app (R := Sample.runtime) "survey.xlsx" "logo.png" Cases.legend_all
  = (Ok Cases.legend_page, []) /\
  ((exists m dff, scene Cases.legend_page = Some m /\
                  filtered_table Cases.legend_page = Some dff) \/
   (Cases.legend_page = blank_page /\
    exists before why,
      [] = before ++ [why] /\
      (why = StError load_failed \/ why = StWarning no_filter_column \/
       why = StError geojson_failed))).
Proof.
  split; [reflexivity |].
  apply (page_is_whole_or_explained (R := Sample.runtime)
           "survey.xlsx" "logo.png" Cases.legend_all).
  reflexivity.
Defined.

Lemma legend_lists_filtered_values_witness :
  app (R := Sample.runtime) "survey.xlsx" "logo.png" Cases.legend_all
  = (Ok Cases.legend_page, []) /\
  scene Cases.legend_page = Some Cases.legend_scene /\
  exists dff series,
    filtered_table Cases.legend_page = Some dff /\
    get_column dff "Tipo" = Ok series /\
    (series <> [] ->
     legend_panels Cases.legend_scene = [picked_colors Cases.legend_all series]) /\
    (series = [] ->
     legend_panels Cases.legend_scene = [] /\
     markers_of Cases.legend_scene = []) /\
    (forall v, In v series -> notnull v = true ->
               dict_item (picked_colors Cases.legend_all series) v
               = Ok (color_picker Cases.legend_all v)).
Proof.
  split; [reflexivity |]. split; [reflexivity |].
  apply (legend_lists_filtered_values (R := Sample.runtime)
           "survey.xlsx" "logo.png" Cases.legend_all Cases.legend_page []
           Cases.legend_scene "Tipo");
    first [reflexivity | discriminate].
Defined.

Lemma shown_table_is_filtered_display_witness :
  app (R := Sample.runtime) "survey.xlsx" "logo.png" Cases.legend_all
  = (Ok Cases.legend_page, []) /\
  filtered_table Cases.legend_page = Some Cases.legend_table /\
  columns Cases.legend_table = ["Tipo"; "Analise"; "Data"] /\
  exists df0 log0 df1 dfd,
    load_data (R := Sample.runtime) "survey.xlsx" = (Some df0, log0) /\
    convert_utm_to_latlon (R := Sample.runtime) df0 = Ok df1 /\
    drop_columns df1 ["POINT_X"; "POINT_Y"; "Longitude"; "Latitude"] = Ok dfd /\
    map label (rows dfd) = map label (rows df0) /\
    columns Cases.legend_table = columns dfd /\
    (exists keep : Row -> bool, rows Cases.legend_table = filter keep (rows dfd)) /\
    (NoDup (columns df0) ->
     columns Cases.legend_table
     = filter (fun x => negb (existsb (String.eqb x)
                                ["POINT_X"; "POINT_Y"; "Longitude"; "Latitude"]))
              (columns df0)).
Proof.
  split; [reflexivity |]. split; [reflexivity |]. split; [reflexivity |].
  apply (shown_table_is_filtered_display (R := Sample.runtime)
           "survey.xlsx" "logo.png" Cases.legend_all Cases.legend_page []);
    reflexivity.
Defined.

Lemma charts_follow_filtered_table_witness :
  app (R := Sample.runtime) "survey.xlsx" "logo.png" Sample.only_A_plain
  = (Ok Sample.plain_page, []) /\
  filtered_table Sample.plain_page = Some Sample.plain_filtered /\
  exists series c,
    get_column Sample.plain_filtered "Analise" = Ok series /\
    charts Sample.plain_page = Some c /\
    stats_df c = stats_table series.
Proof.
  split; [reflexivity |]. split; [reflexivity |].
  exact (charts_follow_filtered_table (R := Sample.runtime)
           "survey.xlsx" "logo.png" Sample.only_A_plain Sample.plain_page []
           Sample.plain_filtered eq_refl eq_refl).
Defined.

Lemma geometry_column_holds_points_witness :
  well_formed Cases.geo = true /\
  exists gdf,
    convert_to_geojson (R := Sample.runtime) Cases.geo
    = (Ok (Some ("output.geojson", gdf)), []) /\
    get_column gdf "geometry"
    = Ok [VPoint (VFloat 1) (VFloat 2); VPoint (VFloat 3) (VFloat 4)] /\
    exists lons lats,
      get_column Cases.geo "Longitude" = Ok lons /\
      get_column Cases.geo "Latitude" = Ok lats /\
      get_column gdf "geometry"
      = Ok (map (fun p => VPoint (fst p) (snd p)) (combine lons lats)) /\
      to_file (Runtime := Sample.runtime) gdf "output.geojson" = Ok tt /\
      forall c, c <> "geometry" -> get_column gdf c = get_column Cases.geo c.
Proof.
  split; [reflexivity |]. eexists. split; [reflexivity |].
  split; [reflexivity |].
  apply (geometry_column_holds_points (R := Sample.runtime) Cases.geo _
           "output.geojson" []); reflexivity.
Defined.

(** ** Layer composer: colours *)

Lemma Forall2_In_l {A B} (P : A -> B -> Prop) (l : list A) (l' : list B) (x : A) :
  Forall2 P l l' -> In x l -> exists y, In y l' /\ P x y.
Proof.
  induction 1 as [| a b l l' Hab _ IH]; simpl; [contradiction |].
  intros [<- | Hx].
  - exists b. split; [now left | assumption].
  - destruct (IH Hx) as [y [Hy Hp]]. exists y. split; [now right | assumption].
Qed.


Section ColourFacts.
Context {R : Runtime}.


(** X23. Markers need a colour for every row of the map table: with a
    legend column and a non-empty colour map, one row whose legend value
    has no entry in the map is enough for [create_map] to end with an
    exception instead of a scene. *)
Theorem unmapped_value_stops_the_map
    (gdf : DataFrame) (bo lp : string) (lc : option string) (cm : ColorMap)
    (gh gt : bool) (r : Row) (key : Value) :
  legend_set lc && truthy cm = true ->
  In r (rows gdf) ->
  row_legend gdf r lc = Ok key ->
  dict_lookup cm key = None ->
  exists e log, create_map gdf bo lp lc cm gh gt = (Raise e, log).
Proof.
  intros Hon Hr Hk Hnone.
  destruct (create_map gdf bo lp lc cm gh gt) as [[m | e] log] eqn:H;
    [| now exists e, log].
  exfalso. pose proof (create_map_marked _ _ _ _ _ _ _ _ _ H) as Hm.
  rewrite Hon in Hm. destruct Hm as [_ Hms].
  apply mapM_Forall2 in Hms.
  destruct (Forall2_In_l _ _ _ _ Hms Hr) as [l [_ Hl]].
  unfold circle_marker, dict_item in Hl.
  destruct (row_get gdf r "Latitude"); cbn [rbind] in Hl; [| discriminate].
  destruct (row_get gdf r "Longitude"); cbn [rbind] in Hl; [| discriminate].
  rewrite Hk in Hl. cbn [rbind] in Hl. rewrite Hnone in Hl. discriminate.
Qed.


End ColourFacts.

Lemma unmapped_value_stops_the_map_witness :
  In (mkRow 1 [VStr "B"; VNaT; VFloat 3; VFloat 4]) (rows Cases.geo) /\
  dict_lookup [(VStr "A", "#ff0000")] (VStr "B") = None /\
  exists e log,
    create_map (R := Sample.runtime) Cases.geo "OpenStreetMap" "logo.png"
      (Some "Tipo") [(VStr "A", "#ff0000")] false false = (Raise e, log).
Proof.
  split; [right; now left |]. split; [reflexivity |].
  apply (unmapped_value_stops_the_map (R := Sample.runtime) Cases.geo
           "OpenStreetMap" "logo.png" (Some "Tipo") [(VStr "A", "#ff0000")]
           false false (mkRow 1 [VStr "B"; VNaT; VFloat 3; VFloat 4])
           (VStr "B")).
  - reflexivity.
  - right; now left.
  - reflexivity.
  - reflexivity.
Defined.

